(** * Schema-driven extraction and task lifecycle: a shallow embedding

    The development follows the Python sources of the parser:
    - [src/uca/common/transformers.py]   (transformation library)
    - [src/uca/common/extractor.py]      (extraction core)
    - [src/uca/common/result_builder.py] (result accumulator)
    - [src/uca/http_worker/worker.py], [src/uca/browser_worker/worker.py]
    - [src/controlpanel/services/task_service.py] (task coordinator)

    Conventions.  Python [str] is modelled by [string]; the character
    classes ([str.strip], [str.lower], the regex class [\d]) are those of
    ASCII text.  A Python [float] is modelled by the exact rational its
    decimal text denotes ([Q]); the binary rounding performed by [float()]
    is a function of that rational and is not represented.  Exceptions are
    values of [exn] carried by the [res] type. *)

From Stdlib Require Import ZArith QArith Ascii String List Lia DecimalString.
From stdpp Require Import base gmap strings list.

Set Warnings "-clear-no-such-hyp".

Local Open Scope string_scope.
Local Open Scope list_scope.
Local Open Scope Z_scope.

(** ** Python values *)

#[warnings="-register-all"] Inductive pyval : Type :=
| VNone
| VBool (b : bool)
| VInt (n : Z)
| VFloat (q : Q)
| VStr (s : string)
| VList (l : list pyval)
| VDict (d : list (string * pyval)).

Definition is_None (v : pyval) : bool :=
  match v with VNone => true | _ => false end.

(** Python truthiness ([if value:]). *)
Definition truthy (v : pyval) : bool :=
  match v with
  | VNone => false
  | VBool b => b
  | VInt n => negb (n =? 0)
  | VFloat q => negb (Qnum q =? 0)
  | VStr s => negb (String.eqb s "")
  | VList l => match l with [] => false | _ => true end
  | VDict d => match d with [] => false | _ => true end
  end.

(** ** Exceptions *)

Inductive exn : Type :=
| TimeoutError
| ClientError (msg : string)
| ValueError (msg : string)
| IntegrityError (msg : string)
| OtherError (msg : string).

Inductive res (A : Type) : Type :=
| Ok (a : A)
| Raise (e : exn).
Arguments Ok {A} a.
Arguments Raise {A} e.

Definition rbind {A B} (m : res A) (k : A → res B) : res B :=
  match m with Ok a => k a | Raise e => Raise e end.

(** ** Text primitives (the [str] methods the sources call) *)

Abbreviation text := (list ascii).

Definition to_text (s : string) : text := list_ascii_of_string s.
Definition of_text (l : text) : string := string_of_list_ascii l.

Definition chr_eqb (a b : ascii) : bool := Ascii.eqb a b.
Arguments chr_eqb : simpl never.

Definition is_digit (c : ascii) : bool :=
  let n := nat_of_ascii c in (48 <=? n)%nat && (n <=? 57)%nat.

(** [str.isspace] on ASCII: TAB, LF, VT, FF, CR, FS, GS, RS, US and space. *)
Definition is_space (c : ascii) : bool :=
  let n := nat_of_ascii c in
  ((9 <=? n)%nat && (n <=? 13)%nat) || ((28 <=? n)%nat && (n <=? 32)%nat).

Fixpoint lstrip_by (p : ascii → bool) (l : text) : text :=
  match l with
  | [] => []
  | c :: t => if p c then lstrip_by p t else l
  end.

Definition strip_by (p : ascii → bool) (l : text) : text :=
  rev (lstrip_by p (rev (lstrip_by p l))).

(** [s.strip()] *)
Definition str_strip (s : string) : string := of_text (strip_by is_space (to_text s)).

Definition lower_chr (c : ascii) : ascii :=
  let n := nat_of_ascii c in
  if (65 <=? n)%nat && (n <=? 90)%nat then ascii_of_nat (n + 32) else c.

Definition upper_chr (c : ascii) : ascii :=
  let n := nat_of_ascii c in
  if (97 <=? n)%nat && (n <=? 122)%nat then ascii_of_nat (n - 32) else c.

(** [s.lower()], [s.upper()] *)
Definition str_lower (s : string) : string := of_text (map lower_chr (to_text s)).
Definition str_upper (s : string) : string := of_text (map upper_chr (to_text s)).

Fixpoint is_prefix (p l : text) : bool :=
  match p, l with
  | [], _ => true
  | a :: p', b :: l' => chr_eqb a b && is_prefix p' l'
  | _ :: _, [] => false
  end.

(** [s.startswith(p)] *)
Definition startswith (s p : string) : bool := is_prefix (to_text p) (to_text s).

Fixpoint is_infix (p l : text) : bool :=
  is_prefix p l || match l with [] => false | _ :: t => is_infix p t end.

(** [p in s] for strings *)
Definition str_contains (p s : string) : bool := is_infix (to_text p) (to_text s).

(** [c in l] for a single character. *)
Definition has_chr (c : ascii) (l : text) : bool := existsb (chr_eqb c) l.

(** [l.rfind(c)]: the highest index of [c], or -1. *)
Fixpoint rfind_from (c : ascii) (l : text) (i acc : Z) : Z :=
  match l with
  | [] => acc
  | x :: t => rfind_from c t (i + 1) (if chr_eqb x c then i else acc)
  end.
Definition rfind (c : ascii) (l : text) : Z := rfind_from c l 0 (-1).

(** [l.replace(old, new)] for a non-empty [old]: left to right, without
    overlap.  [skip] counts the characters of a match still to be dropped. *)
Fixpoint replace_go (old new : text) (skip : nat) (l : text) : text :=
  match l with
  | [] => []
  | x :: t =>
      match skip with
      | S k => replace_go old new k t
      | O => if is_prefix old l
             then new ++ replace_go old new (length old - 1)%nat t
             else x :: replace_go old new 0 t
      end
  end.

(** With an empty [old] Python puts [new] before every character and at the
    end. *)
Definition text_replace (old new l : text) : text :=
  match old with
  | [] => flat_map (λ x, new ++ [x]) l ++ new
  | _ => replace_go old new 0 l
  end.

Definition str_replace (s old new : string) : string :=
  of_text (text_replace (to_text old) (to_text new) (to_text s)).

(** [l.split(c)] for a one-character separator: never an empty list. *)
Fixpoint split_chr (c : ascii) (l : text) : list text :=
  match l with
  | [] => [[]]
  | x :: t =>
      if chr_eqb x c then [] :: split_chr c t
      else match split_chr c t with
           | h :: r => (x :: h) :: r
           | [] => [[x]]
           end
  end.

(** [l.split()]: the maximal runs of non-space characters. *)
Fixpoint words_go (cur : text) (l : text) : list text :=
  match l with
  | [] => match cur with [] => [] | _ => [rev cur] end
  | x :: t =>
      if is_space x
      then match cur with [] => words_go [] t | _ => rev cur :: words_go [] t end
      else words_go (x :: cur) t
  end.

Fixpoint join_with (sep : text) (ws : list text) : text :=
  match ws with
  | [] => []
  | [w] => w
  | w :: r => w ++ sep ++ join_with sep r
  end.

(** [s[start:end]] with Python's clamping of negative and large indices. *)
Definition clamp_index (len i : Z) : Z :=
  let j := if i <? 0 then i + len else i in
  Z.max 0 (Z.min len j).

Definition str_slice (s : string) (start : Z) (stop : option Z) : string :=
  let l := to_text s in
  let len := Z.of_nat (length l) in
  let a := clamp_index len start in
  let b := match stop with Some e => clamp_index len e | None => len end in
  of_text (take (Z.to_nat (b - a)) (drop (Z.to_nat a) l)).

(** [len(s)]: the number of code points of the text.  A string holds the
    UTF-8 encoding of the Python text, in which every code point has exactly
    one byte that is not a continuation byte ([10xxxxxx]). *)
Definition is_continuation (c : ascii) : bool :=
  let 'Ascii _ _ _ _ _ _ b6 b7 := c in b7 && negb b6.

Definition py_len (s : string) : nat :=
  length (filter (λ c, is_continuation c = false) (to_text s)).

(** ** Decimal texts and [float()] *)

Definition digit_val (c : ascii) : Z := Z.of_nat (nat_of_ascii c) - 48.

Definition digits_val (l : text) : Z :=
  fold_left (λ acc c, 10 * acc + digit_val c) l 0.

Definition pow10 (n : nat) : positive := Z.to_pos (10 ^ Z.of_nat n).

(** [float(l)] for a plain decimal text: an optional sign, digits with at
    most one point, at least one digit.  Exponents, [inf]/[nan], digit
    separators and surrounding blanks are outside this model; none can
    occur in a text made of digits, points, commas and minus signs. *)
Definition float_unsigned (l : text) : option Q :=
  let int_part := take (length l - length (lstrip_by is_digit l))%nat l in
  match lstrip_by is_digit l with
  | [] => match int_part with
          | [] => None
          | _ => Some (digits_val int_part # 1)
          end
  | c :: frac =>
      if chr_eqb c "." && forallb is_digit frac
         && negb (Nat.eqb (length int_part + length frac)%nat 0%nat)
      then Some (digits_val (int_part ++ frac) # pow10 (length frac))
      else None
  end.

Definition py_float (l : text) : option Q :=
  match l with
  | c :: t =>
      if chr_eqb c "-" then
        match float_unsigned t with
        | Some q => Some (Qopp q)
        | None => None
        end
      else if chr_eqb c "+" then float_unsigned t
      else float_unsigned l
  | [] => None
  end.

(** [int(x)] for a float: truncation toward zero. *)
Definition int_of_float (q : Q) : Z := Z.quot (Qnum q) (Zpos (Qden q)).

(** ** Library calls taken as parameters

    The standard-library and third-party calls whose results the sources
    only pass along are fields of [PyLib]. *)

Class PyLib := {
  (** [str(v)] for a value that is not a string *)
  py_str : pyval → string;
  (** [int(s)]; [ValueError] on a malformed text *)
  py_int : string → res Z;
  str_capitalize : string → string;
  str_title : string → string;
  (** [urllib.parse.urljoin(base, url)] *)
  urljoin : string → string → res string;
  (** [urlparse(s).netloc] *)
  urlparse_netloc : string → res string;
  (** [datetime.strptime(s, fmt).strftime("%Y-%m-%d")], [None] on [ValueError] *)
  strptime_date : string → string → option string;
  (** [datetime.strptime(s, fmt).isoformat()], [None] on [ValueError] *)
  strptime_iso : string → string → option string;
  (** [re.sub(pattern, repl, s)] *)
  re_sub : string → string → string → string;
  (** [html.unescape(s)] *)
  html_unescape : string → string;
  (** [json.loads(s)] *)
  json_loads : string → res pyval;
  (** [m = re.search(pattern, s); m.group(g) if m else None] *)
  re_search_group : string → string → Z → res pyval;
  (** [bool(re.match(pattern, s))] *)
  re_match : string → string → res bool;
}.

(** ** transformers.py *)

Section Transformers.
Context `{PyLib}.

(** [re.sub(r"[^\d.,\-]", "", value)] *)
Definition keep_numeric (c : ascii) : bool :=
  is_digit c || chr_eqb c "." || chr_eqb c "," || chr_eqb c "-".

Definition clean_number (value : text) : text := filter (λ c, keep_numeric c = true) value.

(** The separator normalisation of [_extract_number], on the cleaned text. *)
Definition normalize_separators (cleaned : text) : text :=
  if has_chr "," cleaned && has_chr "." cleaned then
    if rfind "," cleaned >? rfind "." cleaned
    then text_replace [","%char] ["."%char] (text_replace ["."%char] [] cleaned)
    else text_replace [","%char] [] cleaned
  else if has_chr "," cleaned then
    if Nat.eqb (length (List.last (split_chr "," cleaned) [])) 2
    then text_replace [","%char] ["."%char] cleaned
    else text_replace [","%char] [] cleaned
  else cleaned.

Definition _extract_number (value : string) : option Q :=
  if String.eqb value "" then None
  else py_float (normalize_separators (clean_number (to_text value))).

Definition currency_symbols : list (string * string) :=
  [("$", "USD"); ("€", "EUR"); ("£", "GBP"); ("¥", "JPY");
   ("₽", "RUB"); ("₴", "UAH"); ("zł", "PLN"); ("kr", "SEK")].

Definition _extract_price (value : string) : pyval :=
  if String.eqb value "" then VNone
  else
    let currency :=
      match List.find (λ sc, str_contains (fst sc) value) currency_symbols with
      | Some sc => VStr (snd sc)
      | None => VNone
      end in
    match _extract_number value with
    | Some amount => VDict [("amount", VFloat amount); ("currency", currency)]
    | None => VNone
    end.

Fixpoint first_format (parse : string → string → option string)
    (formats : list string) (value : string) : option string :=
  match formats with
  | [] => None
  | fmt :: rest =>
      match parse (str_strip value) fmt with
      | Some out => Some out
      | None => first_format parse rest value
      end
  end.

Definition _parse_date (value : string) : string :=
  default value
    (first_format strptime_date
       ["%Y-%m-%d"; "%d.%m.%Y"; "%d/%m/%Y"; "%m/%d/%Y"; "%d-%m-%Y";
        "%Y/%m/%d"; "%B %d, %Y"; "%b %d, %Y"; "%d %B %Y"; "%d %b %Y"] value).

Definition _parse_datetime (value : string) : string :=
  default value
    (first_format strptime_iso
       ["%Y-%m-%dT%H:%M:%S"; "%Y-%m-%dT%H:%M:%SZ"; "%Y-%m-%d %H:%M:%S";
        "%d.%m.%Y %H:%M"; "%d/%m/%Y %H:%M:%S"] value).

Definition true_values : list string :=
  ["true"; "yes"; "1"; "on"; "да"; "есть"; "в наличии"; "in stock"].
Definition false_values : list string :=
  ["false"; "no"; "0"; "off"; "нет"; "отсутствует"; "out of stock"].

Definition _to_bool (value : string) : bool :=
  let lower := str_strip (str_lower value) in
  if existsb (String.eqb lower) true_values then true
  else if existsb (String.eqb lower) false_values then false
  else negb (String.eqb (str_strip value) "").

(** [_apply_regex]: every exception of the search is swallowed. *)
Definition _apply_regex (value pattern : string) (group : Z) : pyval :=
  match re_search_group pattern value group with
  | Ok v => v
  | Raise _ => VNone
  end.

(** [l.split(c, n)]: at most [n] cuts. *)
Fixpoint split_chr_max (c : ascii) (n : nat) (l : text) : list text :=
  match n with
  | O => [l]
  | S k =>
      match l with
      | [] => [[]]
      | x :: t =>
          if chr_eqb x c then [] :: split_chr_max c k t
          else match split_chr_max c n t with
               | h :: r => (x :: h) :: r
               | [] => [[x]]
               end
      end
  end.

Definition _apply_single_transform (value : pyval) (transform : string)
    (base_url : string) : res pyval :=
  match value with
  | VNone => Ok VNone
  | _ =>
    let str_value := match value with VStr s => s | _ => py_str value end in
    let transform_lower := str_lower transform in
    if String.eqb transform_lower "trim" then Ok (VStr (str_strip str_value))
    else if String.eqb transform_lower "lowercase" then Ok (VStr (str_lower str_value))
    else if String.eqb transform_lower "uppercase" then Ok (VStr (str_upper str_value))
    else if String.eqb transform_lower "capitalize" then Ok (VStr (str_capitalize str_value))
    else if String.eqb transform_lower "title" then Ok (VStr (str_title str_value))
    else if String.eqb transform_lower "normalize_whitespace" then
      Ok (VStr (of_text (join_with [" "%char] (words_go [] (to_text str_value)))))
    else if String.eqb transform_lower "remove_newlines" then
      Ok (VStr (str_replace (str_replace str_value (String "010" "") " ")
                            (String "013" "") ""))
    else if String.eqb transform_lower "extract_number" then
      Ok (match _extract_number str_value with Some q => VFloat q | None => VNone end)
    else if String.eqb transform_lower "extract_int" then
      Ok (match _extract_number str_value with
          | Some q => VInt (int_of_float q)
          | None => VNone
          end)
    else if String.eqb transform_lower "extract_float" then
      Ok (match _extract_number str_value with Some q => VFloat q | None => VNone end)
    else if String.eqb transform_lower "absolute_url" then
      if negb (String.eqb base_url "")
         && negb (startswith str_value "http://" || startswith str_value "https://"
                  || startswith str_value "//")
      then rbind (urljoin base_url str_value) (λ u, Ok (VStr u))
      else Ok (VStr str_value)
    else if String.eqb transform_lower "extract_domain" then
      Ok (VStr (match urlparse_netloc str_value with Ok d => d | Raise _ => str_value end))
    else if String.eqb transform_lower "parse_date" then Ok (VStr (_parse_date str_value))
    else if String.eqb transform_lower "parse_datetime" then
      Ok (VStr (_parse_datetime str_value))
    else if String.eqb transform_lower "strip_html" then
      Ok (VStr (re_sub "<[^>]+>" "" str_value))
    else if String.eqb transform_lower "decode_entities" then
      Ok (VStr (html_unescape str_value))
    else if String.eqb transform_lower "extract_price" then Ok (_extract_price str_value)
    else if String.eqb transform_lower "to_bool" then Ok (VBool (_to_bool str_value))
    else if String.eqb transform_lower "parse_json" then
      Ok (match json_loads str_value with Ok v => v | Raise _ => VStr str_value end)
    else if startswith transform_lower "regex:" then
      match split_chr_max ":" 2 (to_text transform) with
      | _ :: pattern :: rest =>
          rbind (match rest with
                 | g :: _ => py_int (of_text g)
                 | [] => Ok 0
                 end)
                (λ group, Ok (_apply_regex str_value (of_text pattern) group))
      | _ => Ok value
      end
    else if startswith transform_lower "replace:" then
      match split_chr_max ":" 2 (to_text transform) with
      | _ :: old :: new :: _ => Ok (VStr (str_replace str_value (of_text old) (of_text new)))
      | _ => Ok value
      end
    else if startswith transform_lower "substr:" then
      match split_chr ":" (to_text transform) with
      | _ :: p1 :: rest =>
          rbind (match p1 with [] => Ok 0 | _ => py_int (of_text p1) end) (λ start,
          rbind (match rest with
                 | [] => Ok None
                 | [] :: _ => Ok None
                 | p2 :: _ => rbind (py_int (of_text p2)) (λ e, Ok (Some e))
                 end) (λ stop,
          Ok (VStr (str_slice str_value start stop))))
      | _ => Ok value
      end
    else Ok value
  end.

(** The loop of [apply_transformations]. *)
Fixpoint apply_chain (value : pyval) (transformations : list string)
    (base_url : string) : res pyval :=
  match transformations with
  | [] => Ok value
  | transform :: rest =>
      rbind (_apply_single_transform value transform base_url)
            (λ v, apply_chain v rest base_url)
  end.

Definition apply_transformations (value : pyval) (transformations : list string)
    (base_url : string) : res pyval :=
  match value with
  | VNone => Ok VNone
  | _ => apply_chain value transformations base_url
  end.

End Transformers.

(** *** The separator rule, in the words of the specification

    "If both [,] and [.] appear, the rightmost is decimal; if only [,] and
    exactly two trailing digits, [,] is decimal; else [,] is thousands."
    These definitions are compared with [_extract_number] below. *)

Definition is_separator (c : ascii) : bool := chr_eqb c "," || chr_eqb c ".".

Definition rightmost_separator (l : text) : ascii :=
  List.last (filter (λ c, is_separator c = true) l) "."%char.

(** The characters that follow the last [c] (all of [l] without a [c]). *)
Fixpoint after_last (c : ascii) (l : text) : text :=
  match l with
  | [] => []
  | x :: t =>
      if has_chr c t then after_last c t
      else if chr_eqb x c then t else l
  end.

Definition decimal_separator (cleaned : text) : ascii :=
  if has_chr "," cleaned && has_chr "." cleaned then rightmost_separator cleaned
  else if has_chr "," cleaned && Nat.eqb (length (after_last "," cleaned)) 2
       then ","%char
       else "."%char.

(** Read [l] with [dec] as the decimal separator: [dec] becomes the point,
    the other separator groups thousands and is dropped. *)
Definition read_decimal (dec : ascii) (l : text) : text :=
  flat_map (λ c, if chr_eqb c dec then ["."%char]
                 else if is_separator c then []
                 else [c]) l.

Definition spec_extract_number (value : string) : option Q :=
  if String.eqb value "" then None
  else let cleaned := clean_number (to_text value) in
       py_float (read_decimal (decimal_separator cleaned) cleaned).

(** A text is trimmed on the left when it does not start with a [p]. *)
Definition ltrimmed (p : ascii → bool) (l : text) : Prop :=
  match l with [] => True | c :: _ => p c = false end.

(** A text of decimal digits. *)
Definition all_digits (l : text) : Prop := Forall (λ c, is_digit c = true) l.

(** ** parsing_schema.py *)

Inductive FieldType := STRING | INTEGER | FLOAT | BOOLEAN | DATETIME | URL | LIST | JSON.

Inductive ExtractionMethod := CSS | XPATH | REGEX | JSON_PATH.

Module FieldDefinition.
Record t := {
    name : string;
    type : FieldType;
    method : ExtractionMethod;
    selector : string;
    attribute : option string;
    required : bool;
    default : option string;
    transformations : list string;
    validation_regex : option string;
    fallback_selectors : list string;
  }.
End FieldDefinition.

Module PaginationRule.
Record t := {
    type : string;
    selector : option string;
    param_name : option string;
    param_start : Z;
    param_step : Z;
    max_pages : Z;
    stop_selector : option string;
    scroll_delay_ms : Z;
  }.
End PaginationRule.

Module ParsingSchema.
Record t := {
    schema_id : string;
    version : string;
    source_id : string;
    start_url : string;
    has_navigation_steps : bool;
    pagination : option PaginationRule.t;
    item_container : option string;
    fields : list FieldDefinition.t;
    min_fields_required : Z;
    request_headers : list (string * string);
  }.
End ParsingSchema.

(** Truthiness of an optional string ([if attribute:]). *)
Definition some_nonempty (o : option string) : bool :=
  match o with Some s => negb (String.eqb s "") | None => false end.

Definition opt_str (o : option string) : pyval :=
  match o with Some s => VStr s | None => VNone end.

(** ** extractor.py *)

(** The HTML backends (selectolax, lxml, [re], [json]) seen from the
    extractor. *)
Class Dom (node : Type) := {
  (** [HTMLParser(html)] *)
  HTMLParser : string → node;
  (** [node.css(selector)] *)
  css : node → string → res (list node);
  (** [element.attributes.get(a)]: a string or [None] *)
  attributes_get : node → string → pyval;
  (** [element.text(deep=True, strip=True)] *)
  text_deep_strip : node → string;
  (** [_extract_xpath]: the lxml query, every failure already mapped to [None] *)
  xpath_first : node → string → option string → pyval;
  (** [_extract_regex]: [re.search] on the node's source, group 1 or 0 *)
  regex_first : node → string → res pyval;
  (** [_extract_jsonpath]: the path looked up in the embedded JSON blocks *)
  jsonpath_first : node → string → res pyval;
}.

(** A record: the Python [dict] from field name to value. *)
Abbreviation record := (gmap string pyval).

(** [record.get(k)] *)
Definition record_get (r : record) (k : string) : pyval := default VNone (r !! k).

Module DataExtractor.
Record t := { schema : ParsingSchema.t; base_url : string }.
End DataExtractor.

Section Extractor.
Context {node : Type} `{Dom node} `{PyLib}.
Variable self : DataExtractor.t.

Definition to_str (v : pyval) : string :=
  match v with VStr s => s | _ => py_str v end.

(** [selector.rsplit("@", 1)] when the selector holds an [@]. *)
Definition rsplit_at (sel : text) : text * text :=
  let tail := after_last "@" sel in
  (take (length sel - length tail - 1)%nat sel, tail).

Definition _extract_css (n : node) (selector : string) (attribute : option string)
    : res pyval :=
  let '(selector, attribute) :=
    if has_chr "@" (to_text selector) && negb (some_nonempty attribute)
    then let '(s, a) := rsplit_at (to_text selector) in (of_text s, Some (of_text a))
    else (selector, attribute) in
  rbind (css n selector) (λ elements,
    match elements with
    | [] => Ok VNone
    | element :: _ =>
        if some_nonempty attribute
        then Ok (attributes_get element (default "" attribute))
        else Ok (VStr (text_deep_strip element))
    end).

(** The [try]/[except Exception] of the source turns every failure into
    [None]. *)
Definition _extract_with_selector (n : node) (method : ExtractionMethod)
    (selector : string) (attribute : option string) : pyval :=
  let r := match method with
           | CSS => _extract_css n selector attribute
           | XPATH => Ok (xpath_first n selector attribute)
           | REGEX => regex_first n selector
           | JSON_PATH => jsonpath_first n selector
           end in
  match r with Ok v => v | Raise _ => VNone end.

(** The fallback loop of [_extract_field], with the selectors it evaluates. *)
Fixpoint try_fallbacks (n : node) (field : FieldDefinition.t)
    (fallbacks : list string) : pyval * list string :=
  match fallbacks with
  | [] => (VNone, [])
  | fallback :: rest =>
      let value := _extract_with_selector n (FieldDefinition.method field)
                     fallback (FieldDefinition.attribute field) in
      if is_None value
      then let '(v, seen) := try_fallbacks n field rest in (v, fallback :: seen)
      else (value, [fallback])
  end.

(** [_extract_field], returning the value and the list of selectors that
    were evaluated, in evaluation order. *)
Definition _extract_field_traced (n : node) (field : FieldDefinition.t)
    : pyval * list string :=
  let value := _extract_with_selector n (FieldDefinition.method field)
                 (FieldDefinition.selector field) (FieldDefinition.attribute field) in
  if is_None value
  then match FieldDefinition.fallback_selectors field with
       | [] => (value, [FieldDefinition.selector field])
       | fallbacks =>
           let '(v, seen) := try_fallbacks n field fallbacks in
           (v, FieldDefinition.selector field :: seen)
       end
  else (value, [FieldDefinition.selector field]).

Definition _extract_field (n : node) (field : FieldDefinition.t) : pyval :=
  fst (_extract_field_traced n field).

Definition is_number (v : pyval) : bool :=
  match v with VInt _ | VFloat _ | VBool _ => true | _ => false end.

(** [int(v)], [float(v)] of a value that is an [int], a [float] or a [bool]. *)
Definition number_to_Q (v : pyval) : Q :=
  match v with
  | VInt n => n # 1
  | VFloat q => q
  | VBool b => (if b then 1 else 0) # 1
  | _ => 0 # 1
  end.

Definition _convert_type (value : pyval) (field_type : FieldType) : pyval :=
  match value with
  | VNone => VNone
  | _ =>
    match field_type with
    | STRING | URL | DATETIME => VStr (to_str value)
    | INTEGER =>
        if is_number value then VInt (int_of_float (number_to_Q value))
        else match py_float (to_text (str_replace (str_replace (to_str value) "," "") " " "")) with
             | Some q => VInt (int_of_float q)
             | None => value
             end
    | FLOAT =>
        if is_number value then VFloat (number_to_Q value)
        else match py_float (to_text (str_replace (str_replace (to_str value) "," ".") " " "")) with
             | Some q => VFloat q
             | None => value
             end
    | BOOLEAN =>
        match value with
        | VBool _ => value
        | _ => VBool (existsb (String.eqb (str_lower (to_str value)))
                        ["true"; "yes"; "1"; "да"])
        end
    | LIST => match value with VList _ => value | _ => VList [value] end
    | JSON =>
        match value with
        | VDict _ | VList _ => value
        | _ => match json_loads (to_str value) with Ok v => v | Raise _ => value end
        end
    end
  end.

(** The body of the [for field in self.schema.fields] loop of
    [_extract_record]: the value stored under the field's name. *)
Definition field_value (n : node) (field : FieldDefinition.t) : res pyval :=
  let value := _extract_field n field in
  rbind
    (if is_None value then Ok value
     else
       rbind (apply_transformations value (FieldDefinition.transformations field)
                (DataExtractor.base_url self)) (λ value,
       let value := _convert_type value (FieldDefinition.type field) in
       if some_nonempty (FieldDefinition.validation_regex field) && truthy value
       then rbind (re_match (default "" (FieldDefinition.validation_regex field))
                            (to_str value)) (λ ok,
              Ok (if ok then value else opt_str (FieldDefinition.default field)))
       else Ok value))
    (λ value,
       Ok (if is_None value && negb (is_None (opt_str (FieldDefinition.default field)))
           then opt_str (FieldDefinition.default field)
           else value)).

Fixpoint _extract_record_loop (n : node) (fields : list FieldDefinition.t)
    (rec : record) : res record :=
  match fields with
  | [] => Ok rec
  | field :: rest =>
      rbind (field_value n field) (λ value,
        _extract_record_loop n rest (<[FieldDefinition.name field := value]> rec))
  end.

Definition _extract_record (n : node) : res record :=
  _extract_record_loop n (ParsingSchema.fields (DataExtractor.schema self)) ∅.

Definition required_fields : list FieldDefinition.t :=
  filter (λ f, FieldDefinition.required f = true)
         (ParsingSchema.fields (DataExtractor.schema self)).

Definition is_filled (rec : record) (f : FieldDefinition.t) : bool :=
  negb (is_None (record_get rec (FieldDefinition.name f))).

(** [sum(1 for f in required_fields if record.get(f.name) is not None)] *)
Definition filled_fields (rec : record) : Z :=
  Z.of_nat (length (filter (λ f, is_filled rec f = true) required_fields)).

Definition _validate_record (rec : record) : bool :=
  if filled_fields rec <? ParsingSchema.min_fields_required (DataExtractor.schema self)
  then false
  else forallb (is_filled rec) required_fields.

(** The loop over the containers in [extract]. *)
Fixpoint extract_containers (containers : list node) : res (list record) :=
  match containers with
  | [] => Ok []
  | container :: rest =>
      rbind (_extract_record container) (λ rec,
      rbind (extract_containers rest) (λ records,
        Ok (if _validate_record rec then rec :: records else records)))
  end.

Definition extract (html : string) : res (list record) :=
  let tree := HTMLParser html in
  if some_nonempty (ParsingSchema.item_container (DataExtractor.schema self))
  then rbind (css tree (default "" (ParsingSchema.item_container (DataExtractor.schema self))))
             extract_containers
  else rbind (_extract_record tree) (λ rec,
         Ok (if _validate_record rec then [rec] else [])).

End Extractor.

(** ** task_message.py, result_message.py *)

(** UUIDs are opaque identifiers; [uuid4()] draws them from the environment. *)
Abbreviation uuid := N.

Inductive TaskStatus :=
| PENDING | QUEUED | RUNNING | SUCCESS | PARTIAL | FAILED | RETRY | CANCELLED | DLQ.

#[global] Instance TaskStatus_eq_dec : EqDecision TaskStatus.
Proof. solve_decision. Defined.

Module TaskMessage.
Record t := {
    task_id : uuid;
    run_id : uuid;
    branch_id : option string;
    parent_task_id : option uuid;
    source_id : string;
    target_url : string;
    mode : string;
    schema_id : string;
    schema_version : string;
    priority : Z;
    max_attempts : Z;
    ttl_seconds : Z;
    timeout_seconds : Z;
    proxy_profile_id : option string;
    session_profile_id : option string;
    context : pyval;
    cookies : option (list pyval);
    headers : list (string * string);
    page_number : Z;
    max_pages : option Z;
    attempt : Z;
  }.

  (** [next_attempt()]: a copy with a fresh [run_id] and the next attempt
      number. *)
Definition next_attempt (self : t) (new_run_id : uuid) : t :=
    {| task_id := task_id self;
       run_id := new_run_id;
       branch_id := branch_id self;
       parent_task_id := parent_task_id self;
       source_id := source_id self;
       target_url := target_url self;
       mode := mode self;
       schema_id := schema_id self;
       schema_version := schema_version self;
       priority := priority self;
       max_attempts := max_attempts self;
       ttl_seconds := ttl_seconds self;
       timeout_seconds := timeout_seconds self;
       proxy_profile_id := proxy_profile_id self;
       session_profile_id := session_profile_id self;
       context := context self;
       cookies := cookies self;
       headers := headers self;
       page_number := page_number self;
       max_pages := max_pages self;
       attempt := attempt self + 1 |}.

  (** [child_task(target_url, page_number=...)]: the fields not passed to the
      constructor take their declared defaults; the identifiers come from
      [uuid4]. *)
Definition child_task (self : t) (new_task_id new_run_id : uuid)
      (target_url : string) (page_number : Z) : t :=
    {| task_id := new_task_id;
       run_id := new_run_id;
       branch_id := branch_id self;
       parent_task_id := Some (task_id self);
       source_id := source_id self;
       target_url := target_url;
       mode := mode self;
       schema_id := schema_id self;
       schema_version := schema_version self;
       priority := priority self;
       max_attempts := max_attempts self;
       ttl_seconds := 3600;
       timeout_seconds := 60;
       proxy_profile_id := proxy_profile_id self;
       session_profile_id := session_profile_id self;
       context := context self;
       cookies := cookies self;
       headers := headers self;
       page_number := page_number;
       max_pages := None;
       attempt := 0 |}.
End TaskMessage.

Module ErrorDetail.
Record t := { code : string; message : string; is_retryable : bool }.
End ErrorDetail.

Module ResultMessage.
Record t := {
    task_id : uuid;
    run_id : uuid;
    status : string;
    http_status : option Z;
    duration_ms : Z;
    bytes_downloaded : Z;
    requests_count : Z;
    pages_processed : Z;
    delta_path : string;
    raw_html_path : option string;
    screenshot_path : option string;
    records_extracted : Z;
    records_valid : Z;
    records_rejected : Z;
    has_next_page : bool;
    next_page_url : option string;
    current_page : Z;
    errors : list ErrorDetail.t;
    worker_id : option string;
  }.

  (** The [should_retry] property. *)
Definition should_retry (self : t) : bool :=
    if negb (String.eqb (status self) "failed") then false
    else existsb ErrorDetail.is_retryable (errors self).
End ResultMessage.

(** ** result_builder.py *)

Module ResultBuilder.
Record t := {
    task_id : uuid;
    run_id : uuid;
    _status : string;
    _http_status : option Z;
    _errors : list ErrorDetail.t;
    _records_extracted : Z;
    _records_valid : Z;
    _records_rejected : Z;
    _bytes_downloaded : Z;
    _requests_count : Z;
    _pages_processed : Z;
    _delta_path : string;
    _raw_html_path : option string;
    _screenshot_path : option string;
    _has_next_page : bool;
    _next_page_url : option string;
    _current_page : Z;
    _worker_id : option string;
  }.

Definition init (task_id run_id : uuid) : t :=
    {| task_id := task_id; run_id := run_id; _status := "running";
       _http_status := None; _errors := []; _records_extracted := 0;
       _records_valid := 0; _records_rejected := 0; _bytes_downloaded := 0;
       _requests_count := 0; _pages_processed := 0; _delta_path := "";
       _raw_html_path := None; _screenshot_path := None; _has_next_page := false;
       _next_page_url := None; _current_page := 1; _worker_id := None |}.

Definition with_status (s : string) (b : t) : t :=
    {| task_id := task_id b; run_id := run_id b; _status := s;
       _http_status := _http_status b; _errors := _errors b;
       _records_extracted := _records_extracted b; _records_valid := _records_valid b;
       _records_rejected := _records_rejected b; _bytes_downloaded := _bytes_downloaded b;
       _requests_count := _requests_count b; _pages_processed := _pages_processed b;
       _delta_path := _delta_path b; _raw_html_path := _raw_html_path b;
       _screenshot_path := _screenshot_path b; _has_next_page := _has_next_page b;
       _next_page_url := _next_page_url b; _current_page := _current_page b;
       _worker_id := _worker_id b |}.

Definition set_http_status (status : Z) (b : t) : t :=
    {| task_id := task_id b; run_id := run_id b; _status := _status b;
       _http_status := Some status; _errors := _errors b;
       _records_extracted := _records_extracted b; _records_valid := _records_valid b;
       _records_rejected := _records_rejected b; _bytes_downloaded := _bytes_downloaded b;
       _requests_count := _requests_count b; _pages_processed := _pages_processed b;
       _delta_path := _delta_path b; _raw_html_path := _raw_html_path b;
       _screenshot_path := _screenshot_path b; _has_next_page := _has_next_page b;
       _next_page_url := _next_page_url b; _current_page := _current_page b;
       _worker_id := _worker_id b |}.

Definition add_error (code message : string) (is_retryable : bool) (b : t) : t :=
    {| task_id := task_id b; run_id := run_id b; _status := _status b;
       _http_status := _http_status b;
       _errors := _errors b ++ [ {| ErrorDetail.code := code;
                                    ErrorDetail.message := message;
                                    ErrorDetail.is_retryable := is_retryable |} ];
       _records_extracted := _records_extracted b; _records_valid := _records_valid b;
       _records_rejected := _records_rejected b; _bytes_downloaded := _bytes_downloaded b;
       _requests_count := _requests_count b; _pages_processed := _pages_processed b;
       _delta_path := _delta_path b; _raw_html_path := _raw_html_path b;
       _screenshot_path := _screenshot_path b; _has_next_page := _has_next_page b;
       _next_page_url := _next_page_url b; _current_page := _current_page b;
       _worker_id := _worker_id b |}.

Definition add_bytes_downloaded (bytes_count : Z) (b : t) : t :=
    {| task_id := task_id b; run_id := run_id b; _status := _status b;
       _http_status := _http_status b; _errors := _errors b;
       _records_extracted := _records_extracted b; _records_valid := _records_valid b;
       _records_rejected := _records_rejected b;
       _bytes_downloaded := _bytes_downloaded b + bytes_count;
       _requests_count := _requests_count b; _pages_processed := _pages_processed b;
       _delta_path := _delta_path b; _raw_html_path := _raw_html_path b;
       _screenshot_path := _screenshot_path b; _has_next_page := _has_next_page b;
       _next_page_url := _next_page_url b; _current_page := _current_page b;
       _worker_id := _worker_id b |}.

Definition increment_requests (b : t) : t :=
    {| task_id := task_id b; run_id := run_id b; _status := _status b;
       _http_status := _http_status b; _errors := _errors b;
       _records_extracted := _records_extracted b; _records_valid := _records_valid b;
       _records_rejected := _records_rejected b; _bytes_downloaded := _bytes_downloaded b;
       _requests_count := _requests_count b + 1; _pages_processed := _pages_processed b;
       _delta_path := _delta_path b; _raw_html_path := _raw_html_path b;
       _screenshot_path := _screenshot_path b; _has_next_page := _has_next_page b;
       _next_page_url := _next_page_url b; _current_page := _current_page b;
       _worker_id := _worker_id b |}.

Definition increment_pages (b : t) : t :=
    {| task_id := task_id b; run_id := run_id b; _status := _status b;
       _http_status := _http_status b; _errors := _errors b;
       _records_extracted := _records_extracted b; _records_valid := _records_valid b;
       _records_rejected := _records_rejected b; _bytes_downloaded := _bytes_downloaded b;
       _requests_count := _requests_count b; _pages_processed := _pages_processed b + 1;
       _delta_path := _delta_path b; _raw_html_path := _raw_html_path b;
       _screenshot_path := _screenshot_path b; _has_next_page := _has_next_page b;
       _next_page_url := _next_page_url b; _current_page := _current_page b;
       _worker_id := _worker_id b |}.

Definition set_extraction_stats (extracted valid rejected : Z) (b : t) : t :=
    {| task_id := task_id b; run_id := run_id b; _status := _status b;
       _http_status := _http_status b; _errors := _errors b;
       _records_extracted := extracted; _records_valid := valid;
       _records_rejected := rejected; _bytes_downloaded := _bytes_downloaded b;
       _requests_count := _requests_count b; _pages_processed := _pages_processed b;
       _delta_path := _delta_path b; _raw_html_path := _raw_html_path b;
       _screenshot_path := _screenshot_path b; _has_next_page := _has_next_page b;
       _next_page_url := _next_page_url b; _current_page := _current_page b;
       _worker_id := _worker_id b |}.

Definition set_delta_path (path : string) (b : t) : t :=
    {| task_id := task_id b; run_id := run_id b; _status := _status b;
       _http_status := _http_status b; _errors := _errors b;
       _records_extracted := _records_extracted b; _records_valid := _records_valid b;
       _records_rejected := _records_rejected b; _bytes_downloaded := _bytes_downloaded b;
       _requests_count := _requests_count b; _pages_processed := _pages_processed b;
       _delta_path := path; _raw_html_path := _raw_html_path b;
       _screenshot_path := _screenshot_path b; _has_next_page := _has_next_page b;
       _next_page_url := _next_page_url b; _current_page := _current_page b;
       _worker_id := _worker_id b |}.

Definition set_raw_html_path (path : string) (b : t) : t :=
    {| task_id := task_id b; run_id := run_id b; _status := _status b;
       _http_status := _http_status b; _errors := _errors b;
       _records_extracted := _records_extracted b; _records_valid := _records_valid b;
       _records_rejected := _records_rejected b; _bytes_downloaded := _bytes_downloaded b;
       _requests_count := _requests_count b; _pages_processed := _pages_processed b;
       _delta_path := _delta_path b; _raw_html_path := Some path;
       _screenshot_path := _screenshot_path b; _has_next_page := _has_next_page b;
       _next_page_url := _next_page_url b; _current_page := _current_page b;
       _worker_id := _worker_id b |}.

Definition set_screenshot_path (path : string) (b : t) : t :=
    {| task_id := task_id b; run_id := run_id b; _status := _status b;
       _http_status := _http_status b; _errors := _errors b;
       _records_extracted := _records_extracted b; _records_valid := _records_valid b;
       _records_rejected := _records_rejected b; _bytes_downloaded := _bytes_downloaded b;
       _requests_count := _requests_count b; _pages_processed := _pages_processed b;
       _delta_path := _delta_path b; _raw_html_path := _raw_html_path b;
       _screenshot_path := Some path; _has_next_page := _has_next_page b;
       _next_page_url := _next_page_url b; _current_page := _current_page b;
       _worker_id := _worker_id b |}.

Definition set_pagination (has_next : bool) (next_url : option string)
      (current_page : Z) (b : t) : t :=
    {| task_id := task_id b; run_id := run_id b; _status := _status b;
       _http_status := _http_status b; _errors := _errors b;
       _records_extracted := _records_extracted b; _records_valid := _records_valid b;
       _records_rejected := _records_rejected b; _bytes_downloaded := _bytes_downloaded b;
       _requests_count := _requests_count b; _pages_processed := _pages_processed b;
       _delta_path := _delta_path b; _raw_html_path := _raw_html_path b;
       _screenshot_path := _screenshot_path b; _has_next_page := has_next;
       _next_page_url := next_url; _current_page := current_page;
       _worker_id := _worker_id b |}.

Definition set_worker_id (worker_id : string) (b : t) : t :=
    {| task_id := task_id b; run_id := run_id b; _status := _status b;
       _http_status := _http_status b; _errors := _errors b;
       _records_extracted := _records_extracted b; _records_valid := _records_valid b;
       _records_rejected := _records_rejected b; _bytes_downloaded := _bytes_downloaded b;
       _requests_count := _requests_count b; _pages_processed := _pages_processed b;
       _delta_path := _delta_path b; _raw_html_path := _raw_html_path b;
       _screenshot_path := _screenshot_path b; _has_next_page := _has_next_page b;
       _next_page_url := _next_page_url b; _current_page := _current_page b;
       _worker_id := Some worker_id |}.

  (** [_build]; [duration_ms] is the time elapsed since [set_started]. *)
Definition _build (duration_ms : Z) (b : t) : ResultMessage.t :=
    {| ResultMessage.task_id := task_id b;
       ResultMessage.run_id := run_id b;
       ResultMessage.status := _status b;
       ResultMessage.http_status := _http_status b;
       ResultMessage.duration_ms := duration_ms;
       ResultMessage.bytes_downloaded := _bytes_downloaded b;
       ResultMessage.requests_count := _requests_count b;
       ResultMessage.pages_processed := _pages_processed b;
       ResultMessage.delta_path := _delta_path b;
       ResultMessage.raw_html_path := _raw_html_path b;
       ResultMessage.screenshot_path := _screenshot_path b;
       ResultMessage.records_extracted := _records_extracted b;
       ResultMessage.records_valid := _records_valid b;
       ResultMessage.records_rejected := _records_rejected b;
       ResultMessage.has_next_page := _has_next_page b;
       ResultMessage.next_page_url := _next_page_url b;
       ResultMessage.current_page := _current_page b;
       ResultMessage.errors := _errors b;
       ResultMessage.worker_id := _worker_id b |}.

Definition build_success (duration_ms : Z) (b : t) : ResultMessage.t :=
    _build duration_ms
      (with_status (if 0 <? _records_valid b then "success" else "partial") b).

Definition build_partial (duration_ms : Z) (b : t) : ResultMessage.t :=
    _build duration_ms (with_status "partial" b).

Definition build_failed (duration_ms : Z) (b : t) : ResultMessage.t :=
    _build duration_ms (with_status "failed" b).

Definition build_retry (duration_ms : Z) (b : t) : ResultMessage.t :=
    _build duration_ms (with_status "retry" b).
End ResultBuilder.

(** ** The effects of a worker

    A worker mutates its result builder, publishes task messages, writes
    rejected records to the trash store and draws fresh identifiers.  A
    computation threads this state and may raise; the state reached when an
    exception is raised is kept, as the [except] clauses of [_execute_task]
    go on using the same builder. *)

Record wstate := {
  builder : ResultBuilder.t;
  published : list (TaskMessage.t * string);
  trashed : list (list record);
  drawn : nat;
}.

Definition W (A : Type) : Type := wstate → res A * wstate.

#[global] Instance W_ret : MRet W := λ A a s, (Ok a, s).
#[global] Instance W_bind : MBind W := λ A B k m s,
  match m s with
  | (Ok a, s') => k a s'
  | (Raise e, s') => (Raise e, s')
  end.

Definition lift {A} (r : res A) : W A := λ s, (r, s).

Definition update (f : ResultBuilder.t → ResultBuilder.t) : W unit :=
  λ s, (Ok tt, {| builder := f (builder s); published := published s;
                  trashed := trashed s; drawn := drawn s |}).

Definition publish (msg : TaskMessage.t) (mode : string) : W unit :=
  λ s, (Ok tt, {| builder := builder s; published := published s ++ [(msg, mode)];
                  trashed := trashed s; drawn := drawn s |}).

Definition trash (records : list record) : W unit :=
  λ s, (Ok tt, {| builder := builder s; published := published s;
                  trashed := trashed s ++ [records]; drawn := drawn s |}).

Definition when (c : bool) (m : W unit) : W unit := if c then m else mret tt.

(** [returns P m]: every value that [m] returns satisfies [P], together
    with the state in which it is returned. *)
Definition returns {A} (P : A → wstate → Prop) (m : W A) : Prop :=
  ∀ s a s', m s = (Ok a, s') → P a s'.

(** The invariant of a run behind the rejected-count: the builder counts no
    rejected record, counts every extracted record as valid, and nothing
    went to the trash store. *)
Definition nothing_rejected (s : wstate) : Prop :=
  ResultBuilder._records_rejected (builder s) = 0
  ∧ ResultBuilder._records_valid (builder s) = ResultBuilder._records_extracted (builder s)
  ∧ trashed s = [].

(** The invariant of a run at or beyond its page limit: no task published. *)
Definition nothing_published (s : wstate) : Prop := published s = [].

(** [preserves I m]: [m] keeps the invariant [I] of the worker state, also
    when it raises. *)
Definition preserves {A} (I : wstate → Prop) (m : W A) : Prop :=
  ∀ s r s', I s → m s = (r, s') → I s'.

Definition exn_message (e : exn) : string :=
  match e with
  | TimeoutError => ""
  | ClientError m | ValueError m | IntegrityError m | OtherError m => m
  end.

(** The services a worker holds: schema cache and API, HTTP session, Delta
    and trash writers, message bus, clock. *)
Class WorkerEnv := {
  (** the [n]-th identifier drawn by [uuid4()] *)
  uuid4 : nat → uuid;
  worker_id : string;
  (** milliseconds between [set_started] and [_build] *)
  elapsed_ms : Z;
  (** [_get_schema(schema_id, version)]: cache, then the schema API; never raises *)
  _get_schema : string → string → option ParsingSchema.t;
  (** [DeltaWriter.write_raw_records] *)
  write_raw_records : list record → uuid → uuid → string → string → res string;
  (** [TrashSwampWriter.write_rejected] *)
  write_rejected : list record → uuid → string → res unit;
  (** [RabbitMQClient.publish_task] *)
  rmq_publish_task : TaskMessage.t → string → res unit;
}.

(** The envelope is built from the builder of the final state, with one of
    the statuses of the [try] block. *)
Definition built_from_state `{WorkerEnv} (r : ResultMessage.t) (s : wstate) : Prop :=
  ∃ status, status ∈ ["failed"; "success"; "partial"]
            ∧ r = ResultBuilder._build elapsed_ms
                    (ResultBuilder.with_status status (builder s)).

(** Return the message built from the current state of the builder. *)
Definition finish `{WorkerEnv} (build : Z → ResultBuilder.t → ResultMessage.t)
    : W ResultMessage.t :=
  λ s, (Ok (build elapsed_ms (builder s)), s).

Definition draw_uuid `{WorkerEnv} : W uuid :=
  λ s, (Ok (uuid4 (drawn s)),
        {| builder := builder s; published := published s;
           trashed := trashed s; drawn := S (drawn s) |}).

(** Truthiness of a record ([if r]): a [dict] is true when it has a key. *)
Definition record_truthy (r : record) : bool := negb (Nat.eqb (size r) 0).

Definition retryable_http_status (http_status : Z) : bool :=
  bool_decide (http_status ∈ [429; 500; 502; 503; 504]).

(** ** http_worker/worker.py *)

Module HTTPWorker.
Section Defs.
Context {node : Type} `{Dom node} `{PyLib} `{WorkerEnv}.
(** [_fetch_page(url, headers, proxy)]: the body or [None], and the status
    (0 when the request failed); it catches every exception itself. *)
Variable _fetch_page :
  string → list (string * string) → option string → option string * Z.
(** The query rewrite of the [page_param] rule ([parse_qs], [urlencode]). *)
Variable with_query_param : string → string → Z → string.

Definition _get_proxy (profile_id : option string) : option string := None.

Definition _get_next_page_url (html : string) (schema : ParsingSchema.t)
    (task : TaskMessage.t) : res (option string) :=
  match ParsingSchema.pagination schema with
  | None => Ok None
  | Some pagination =>
      let tree := HTMLParser html in
      if String.eqb (PaginationRule.type pagination) "next_button"
         && some_nonempty (PaginationRule.selector pagination)
      then
        rbind (css tree (default "" (PaginationRule.selector pagination))) (λ elements,
          match elements with
          | [] => Ok None
          | element :: _ =>
              match attributes_get element "href" with
              | VStr href =>
                  if String.eqb href "" then Ok None
                  else rbind (urljoin (TaskMessage.target_url task) href)
                             (λ u, Ok (Some u))
              | _ => Ok None
              end
          end)
      else if String.eqb (PaginationRule.type pagination) "page_param"
              && some_nonempty (PaginationRule.param_name pagination)
      then Ok (Some (with_query_param (TaskMessage.target_url task)
                       (default "" (PaginationRule.param_name pagination))
                       (TaskMessage.page_number task + PaginationRule.param_step pagination)))
      else Ok None
  end.

Definition _create_pagination_task (parent_task : TaskMessage.t)
    (next_url : string) : W unit :=
  new_task_id ← draw_uuid;
  new_run_id ← draw_uuid;
  let child_task := TaskMessage.child_task parent_task new_task_id new_run_id
                      next_url (TaskMessage.page_number parent_task + 1) in
  _ ← lift (rmq_publish_task child_task "http");
  publish child_task "http".

(** [task.max_pages or schema.pagination.max_pages] *)
Definition page_limit (task : TaskMessage.t) (pagination : PaginationRule.t) : Z :=
  match TaskMessage.max_pages task with
  | Some m => if m =? 0 then PaginationRule.max_pages pagination else m
  | None => PaginationRule.max_pages pagination
  end.

(** The [try] block of [_execute_task]. *)
Definition run (task : TaskMessage.t) : W ResultMessage.t :=
  match _get_schema (TaskMessage.schema_id task) (TaskMessage.schema_version task) with
  | None =>
      _ ← update (ResultBuilder.add_error "VALIDATION_ERROR"
                    ("Schema '" +:+ TaskMessage.schema_id task +:+ "' not found") false);
      finish ResultBuilder.build_failed
  | Some schema =>
      let '(html, http_status) :=
        _fetch_page (TaskMessage.target_url task)
          (match TaskMessage.headers task with
           | [] => ParsingSchema.request_headers schema
           | hs => hs
           end)
          (_get_proxy (TaskMessage.proxy_profile_id task)) in
      _ ← update (ResultBuilder.set_http_status http_status);
      _ ← update (ResultBuilder.add_bytes_downloaded
                    (match html with Some h => Z.of_nat (py_len h) | None => 0 end));
      _ ← update ResultBuilder.increment_requests;
      if negb (some_nonempty html) || (400 <=? http_status) then
        _ ← update (ResultBuilder.add_error "HTTP_ERROR"
                      ("HTTP " +:+ py_str (VInt http_status))
                      (retryable_http_status http_status));
        finish ResultBuilder.build_failed
      else
        let extractor := {| DataExtractor.schema := schema;
                            DataExtractor.base_url := TaskMessage.target_url task |} in
        records ← lift (extract extractor (default "" html));
        let valid_records := filter (λ r, record_truthy r = true) records in
        let rejected_count := Z.of_nat (length records) - Z.of_nat (length valid_records) in
        _ ← update (ResultBuilder.set_extraction_stats
                      (Z.of_nat (length records)) (Z.of_nat (length valid_records))
                      rejected_count);
        _ ← update ResultBuilder.increment_pages;
        _ ← match valid_records with
            | [] => mret tt
            | _ =>
                delta_path ← lift (write_raw_records valid_records
                                     (TaskMessage.task_id task) (TaskMessage.run_id task)
                                     (TaskMessage.source_id task) (TaskMessage.schema_id task));
                update (ResultBuilder.set_delta_path delta_path)
            end;
        _ ← when (0 <? rejected_count)
              (let rejected_records := filter (λ r, record_truthy r = false) records in
               _ ← lift (write_rejected rejected_records (TaskMessage.task_id task)
                           "Validation failed");
               trash rejected_records);
        _ ← match ParsingSchema.pagination schema with
            | None => mret tt
            | Some pagination =>
                next_url ← lift (_get_next_page_url (default "" html) schema task);
                when (some_nonempty next_url
                      && (TaskMessage.page_number task <? page_limit task pagination))
                  (_ ← update (ResultBuilder.set_pagination true next_url
                                 (TaskMessage.page_number task));
                   _create_pagination_task task (default "" next_url))
            end;
        finish ResultBuilder.build_success
  end.

(** [_execute_task]: the [try] block under its [except] clauses. *)
Definition _execute_task (task : TaskMessage.t) : ResultMessage.t * wstate :=
  let start :=
    {| builder := ResultBuilder.set_worker_id worker_id
                    (ResultBuilder.init (TaskMessage.task_id task) (TaskMessage.run_id task));
       published := []; trashed := []; drawn := 0 |} in
  let retry_or_fail (b : ResultBuilder.t) :=
    if TaskMessage.attempt task <? TaskMessage.max_attempts task
    then ResultBuilder.build_retry elapsed_ms b
    else ResultBuilder.build_failed elapsed_ms b in
  match run task start with
  | (Ok result, s) => (result, s)
  | (Raise TimeoutError, s) =>
      (retry_or_fail (ResultBuilder.add_error "TIMEOUT" "Request timeout" true (builder s)), s)
  | (Raise (ClientError msg), s) =>
      (retry_or_fail (ResultBuilder.add_error "CONNECTION_ERROR" msg true (builder s)), s)
  | (Raise e, s) =>
      (ResultBuilder.build_failed elapsed_ms
         (ResultBuilder.add_error "UNKNOWN" (exn_message e) false (builder s)), s)
  end.

End Defs.
End HTTPWorker.

(** ** browser_worker/worker.py *)

Module BrowserWorker.
Section Defs.
Context {node : Type} `{Dom node} `{PyLib} `{WorkerEnv}.
(** The Playwright page of the run. *)
(** [context.new_page()] and, with cookies, [context.add_cookies] *)
Variable new_page : option (list pyval) → res unit.
(** [page.goto(url, ...)]: the status of the response, [None] without one *)
Variable page_goto : string → res (option Z).
Variable _execute_navigation : ParsingSchema.t → res unit.
Variable _handle_infinite_scroll : ParsingSchema.t → res unit.
(** [page.content()] *)
Variable page_content : res string.
(** [page.screenshot()] then [write_debug]: the screenshot and HTML paths *)
Variable capture_debug : uuid → string → res (option string * option string).
(** [page.query_selector(sel)] then [get_attribute("href")] *)
Variable next_href : string → res pyval.
Variable page_url : string.

Definition _get_next_page_url (schema : ParsingSchema.t) (task : TaskMessage.t)
    : option string :=
  match ParsingSchema.pagination schema with
  | None => None
  | Some pagination =>
      if negb (some_nonempty (PaginationRule.selector pagination)) then None
      else match next_href (default "" (PaginationRule.selector pagination)) with
           | Ok (VStr href) =>
               if String.eqb href "" then None
               else Some (if startswith href "javascript:" then page_url else href)
           | _ => None
           end
  end.

Definition _create_pagination_task (parent_task : TaskMessage.t)
    (next_url : string) : W unit :=
  new_task_id ← draw_uuid;
  new_run_id ← draw_uuid;
  let child_task := TaskMessage.child_task parent_task new_task_id new_run_id
                      next_url (TaskMessage.page_number parent_task + 1) in
  _ ← lift (rmq_publish_task child_task "browser");
  publish child_task "browser".

Definition pagination_type (schema : ParsingSchema.t) : string :=
  match ParsingSchema.pagination schema with
  | Some p => PaginationRule.type p
  | None => ""
  end.

(** The [try] block of [_execute_task]. *)
Definition run (task : TaskMessage.t) : W ResultMessage.t :=
  match _get_schema (TaskMessage.schema_id task) (TaskMessage.schema_version task) with
  | None =>
      _ ← update (ResultBuilder.add_error "VALIDATION_ERROR"
                    ("Schema '" +:+ TaskMessage.schema_id task +:+ "' not found") false);
      finish ResultBuilder.build_failed
  | Some schema =>
      _ ← lift (new_page (TaskMessage.cookies task));
      response ← lift (page_goto (TaskMessage.target_url task));
      _ ← update (ResultBuilder.set_http_status (default 0 response));
      _ ← update ResultBuilder.increment_requests;
      match response with
      | None =>
          (* [is_retryable=response and ...] is [None]: [ErrorDetail] rejects it *)
          lift (Raise (ValueError "is_retryable: Input should be a valid boolean"))
      | Some status =>
          if 400 <=? status then
            _ ← update (ResultBuilder.add_error "HTTP_ERROR"
                          ("HTTP " +:+ py_str (VInt status))
                          (retryable_http_status status));
            finish ResultBuilder.build_failed
          else
            _ ← when (ParsingSchema.has_navigation_steps schema)
                  (lift (_execute_navigation schema));
            _ ← when (String.eqb (pagination_type schema) "infinite_scroll")
                  (lift (_handle_infinite_scroll schema));
            html ← lift page_content;
            _ ← update (ResultBuilder.add_bytes_downloaded (Z.of_nat (py_len html)));
            debug_paths ← lift (capture_debug (TaskMessage.task_id task) html);
            _ ← when (some_nonempty (fst debug_paths))
                  (update (ResultBuilder.set_screenshot_path (default "" (fst debug_paths))));
            _ ← when (some_nonempty (snd debug_paths))
                  (update (ResultBuilder.set_raw_html_path (default "" (snd debug_paths))));
            let extractor := {| DataExtractor.schema := schema;
                                DataExtractor.base_url := TaskMessage.target_url task |} in
            records ← lift (extract extractor html);
            let valid_records := filter (λ r, record_truthy r = true) records in
            let rejected_count :=
              Z.of_nat (length records) - Z.of_nat (length valid_records) in
            _ ← update (ResultBuilder.set_extraction_stats
                          (Z.of_nat (length records)) (Z.of_nat (length valid_records))
                          rejected_count);
            _ ← update ResultBuilder.increment_pages;
            _ ← match valid_records with
                | [] => mret tt
                | _ =>
                    delta_path ← lift (write_raw_records valid_records
                                         (TaskMessage.task_id task) (TaskMessage.run_id task)
                                         (TaskMessage.source_id task)
                                         (TaskMessage.schema_id task));
                    update (ResultBuilder.set_delta_path delta_path)
                end;
            _ ← when (String.eqb (pagination_type schema) "next_button"
                      || String.eqb (pagination_type schema) "load_more")
                  (let next_url := _get_next_page_url schema task in
                   when (some_nonempty next_url)
                     (_ ← update (ResultBuilder.set_pagination true next_url
                                    (TaskMessage.page_number task));
                      _create_pagination_task task (default "" next_url)));
            finish ResultBuilder.build_success
      end
  end.

(** [_execute_task]: the [try] block under its [except] clauses (the
    [finally] clause closes the page and returns the context to the pool). *)
Definition _execute_task (task : TaskMessage.t) : ResultMessage.t * wstate :=
  let start :=
    {| builder := ResultBuilder.set_worker_id worker_id
                    (ResultBuilder.init (TaskMessage.task_id task) (TaskMessage.run_id task));
       published := []; trashed := []; drawn := 0 |} in
  match run task start with
  | (Ok result, s) => (result, s)
  | (Raise TimeoutError, s) =>
      let b := ResultBuilder.add_error "TIMEOUT" "Page load timeout" true (builder s) in
      (if TaskMessage.attempt task <? TaskMessage.max_attempts task
       then ResultBuilder.build_retry elapsed_ms b
       else ResultBuilder.build_failed elapsed_ms b, s)
  | (Raise e, s) =>
      (ResultBuilder.build_failed elapsed_ms
         (ResultBuilder.add_error "UNKNOWN" (exn_message e) false (builder s)), s)
  end.

End Defs.
End BrowserWorker.

(** ** controlpanel/models/task.py *)

Definition all_statuses : list TaskStatus :=
  [PENDING; QUEUED; RUNNING; SUCCESS; PARTIAL; FAILED; RETRY; CANCELLED; DLQ].

(** The member names, the keys of [TaskStatus.__members__]. *)
Definition TaskStatus_name (s : TaskStatus) : string :=
  match s with
  | PENDING => "PENDING" | QUEUED => "QUEUED" | RUNNING => "RUNNING"
  | SUCCESS => "SUCCESS" | PARTIAL => "PARTIAL" | FAILED => "FAILED"
  | RETRY => "RETRY" | CANCELLED => "CANCELLED" | DLQ => "DLQ"
  end.

(** The member values. *)
Definition TaskStatus_value (s : TaskStatus) : string :=
  match s with
  | PENDING => "pending" | QUEUED => "queued" | RUNNING => "running"
  | SUCCESS => "success" | PARTIAL => "partial" | FAILED => "failed"
  | RETRY => "retry" | CANCELLED => "cancelled" | DLQ => "dlq"
  end.

(** [status in TaskStatus.__members__] *)
Definition in_members (status : string) : bool :=
  existsb (λ m, String.eqb status (TaskStatus_name m)) all_statuses.

(** [TaskStatus(status)]: the member with that value, or [ValueError]. *)
Definition TaskStatus_of (status : string) : res TaskStatus :=
  match List.find (λ m, String.eqb status (TaskStatus_value m)) all_statuses with
  | Some m => Ok m
  | None => Raise (ValueError "not a valid TaskStatus")
  end.

Module TaskModel.
Record t := {
    id : uuid;
    source_id : string;
    target_url : string;
    schema_id : string;
    schema_version : string;
    mode : string;
    status : TaskStatus;
    priority : Z;
    max_attempts : Z;
    current_attempt : Z;
    parent_task_id : option uuid;
    records_extracted : pyval;
    records_valid : pyval;
    delta_path : pyval;
    errors : list pyval;
    started_at : option Z;
    completed_at : option Z;
  }.
End TaskModel.

Module TaskRunModel.
Record t := {
    task_id : uuid;
    run_id : uuid;
    attempt : Z;
    status : string;
    http_status : pyval;
    duration_ms : pyval;
    bytes_downloaded : pyval;
    requests_count : pyval;
    pages_processed : pyval;
    records_extracted : pyval;
    records_valid : pyval;
    records_rejected : pyval;
    delta_path : pyval;
    raw_html_path : pyval;
    screenshot_path : pyval;
    errors : list pyval;
    completed_at : option Z;
  }.
End TaskRunModel.

(** The committed content of the tables [tasks] (by primary key) and
    [task_runs] (in insertion order). *)
Record database := {
  tasks : gmap uuid TaskModel.t;
  task_runs : list TaskRunModel.t;
}.

(** [d.get(k, dflt)] on a [dict[str, Any]] *)
Definition dict_get (d : gmap string pyval) (k : string) (dflt : pyval) : pyval :=
  default dflt (d !! k).

(** ** controlpanel/services/task_service.py *)

Module TaskService.

(** [cancel]: the time [now] is the reading of [datetime.utcnow()]. *)
Definition cancel (now : Z) (task_id : uuid) (db : database) : bool * database :=
  match tasks db !! task_id with
  | None => (false, db)
  | Some db_task =>
      if negb (bool_decide (TaskModel.status db_task ∈ [PENDING; QUEUED]))
      then (false, db)
      else
        let db_task' :=
          {| TaskModel.id := TaskModel.id db_task;
             TaskModel.source_id := TaskModel.source_id db_task;
             TaskModel.target_url := TaskModel.target_url db_task;
             TaskModel.schema_id := TaskModel.schema_id db_task;
             TaskModel.schema_version := TaskModel.schema_version db_task;
             TaskModel.mode := TaskModel.mode db_task;
             TaskModel.status := CANCELLED;
             TaskModel.priority := TaskModel.priority db_task;
             TaskModel.max_attempts := TaskModel.max_attempts db_task;
             TaskModel.current_attempt := TaskModel.current_attempt db_task;
             TaskModel.parent_task_id := TaskModel.parent_task_id db_task;
             TaskModel.records_extracted := TaskModel.records_extracted db_task;
             TaskModel.records_valid := TaskModel.records_valid db_task;
             TaskModel.delta_path := TaskModel.delta_path db_task;
             TaskModel.errors := TaskModel.errors db_task;
             TaskModel.started_at := TaskModel.started_at db_task;
             TaskModel.completed_at := Some now |} in
        (true, {| tasks := <[task_id := db_task']> (tasks db);
                  task_runs := task_runs db |})
  end.

(** [self.db.add(run); await self.db.commit()]: the update of the task row
    and the insertion of the run row form one transaction.  The table
    [task_runs] declares [run_id] unique ([unique=True] in the model,
    [uq_task_runs_run_id] in the migration): a second row with a [run_id]
    already stored makes the commit fail with [IntegrityError], and nothing
    of the transaction is kept. *)
Definition commit_result (db : database) (task_id : uuid)
    (db_task : TaskModel.t) (run : TaskRunModel.t) : res unit * database :=
  if bool_decide (TaskRunModel.run_id run ∈ map TaskRunModel.run_id (task_runs db))
  then (Raise (IntegrityError "uq_task_runs_run_id"), db)
  else (Ok tt, {| tasks := <[task_id := db_task]> (tasks db);
                  task_runs := task_runs db ++ [run] |}).

Definition update_from_result (now : Z) (task_id run_id : uuid) (status : string)
    (metrics extraction : gmap string pyval) (errors : list pyval)
    (pointers : gmap string pyval) (db : database) : res unit * database :=
  match tasks db !! task_id with
  | None => (Ok tt, db)
  | Some db_task =>
      match (if in_members status then TaskStatus_of status else Ok FAILED) with
      | Raise e => (Raise e, db)
      | Ok new_status =>
          let db_task' :=
            {| TaskModel.id := TaskModel.id db_task;
               TaskModel.source_id := TaskModel.source_id db_task;
               TaskModel.target_url := TaskModel.target_url db_task;
               TaskModel.schema_id := TaskModel.schema_id db_task;
               TaskModel.schema_version := TaskModel.schema_version db_task;
               TaskModel.mode := TaskModel.mode db_task;
               TaskModel.status := new_status;
               TaskModel.priority := TaskModel.priority db_task;
               TaskModel.max_attempts := TaskModel.max_attempts db_task;
               TaskModel.current_attempt := TaskModel.current_attempt db_task + 1;
               TaskModel.parent_task_id := TaskModel.parent_task_id db_task;
               TaskModel.records_extracted := dict_get extraction "records_extracted" (VInt 0);
               TaskModel.records_valid := dict_get extraction "records_valid" (VInt 0);
               TaskModel.delta_path := dict_get pointers "delta_path" VNone;
               TaskModel.errors := errors;
               TaskModel.started_at := TaskModel.started_at db_task;
               TaskModel.completed_at := Some now |} in
          let run :=
            {| TaskRunModel.task_id := task_id;
               TaskRunModel.run_id := run_id;
               TaskRunModel.attempt := TaskModel.current_attempt db_task';
               TaskRunModel.status := status;
               TaskRunModel.http_status := dict_get metrics "http_status" VNone;
               TaskRunModel.duration_ms := dict_get metrics "duration_ms" VNone;
               TaskRunModel.bytes_downloaded := dict_get metrics "bytes_downloaded" (VInt 0);
               TaskRunModel.requests_count := dict_get metrics "requests_count" (VInt 0);
               TaskRunModel.pages_processed := dict_get metrics "pages_processed" (VInt 0);
               TaskRunModel.records_extracted := dict_get extraction "records_extracted" (VInt 0);
               TaskRunModel.records_valid := dict_get extraction "records_valid" (VInt 0);
               TaskRunModel.records_rejected := dict_get extraction "records_rejected" (VInt 0);
               TaskRunModel.delta_path := dict_get pointers "delta_path" VNone;
               TaskRunModel.raw_html_path := dict_get pointers "raw_html_path" VNone;
               TaskRunModel.screenshot_path := dict_get pointers "screenshot_path" VNone;
               TaskRunModel.errors := errors;
               TaskRunModel.completed_at := Some now |} in
          commit_result db task_id db_task' run
      end
  end.

End TaskService.

(** ** The results consumer

    Modelled from the spec: the consumer of the results queue that calls
    [update_from_result] is not among the sources.  Following the first
    sentence of section 4.6 on ingestion ("Ingest result: fetched from the
    results stream. Records a new task run, updates counts and storage
    pointers on the task, sets terminal status") every envelope is handed
    over field by field, the nested models laid out as
    [model_dump(mode="json")] does.  [ingest] is this hand-over and nothing
    more: the routing of [RETRY] results that the same section describes
    (republication with a new [run_id], [DLQ] once the attempts are
    exhausted) is not part of it. *)

Definition dump_error (e : ErrorDetail.t) : pyval :=
  VDict [("code", VStr (ErrorDetail.code e));
         ("message", VStr (ErrorDetail.message e));
         ("is_retryable", VBool (ErrorDetail.is_retryable e));
         ("stack_trace", VNone);
         ("context", VDict [])].

Definition dump_metrics (r : ResultMessage.t) : gmap string pyval :=
  list_to_map
    [("duration_ms", VInt (ResultMessage.duration_ms r));
     ("bytes_downloaded", VInt (ResultMessage.bytes_downloaded r));
     ("requests_count", VInt (ResultMessage.requests_count r));
     ("pages_processed", VInt (ResultMessage.pages_processed r));
     ("dns_lookup_ms", VNone); ("connection_ms", VNone); ("ttfb_ms", VNone)].

Definition dump_extraction (r : ResultMessage.t) : gmap string pyval :=
  list_to_map
    [("records_extracted", VInt (ResultMessage.records_extracted r));
     ("records_valid", VInt (ResultMessage.records_valid r));
     ("records_rejected", VInt (ResultMessage.records_rejected r));
     ("records_deduplicated", VInt 0);
     ("fields_extracted", VDict []); ("fields_missing", VDict [])].

Definition dump_pointers (r : ResultMessage.t) : gmap string pyval :=
  list_to_map
    [("delta_path", VStr (ResultMessage.delta_path r));
     ("raw_html_path", opt_str (ResultMessage.raw_html_path r));
     ("screenshot_path", opt_str (ResultMessage.screenshot_path r));
     ("hudi_path", VNone); ("artifacts", VDict [])].

Definition ingest (now : Z) (r : ResultMessage.t) (db : database)
    : res unit * database :=
  TaskService.update_from_result now
    (ResultMessage.task_id r) (ResultMessage.run_id r) (ResultMessage.status r)
    (dump_metrics r) (dump_extraction r) (map dump_error (ResultMessage.errors r))
    (dump_pointers r) db.

(** ** A sample page, schema and environment

    Concrete inputs for the closed examples below: a catalogue page with
    three product cards, the second of which has no [.price] element (it
    has an [.alternate-price]), and a worker environment whose services
    all succeed.  The library calls that the examples never reach are
    stand-ins. *)

Module Sample.

Definition str_of (v : pyval) : string :=
  match v with
  | VStr s => s
  | VInt n => NilZero.string_of_int (Z.to_int n)
  | VBool true => "True"
  | VBool false => "False"
  | VNone => "None"
  | _ => ""
  end.

Definition lib : PyLib :=
  {| py_str := str_of;
     py_int := λ s, match to_text s with
                    | [] => Raise (ValueError s)
                    | l => if forallb is_digit l then Ok (digits_val l)
                           else Raise (ValueError s)
                    end;
     str_capitalize := λ s, s;
     str_title := λ s, s;
     urljoin := λ base url, Ok (base +:+ url);
     urlparse_netloc := λ s, Ok s;
     strptime_date := λ _ _, None;
     strptime_iso := λ _ _, None;
     re_sub := λ _ _ s, s;
     html_unescape := λ s, s;
     json_loads := λ s, Raise (ValueError s);
     re_search_group := λ _ _ _, Ok VNone;
     re_match := λ _ _, Ok true |}.

Inductive page_node :=
| Page
| Card (i : nat)
| Elem (content : string).

Definition page_css (n : page_node) (sel : string) : res (list page_node) :=
  match n with
  | Page =>
      if String.eqb sel "div.product-card" then Ok [Card 1; Card 2; Card 3]
      else if String.eqb sel "a.next-page" then Ok [Elem "/catalog?page=next"]
      else Ok []
  | Card i =>
      if String.eqb sel "h2.product-name" then Ok [Elem "  Widget  "]
      else if String.eqb sel ".price" then
        if Nat.eqb i 2 then Ok [] else Ok [Elem "$1,234.56"]
      else if String.eqb sel ".alternate-price" then
        if Nat.eqb i 2 then Ok [Elem "$99.99"] else Ok []
      else Ok []
  | Elem _ => Ok []
  end.

Definition dom : Dom page_node :=
  {| HTMLParser := λ _, Page;
     css := page_css;
     attributes_get := λ n a,
       match n with
       | Elem c => if String.eqb a "href" then VStr c else VNone
       | _ => VNone
       end;
     text_deep_strip := λ n, match n with Elem c => str_strip c | _ => "" end;
     xpath_first := λ _ _ _, VNone;
     regex_first := λ _ _, Ok VNone;
     jsonpath_first := λ _ _, Ok VNone |}.

Definition name_field : FieldDefinition.t :=
  {| FieldDefinition.name := "name";
     FieldDefinition.type := STRING;
     FieldDefinition.method := CSS;
     FieldDefinition.selector := "h2.product-name";
     FieldDefinition.attribute := None;
     FieldDefinition.required := true;
     FieldDefinition.default := None;
     FieldDefinition.transformations := ["trim"];
     FieldDefinition.validation_regex := None;
     FieldDefinition.fallback_selectors := [] |}.

Definition price_field : FieldDefinition.t :=
  {| FieldDefinition.name := "price";
     FieldDefinition.type := FLOAT;
     FieldDefinition.method := CSS;
     FieldDefinition.selector := ".price";
     FieldDefinition.attribute := None;
     FieldDefinition.required := true;
     FieldDefinition.default := None;
     FieldDefinition.transformations := ["extract_number"];
     FieldDefinition.validation_regex := None;
     FieldDefinition.fallback_selectors := [] |}.

(** The price field of the fallback test: three fallbacks, the second hits. *)
Definition price_with_fallbacks : FieldDefinition.t :=
  {| FieldDefinition.name := "price";
     FieldDefinition.type := STRING;
     FieldDefinition.method := CSS;
     FieldDefinition.selector := ".price";
     FieldDefinition.attribute := None;
     FieldDefinition.required := true;
     FieldDefinition.default := None;
     FieldDefinition.transformations := [];
     FieldDefinition.validation_regex := None;
     FieldDefinition.fallback_selectors := [".alt-price"; ".alternate-price"; ".cost"] |}.

Definition next_button (max_pages : Z) : PaginationRule.t :=
  {| PaginationRule.type := "next_button";
     PaginationRule.selector := Some "a.next-page";
     PaginationRule.param_name := None;
     PaginationRule.param_start := 1;
     PaginationRule.param_step := 1;
     PaginationRule.max_pages := max_pages;
     PaginationRule.stop_selector := None;
     PaginationRule.scroll_delay_ms := 1000 |}.

Definition products (pagination : option PaginationRule.t) : ParsingSchema.t :=
  {| ParsingSchema.schema_id := "products";
     ParsingSchema.version := "1.0.0";
     ParsingSchema.source_id := "example.com/products";
     ParsingSchema.start_url := "https://example.com/catalog";
     ParsingSchema.has_navigation_steps := false;
     ParsingSchema.pagination := pagination;
     ParsingSchema.item_container := Some "div.product-card";
     ParsingSchema.fields := [name_field; price_field];
     ParsingSchema.min_fields_required := 1;
     ParsingSchema.request_headers := [] |}.

Definition extractor : DataExtractor.t :=
  {| DataExtractor.schema := products None;
     DataExtractor.base_url := "https://example.com/catalog" |}.

(** A worker whose schema service knows [products] (with the pagination
    rule given) and whose writers and bus accept everything. *)
Definition env (pagination : option PaginationRule.t) : WorkerEnv :=
  {| uuid4 := λ n, N.of_nat (1000 + n);
     worker_id := "worker-1";
     elapsed_ms := 12;
     _get_schema := λ schema_id _,
       if String.eqb schema_id "products" then Some (products pagination) else None;
     write_raw_records := λ _ _ _ _ _, Ok "s3://parser-lake/delta/example.com/products";
     write_rejected := λ _ _ _, Ok tt;
     rmq_publish_task := λ _ _, Ok tt |}.

Definition task (run_id : uuid) (attempt page_number : Z) : TaskMessage.t :=
  {| TaskMessage.task_id := 7;
     TaskMessage.run_id := run_id;
     TaskMessage.branch_id := None;
     TaskMessage.parent_task_id := None;
     TaskMessage.source_id := "example.com/products";
     TaskMessage.target_url := "https://example.com/catalog";
     TaskMessage.mode := "http";
     TaskMessage.schema_id := "products";
     TaskMessage.schema_version := "latest";
     TaskMessage.priority := 5;
     TaskMessage.max_attempts := 3;
     TaskMessage.ttl_seconds := 3600;
     TaskMessage.timeout_seconds := 60;
     TaskMessage.proxy_profile_id := None;
     TaskMessage.session_profile_id := None;
     TaskMessage.context := VDict [];
     TaskMessage.cookies := None;
     TaskMessage.headers := [];
     TaskMessage.page_number := page_number;
     TaskMessage.max_pages := None;
     TaskMessage.attempt := attempt |}.

(** The HTTP fetch that answers every request with the given status. *)
Definition fetch_status (status : Z)
    : string → list (string * string) → option string → option string * Z :=
  λ _ _ _, (Some "<html>Service Unavailable</html>", status).

Definition no_query_rewrite : string → string → Z → string := λ url _ _, url.

(** The browser page of the catalogue: it loads with status 200 and shows a
    next-page link. *)
Definition new_page : option (list pyval) → res unit := λ _, Ok tt.
Definition page_goto : string → res (option Z) := λ _, Ok (Some 200).
Definition no_navigation : ParsingSchema.t → res unit := λ _, Ok tt.
Definition page_content : res string := Ok "<html>catalogue</html>".
Definition capture_debug : uuid → string → res (option string * option string) :=
  λ _ _, Ok (None, None).
Definition next_href : string → res pyval :=
  λ sel, Ok (if String.eqb sel "a.next-page" then VStr "/catalog?page=next" else VNone).
Definition page_url : string := "https://example.com/catalog".

(** The stored task of [task], in the given status. *)
Definition stored (status : TaskStatus) : TaskModel.t :=
  {| TaskModel.id := 7;
     TaskModel.source_id := "example.com/products";
     TaskModel.target_url := "https://example.com/catalog";
     TaskModel.schema_id := "products";
     TaskModel.schema_version := "latest";
     TaskModel.mode := "http";
     TaskModel.status := status;
     TaskModel.priority := 5;
     TaskModel.max_attempts := 3;
     TaskModel.current_attempt := 0;
     TaskModel.parent_task_id := None;
     TaskModel.records_extracted := VInt 0;
     TaskModel.records_valid := VInt 0;
     TaskModel.delta_path := VNone;
     TaskModel.errors := [];
     TaskModel.started_at := None;
     TaskModel.completed_at := None |}.

Definition db (status : TaskStatus) : database :=
  {| tasks := {[ 7%N := stored status ]}; task_runs := [] |}.

End Sample.

(** * Further definitions

    The definitions below serve the additional properties proved at the end
    of the file. *)

(** A text made of whitespace only. *)
Definition all_spaces (l : text) : Prop := Forall (λ c, is_space c = true) l.

(** A text that neither starts nor ends with a whitespace character. *)
Definition trimmed (l : text) : Prop :=
  ltrimmed is_space l ∧ ltrimmed is_space (rev l).

(** A text without any decimal digit. *)
Definition no_digit (l : text) : Prop := Forall (λ c, is_digit c = false) l.

(** A text of ASCII characters (every byte below 128).  On such a text the
    Unicode-aware [str.strip] and [str.lower] and the regex class [\d] of
    Python are the ASCII classes [is_space], [lower_chr] and [is_digit] of
    this file; outside ASCII they differ (a no-break space is whitespace, an
    Arabic-Indic digit is a digit), so the properties that depend on these
    classes are stated for ASCII texts. *)
Definition is_ascii (c : ascii) : bool :=
  let 'Ascii _ _ _ _ _ _ _ b7 := c in negb b7.

Definition ascii_text (l : text) : Prop := Forall (λ c, is_ascii c = true) l.

(** Further sample inputs: a field with a default value, and the catalogue
    schema with every field optional. *)
Module Sample2.

Definition category_field : FieldDefinition.t :=
  {| FieldDefinition.name := "category";
     FieldDefinition.type := STRING;
     FieldDefinition.method := CSS;
     FieldDefinition.selector := ".category";
     FieldDefinition.attribute := None;
     FieldDefinition.required := true;
     FieldDefinition.default := Some "Unknown";
     FieldDefinition.transformations := ["trim"];
     FieldDefinition.validation_regex := None;
     FieldDefinition.fallback_selectors := [] |}.

Definition optional (f : FieldDefinition.t) : FieldDefinition.t :=
  {| FieldDefinition.name := FieldDefinition.name f;
     FieldDefinition.type := FieldDefinition.type f;
     FieldDefinition.method := FieldDefinition.method f;
     FieldDefinition.selector := FieldDefinition.selector f;
     FieldDefinition.attribute := FieldDefinition.attribute f;
     FieldDefinition.required := false;
     FieldDefinition.default := FieldDefinition.default f;
     FieldDefinition.transformations := FieldDefinition.transformations f;
     FieldDefinition.validation_regex := FieldDefinition.validation_regex f;
     FieldDefinition.fallback_selectors := FieldDefinition.fallback_selectors f |}.

Definition with_fields (fields : list FieldDefinition.t) : DataExtractor.t :=
  {| DataExtractor.schema :=
       {| ParsingSchema.schema_id := "products";
          ParsingSchema.version := "1.0.0";
          ParsingSchema.source_id := "example.com/products";
          ParsingSchema.start_url := "https://example.com/catalog";
          ParsingSchema.has_navigation_steps := false;
          ParsingSchema.pagination := None;
          ParsingSchema.item_container := Some "div.product-card";
          ParsingSchema.fields := fields;
          ParsingSchema.min_fields_required := 1;
          ParsingSchema.request_headers := [] |};
     DataExtractor.base_url := "https://example.com/catalog" |}.

Definition optional_only : DataExtractor.t :=
  with_fields [optional Sample.name_field; optional Sample.price_field].

End Sample2.

(** ** http_worker/worker.py: [_fetch_page]

    The GET of the HTTP session is a parameter: it returns the body and the
    status of the response, or raises.  [_fetch_page] catches every
    exception of the request and answers [(None, 0)] instead. *)
Module HTTPSession.
Definition _fetch_page
    (session_get : string → list (string * string) → option string → res (string * Z))
    (url : string) (headers : list (string * string)) (proxy : option string)
    : option string * Z :=
  match session_get url headers proxy with
  | Ok (html, status) => (Some html, status)
  | Raise _ => (None, 0)
  end.
End HTTPSession.

(** [hoare P m Q]: started in a state satisfying [P], the computation [m]
    ends, returning or raising, with a result and a state that satisfy
    [Q]. *)
Definition hoare {A} (P : wstate → Prop) (m : W A) (Q : res A → wstate → Prop) : Prop :=
  ∀ s r s', P s → m s = (r, s') → Q r s'.

(** The builder belongs to the run [run_id] of the task [task_id], on the
    worker [wid]. *)
Definition carries_ids (task_id run_id : uuid) (wid : string) (s : wstate) : Prop :=
  ResultBuilder.task_id (builder s) = task_id
  ∧ ResultBuilder.run_id (builder s) = run_id
  ∧ ResultBuilder._worker_id (builder s) = Some wid.

(** The sample environment with a Delta writer that times out. *)
Definition slow_delta_env : WorkerEnv :=
  {| uuid4 := λ n, N.of_nat (1000 + n);
     worker_id := "worker-1";
     elapsed_ms := 12;
     _get_schema := λ schema_id _,
       if String.eqb schema_id "products" then Some (Sample.products None) else None;
     write_raw_records := λ _ _ _ _ _, Raise TimeoutError;
     write_rejected := λ _ _ _, Ok tt;
     rmq_publish_task := λ _ _, Ok tt |}.

(** An HTTP session that cannot connect. *)
Definition unreachable_session
    : string → list (string * string) → option string → res (string * Z) :=
  λ _ _ _, Raise (ClientError "Cannot connect to host").

(** The sample catalogue with a price field whose transformation is
    malformed. *)
Definition broken_price_field : FieldDefinition.t :=
  {| FieldDefinition.name := "price";
     FieldDefinition.type := STRING;
     FieldDefinition.method := CSS;
     FieldDefinition.selector := ".price";
     FieldDefinition.attribute := None;
     FieldDefinition.required := true;
     FieldDefinition.default := None;
     FieldDefinition.transformations := ["substr:x"];
     FieldDefinition.validation_regex := None;
     FieldDefinition.fallback_selectors := [] |}.

Definition broken_env : WorkerEnv :=
  {| uuid4 := λ n, N.of_nat (1000 + n);
     worker_id := "worker-1";
     elapsed_ms := 12;
     _get_schema := λ schema_id _,
       if String.eqb schema_id "products"
       then Some (DataExtractor.schema
                    (Sample2.with_fields [Sample.name_field; broken_price_field]))
       else None;
     write_raw_records := λ _ _ _ _ _, Ok "s3://parser-lake/delta/example.com/products";
     write_rejected := λ _ _ _, Ok tt;
     rmq_publish_task := λ _ _, Ok tt |}.

(** ** controlpanel/services/task_service.py: [retry]

    [TaskModel.t] leaves out the columns [proxy_profile_id],
    [session_profile_id] and [context] of a row.  [retry] copies them into
    the message it publishes, so they are arguments here, beside the [run_id]
    that the constructor of [TaskMessage] draws.  The fields that [retry]
    does not pass take their declared defaults. *)
Definition retry_message (db_task : TaskModel.t) (new_run_id : uuid)
    (proxy_profile_id session_profile_id : option string) (context : pyval)
    : TaskMessage.t :=
  {| TaskMessage.task_id := TaskModel.id db_task;
     TaskMessage.run_id := new_run_id;
     TaskMessage.branch_id := None;
     TaskMessage.parent_task_id := None;
     TaskMessage.source_id := TaskModel.source_id db_task;
     TaskMessage.target_url := TaskModel.target_url db_task;
     TaskMessage.mode := TaskModel.mode db_task;
     TaskMessage.schema_id := TaskModel.schema_id db_task;
     TaskMessage.schema_version := TaskModel.schema_version db_task;
     TaskMessage.priority := TaskModel.priority db_task;
     TaskMessage.max_attempts := TaskModel.max_attempts db_task;
     TaskMessage.ttl_seconds := 3600;
     TaskMessage.timeout_seconds := 60;
     TaskMessage.proxy_profile_id := proxy_profile_id;
     TaskMessage.session_profile_id := session_profile_id;
     TaskMessage.context := context;
     TaskMessage.cookies := None;
     TaskMessage.headers := [];
     TaskMessage.page_number := 1;
     TaskMessage.max_pages := None;
     TaskMessage.attempt := 0 |}.

(** The field constraints of [TaskMessage] that the values of a row can
    violate: [mode] is ["http"] or ["browser"], [0 <= priority <= 10],
    [1 <= max_attempts <= 10]. *)
Definition row_fits_message (db_task : TaskModel.t) : bool :=
  (String.eqb (TaskModel.mode db_task) "http"
   || String.eqb (TaskModel.mode db_task) "browser")
  && (0 <=? TaskModel.priority db_task) && (TaskModel.priority db_task <=? 10)
  && (1 <=? TaskModel.max_attempts db_task) && (TaskModel.max_attempts db_task <=? 10).

(** [retry]; [_publish_task] is the publication on the message bus.  An
    exception leaves the session uncommitted. *)
Definition retry (_publish_task : TaskMessage.t → res unit) (new_run_id : uuid)
    (proxy_profile_id session_profile_id : option string) (context : pyval)
    (task_id : uuid) (db : database) : res bool * database :=
  match tasks db !! task_id with
  | None => (Ok false, db)
  | Some db_task =>
      if negb (bool_decide (TaskModel.status db_task ∈ [FAILED; DLQ]))
      then (Ok false, db)
      else if negb (row_fits_message db_task)
      then (Raise (ValueError "TaskMessage: validation error"), db)
      else
        match _publish_task (retry_message db_task new_run_id proxy_profile_id
                               session_profile_id context) with
        | Raise e => (Raise e, db)
        | Ok _ =>
            let db_task' :=
              {| TaskModel.id := TaskModel.id db_task;
                 TaskModel.source_id := TaskModel.source_id db_task;
                 TaskModel.target_url := TaskModel.target_url db_task;
                 TaskModel.schema_id := TaskModel.schema_id db_task;
                 TaskModel.schema_version := TaskModel.schema_version db_task;
                 TaskModel.mode := TaskModel.mode db_task;
                 TaskModel.status := QUEUED;
                 TaskModel.priority := TaskModel.priority db_task;
                 TaskModel.max_attempts := TaskModel.max_attempts db_task;
                 TaskModel.current_attempt := 0;
                 TaskModel.parent_task_id := TaskModel.parent_task_id db_task;
                 TaskModel.records_extracted := TaskModel.records_extracted db_task;
                 TaskModel.records_valid := TaskModel.records_valid db_task;
                 TaskModel.delta_path := TaskModel.delta_path db_task;
                 TaskModel.errors := [];
                 TaskModel.started_at := TaskModel.started_at db_task;
                 TaskModel.completed_at := TaskModel.completed_at db_task |} in
            (Ok true, {| tasks := <[task_id := db_task']> (tasks db);
                         task_runs := task_runs db |})
        end
  end.

(** What the tables keep through the operations of the service: the run
    identifiers are unique, every run belongs to a stored task and carries
    an attempt number of at least 1, every task is stored under its own
    identifier with an attempt counter that is not negative. *)
Definition consistent (db : database) : Prop :=
  NoDup (map TaskRunModel.run_id (task_runs db))
  ∧ (∀ run, run ∈ task_runs db →
       is_Some (tasks db !! TaskRunModel.task_id run) ∧ 1 ≤ TaskRunModel.attempt run)
  ∧ (∀ id t, tasks db !! id = Some t →
       TaskModel.id t = id ∧ 0 ≤ TaskModel.current_attempt t).

(** A message bus that accepts every task. *)
Definition bus_up : TaskMessage.t → res unit := λ _, Ok tt.

(** The state of a run that has published nothing and drawn no
    identifier. *)
Definition nothing_drawn (s : wstate) : Prop := published s = [] ∧ drawn s = 0%nat.

(** The state of a run that belongs to [task] and has met no error. *)
Definition unfailed `{WorkerEnv} (task : TaskMessage.t) (s : wstate) : Prop :=
  carries_ids (TaskMessage.task_id task) (TaskMessage.run_id task) worker_id s
  ∧ ResultBuilder._errors (builder s) = [].

Module Sample3.

(** Pagination by the query parameter [page]. *)
Definition page_param : PaginationRule.t :=
  {| PaginationRule.type := "page_param";
     PaginationRule.selector := None;
     PaginationRule.param_name := Some "page";
     PaginationRule.param_start := 1;
     PaginationRule.param_step := 1;
     PaginationRule.max_pages := 10;
     PaginationRule.stop_selector := None;
     PaginationRule.scroll_delay_ms := 1000 |}.

(** A query rewrite for URLs without a query. *)
Definition page_query : string → string → Z → string :=
  λ url name n, url +:+ "?" +:+ name +:+ "=" +:+ Sample.str_of (VInt n).

(** A browser page without a response. *)
Definition no_response : string → res (option Z) := λ _, Ok None.

End Sample3.

(** ** shared/models/parsing_schema.py: the validators of [ParsingSchema] *)

(** [validate_unique_field_names]: [len(names) != len(set(names))] *)
Definition validate_unique_field_names (v : list FieldDefinition.t)
    : res (list FieldDefinition.t) :=
  let names := map FieldDefinition.name v in
  if negb (Nat.eqb (length names) (size (list_to_set names : gset string)))
  then Raise (ValueError "Field names must be unique")
  else Ok v.

(** The loop [for key in v] of [validate_dedup_keys]. *)
Fixpoint check_dedup_keys (field_names : gset string) (v : list string) : res unit :=
  match v with
  | [] => Ok tt
  | key :: rest =>
      if negb (bool_decide (key ∈ field_names))
      then Raise (ValueError ("Dedup key '" +:+ key +:+ "' not found in fields"))
      else check_dedup_keys field_names rest
  end.

(** [validate_dedup_keys]; [fields] is [info.data.get("fields")], which is
    [None] when the validation of [fields] failed. *)
Definition validate_dedup_keys (v : list string)
    (fields : option (list FieldDefinition.t)) : res (list string) :=
  match fields with
  | None | Some [] => Ok v
  | Some fs =>
      let field_names : gset string := list_to_set (map FieldDefinition.name fs) in
      rbind (check_dedup_keys field_names v) (λ _, Ok v)
  end.

(** The transformation names that [_apply_single_transform] compares with
    the lower-cased transformation. *)
Definition known_transformations : list string :=
  ["trim"; "lowercase"; "uppercase"; "capitalize"; "title"; "normalize_whitespace";
   "remove_newlines"; "extract_number"; "extract_int"; "extract_float"; "absolute_url";
   "extract_domain"; "parse_date"; "parse_datetime"; "strip_html"; "decode_entities";
   "extract_price"; "to_bool"; "parse_json"].
(** * Properties of the text primitives *)

Lemma to_text_of_text (l : text) : to_text (of_text l) = l.
Proof. apply list_ascii_of_string_of_list_ascii. Qed.

Lemma of_text_to_text (s : string) : of_text (to_text s) = s.
Proof. apply string_of_list_ascii_of_string. Qed.

Section Strip.
Variable p : ascii → bool.

Lemma lstrip_by_ltrimmed l : ltrimmed p (lstrip_by p l).
Proof.
  induction l as [|c t IH]; simpl; [exact I|].
  destruct (p c) eqn:E; [exact IH | exact E].
Qed.

Lemma lstrip_by_fix l : ltrimmed p l → lstrip_by p l = l.
Proof. destruct l as [|c t]; simpl; [reflexivity|]. intros ->. reflexivity. Qed.

Lemma lstrip_by_snoc l x :
  p x = false → ∃ s, lstrip_by p (l ++ [x]) = s ++ [x].
Proof.
  intros Hx. induction l as [|c t [s IH]]; simpl.
  - rewrite Hx. by exists [].
  - destruct (p c); [by exists s | by exists (c :: t)].
Qed.

Lemma rstrip_keeps_ltrimmed l :
  ltrimmed p l → ltrimmed p (rev (lstrip_by p (rev l))).
Proof.
  destruct l as [|c t]; simpl; [intros _; exact I|].
  intros Hc. destruct (lstrip_by_snoc (rev t) c Hc) as [s ->].
  rewrite rev_app_distr. simpl. exact Hc.
Qed.

Lemma strip_by_idem l : strip_by p (strip_by p l) = strip_by p l.
Proof.
  unfold strip_by.
  set (X := lstrip_by p (rev (lstrip_by p l))).
  assert (HX : ltrimmed p X) by apply lstrip_by_ltrimmed.
  assert (HR : ltrimmed p (rev X)).
  { apply rstrip_keeps_ltrimmed, lstrip_by_ltrimmed. }
  rewrite (lstrip_by_fix (rev X) HR), rev_involutive.
  rewrite (lstrip_by_fix X HX). reflexivity.
Qed.
End Strip.

Lemma str_strip_idem s : str_strip (str_strip s) = str_strip s.
Proof. unfold str_strip. rewrite to_text_of_text, strip_by_idem. reflexivity. Qed.

Section TransformerFacts.
Context `{PyLib}.

Lemma apply_chain_app v a b base :
  apply_chain v (a ++ b) base =
  rbind (apply_chain v a base) (λ v', apply_chain v' b base).
Proof.
  revert v. induction a as [|t a IH]; intros v; simpl; [reflexivity|].
  destruct (_apply_single_transform v t base); simpl; [apply IH | reflexivity].
Qed.

Lemma trim_result v base :
  _apply_single_transform v "trim" base =
  Ok (match v with
      | VNone => VNone
      | VStr s => VStr (str_strip s)
      | _ => VStr (str_strip (py_str v))
      end).
Proof. destruct v; reflexivity. Qed.

Lemma trim_twice v base (k : pyval → res pyval) :
  rbind (_apply_single_transform v "trim" base)
        (λ v', rbind (_apply_single_transform v' "trim" base) k) =
  rbind (_apply_single_transform v "trim" base) k.
Proof.
  rewrite !trim_result. destruct v; simpl; rewrite ?str_strip_idem; reflexivity.
Qed.

(** C9. Applying an empty transformation chain returns the value unchanged;
    applying [trim] twice gives what applying it once gives, alone and
    anywhere inside a longer chain. *)
Theorem empty_chain_identity_trim_idempotent (value : pyval) (base_url : string) :
  apply_transformations value [] base_url = Ok value
  ∧ apply_transformations value ["trim"; "trim"] base_url
    = apply_transformations value ["trim"] base_url
  ∧ ∀ before after : list string,
      apply_transformations value (before ++ ["trim"; "trim"] ++ after) base_url
      = apply_transformations value (before ++ ["trim"] ++ after) base_url.
Proof.
  assert (Hgen : ∀ v before after,
    apply_chain v (before ++ ["trim"; "trim"] ++ after) base_url
    = apply_chain v (before ++ ["trim"] ++ after) base_url).
  { intros v before after. rewrite !apply_chain_app.
    destruct (apply_chain v before base_url) as [w|e]; simpl; [|reflexivity].
    apply trim_twice. }
  split; [by destruct value|].
  split.
  - destruct value; try reflexivity; apply (Hgen _ [] []).
  - intros before after. destruct value; try apply Hgen.
    reflexivity.
Qed.
End TransformerFacts.

(** * The extraction core *)

Section ExtractorFacts.
Context {node : Type} `{Dom node} `{PyLib}.

Lemma is_None_true v : is_None v = true ↔ v = VNone.
Proof. destruct v; simpl; split; congruence. Qed.

Lemma is_None_false v : is_None v = false ↔ v ≠ VNone.
Proof. destruct v; simpl; split; congruence. Qed.

Section Fallbacks.
Variables (n : node) (field : FieldDefinition.t).

Local Abbreviation eval sel :=
  (_extract_with_selector n (FieldDefinition.method field) sel
     (FieldDefinition.attribute field)).

Lemma try_fallbacks_hit pre fb post :
  Forall (λ s, eval s = VNone) pre → eval fb ≠ VNone →
  try_fallbacks n field (pre ++ fb :: post) = (eval fb, pre ++ [fb]).
Proof.
  intros Hpre Hfb. induction Hpre as [|s pre Hs _ IH]; simpl.
  - apply is_None_false in Hfb. rewrite Hfb. reflexivity.
  - rewrite Hs. simpl. rewrite IH. reflexivity.
Qed.

Lemma try_fallbacks_miss fbs :
  Forall (λ s, eval s = VNone) fbs → try_fallbacks n field fbs = (VNone, fbs).
Proof.
  induction 1 as [|s fbs Hs _ IH]; simpl; [reflexivity|].
  rewrite Hs. simpl. rewrite IH. reflexivity.
Qed.

(** C7. For a field with a non-empty list of fallback selectors: when the
    primary selector yields a value, [_extract_field] returns that value and
    no fallback selector is evaluated; when it yields [None], the fallbacks
    are evaluated in list order up to the first that yields a value, and
    [_extract_field] returns that value ([None] when no fallback yields
    one). *)
Theorem fallback_selectors_in_order :
  FieldDefinition.fallback_selectors field ≠ [] →
  (eval (FieldDefinition.selector field) ≠ VNone →
     _extract_field n field = eval (FieldDefinition.selector field)
     ∧ _extract_field_traced n field
       = (eval (FieldDefinition.selector field), [FieldDefinition.selector field]))
  ∧ (eval (FieldDefinition.selector field) = VNone →
     (∀ pre fb post,
        FieldDefinition.fallback_selectors field = pre ++ fb :: post →
        Forall (λ s, eval s = VNone) pre → eval fb ≠ VNone →
        _extract_field n field = eval fb
        ∧ _extract_field_traced n field
          = (eval fb, FieldDefinition.selector field :: pre ++ [fb]))
     ∧ (Forall (λ s, eval s = VNone) (FieldDefinition.fallback_selectors field) →
        _extract_field n field = VNone
        ∧ _extract_field_traced n field
          = (VNone, FieldDefinition.selector field
                      :: FieldDefinition.fallback_selectors field))).
Proof.
  intros Hne.
  assert (Hfst : ∀ v seen, _extract_field_traced n field = (v, seen) →
                           _extract_field n field = v
                           ∧ _extract_field_traced n field = (v, seen)).
  { intros v seen Heq. split; [|exact Heq]. unfold _extract_field. by rewrite Heq. }
  assert (Hnone : eval (FieldDefinition.selector field) = VNone →
    _extract_field_traced n field
    = (let '(v, seen) := try_fallbacks n field (FieldDefinition.fallback_selectors field)
       in (v, FieldDefinition.selector field :: seen))).
  { intros Hv. unfold _extract_field_traced. rewrite Hv. cbn [is_None].
    destruct (FieldDefinition.fallback_selectors field); [congruence | reflexivity]. }
  split.
  - intros Hv. apply Hfst. unfold _extract_field_traced.
    apply is_None_false in Hv. rewrite Hv. reflexivity.
  - intros Hv. split.
    + intros pre fb post Hfbs Hpre Hfb. apply Hfst. rewrite (Hnone Hv), Hfbs.
      rewrite (try_fallbacks_hit pre fb post Hpre Hfb). reflexivity.
    + intros Hall. apply Hfst. rewrite (Hnone Hv).
      rewrite (try_fallbacks_miss _ Hall). reflexivity.
Qed.
End Fallbacks.

Section Validation.
Variable self : DataExtractor.t.

Lemma is_filled_spec rec f :
  is_filled rec f = true ↔ record_get rec (FieldDefinition.name f) ≠ VNone.
Proof.
  unfold is_filled. rewrite negb_true_iff. apply is_None_false.
Qed.


(** The container loop emits the accepted records in container order. *)
Lemma extract_containers_filter containers recs :
  Forall2 (λ c r, _extract_record self c = Ok r) containers recs →
  extract_containers self containers
  = Ok (List.filter (_validate_record self) recs).
Proof.
  induction 1 as [|c r cs rs Hc _ IH]; simpl; [reflexivity|].
  rewrite Hc. simpl. rewrite IH. simpl.
  destruct (_validate_record self r); reflexivity.
Qed.

Lemma extract_record_loop_keys n fields rec0 rec :
  _extract_record_loop self n fields rec0 = Ok rec →
  dom rec = dom rec0 ∪ list_to_set (map FieldDefinition.name fields).
Proof.
  revert rec0. induction fields as [|f fs IH]; intros rec0; simpl.
  - intros [= <-]. set_solver.
  - destruct (field_value self n f) as [v|e]; simpl; [|discriminate].
    intros Hrec. rewrite (IH _ Hrec), dom_insert_L. set_solver.
Qed.

Lemma extract_record_loop_lookup n fields rec0 rec k :
  _extract_record_loop self n fields rec0 = Ok rec →
  k ∉ map FieldDefinition.name fields → rec !! k = rec0 !! k.
Proof.
  revert rec0. induction fields as [|f fs IH]; intros rec0; simpl.
  - intros [= <-]. reflexivity.
  - destruct (field_value self n f) as [v|e]; simpl; [|discriminate].
    intros Hrec Hk. rewrite (IH _ Hrec); [|set_solver].
    apply lookup_insert_ne. set_solver.
Qed.

Lemma extract_record_loop_values n fields rec0 rec f :
  _extract_record_loop self n fields rec0 = Ok rec →
  NoDup (map FieldDefinition.name fields) → f ∈ fields →
  ∃ v, field_value self n f = Ok v ∧ rec !! FieldDefinition.name f = Some v.
Proof.
  revert rec0. induction fields as [|g fs IH]; intros rec0; simpl.
  - intros _ _ Hf. by apply elem_of_nil in Hf.
  - destruct (field_value self n g) as [v|e] eqn:Hg; simpl; [|discriminate].
    intros Hrec Hnd Hf. apply NoDup_cons in Hnd as [Hg_fresh Hnd].
    apply elem_of_cons in Hf as [->|Hf].
    + exists v. split; [exact Hg|].
      rewrite (extract_record_loop_lookup _ _ _ _ _ Hrec Hg_fresh).
      apply lookup_insert_eq.
    + apply (IH _ Hrec Hnd Hf).
Qed.

Lemma extract_containers_Forall (P : record → Prop) containers records :
  (∀ c r, _extract_record self c = Ok r → P r) →
  extract_containers self containers = Ok records → Forall P records.
Proof.
  intros HP. revert records.
  induction containers as [|c cs IH]; intros records; simpl.
  - intros [= <-]. constructor.
  - destruct (_extract_record self c) as [r|e] eqn:Hc; simpl; [|discriminate].
    destruct (extract_containers self cs) as [rs|e]; simpl; [|discriminate].
    intros [= <-]. specialize (IH rs eq_refl).
    destruct (_validate_record self r); [constructor; eauto | exact IH].
Qed.

Lemma extract_record_keys c r :
  _extract_record self c = Ok r →
  dom r = list_to_set
            (map FieldDefinition.name (ParsingSchema.fields (DataExtractor.schema self))).
Proof.
  intros Hr. unfold _extract_record in Hr.
  rewrite (extract_record_loop_keys _ _ _ _ Hr), dom_empty_L. set_solver.
Qed.

Lemma extract_keys html records :
  extract self html = Ok records →
  Forall (λ r, dom r = list_to_set
             (map FieldDefinition.name
                (ParsingSchema.fields (DataExtractor.schema self)))) records.
Proof.
  unfold extract. destruct (some_nonempty _).
  - destruct (css _ _) as [cs|e]; simpl; [|discriminate].
    apply extract_containers_Forall. exact extract_record_keys.
  - destruct (_extract_record self (HTMLParser html)) as [r|e] eqn:Hr; simpl;
      [|discriminate].
    intros [= <-]. destruct (_validate_record self r); repeat constructor.
    eapply extract_record_keys, Hr.
Qed.

(** C10. Every record produced by the extraction core has exactly the
    declared field names as its keys: [_extract_record] returns a dict whose
    key set is the set of names of the schema's fields, every record returned
    by [extract] has that key set, and (names being unique) each key holds
    the value computed for its field. *)
Theorem record_keys_are_field_names (n : node) (rec : record) :
  _extract_record self n = Ok rec →
  dom rec = list_to_set
              (map FieldDefinition.name (ParsingSchema.fields (DataExtractor.schema self)))
  ∧ (NoDup (map FieldDefinition.name (ParsingSchema.fields (DataExtractor.schema self))) →
     ∀ f, f ∈ ParsingSchema.fields (DataExtractor.schema self) →
          ∃ v, field_value self n f = Ok v ∧ rec !! FieldDefinition.name f = Some v)
  ∧ ∀ html records,
      extract self html = Ok records →
      Forall (λ r, dom r = list_to_set
                 (map FieldDefinition.name
                    (ParsingSchema.fields (DataExtractor.schema self)))) records.
Proof.
  intros Hrec. split; [eapply extract_record_keys, Hrec|]. split.
  - intros Hnd f Hf. eapply extract_record_loop_values; eauto.
  - apply extract_keys.
Qed.

End Validation.
End ExtractorFacts.

(** The fallback test of the unit tests, on the second card of the sample
    page: [.price] and [.alt-price] find nothing, [.alternate-price] does,
    and [.cost] is never evaluated. *)
Lemma fallback_selectors_in_order_witness :
  FieldDefinition.fallback_selectors Sample.price_with_fallbacks ≠ []
  ∧ _extract_field (H := Sample.dom) (Sample.Card 2) Sample.price_with_fallbacks
    = VStr "$99.99"
  ∧ _extract_field_traced (H := Sample.dom) (Sample.Card 2) Sample.price_with_fallbacks
    = (VStr "$99.99", [".price"; ".alt-price"; ".alternate-price"]).
Proof.
  split; [discriminate|].
  destruct (fallback_selectors_in_order (H := Sample.dom) (Sample.Card 2)
              Sample.price_with_fallbacks) as [_ Hnone]; [discriminate|].
  destruct (Hnone eq_refl) as [Hhit _].
  apply (Hhit [".alt-price"] ".alternate-price" [".cost"]);
    [reflexivity | repeat constructor | discriminate].
Defined.

(** The record of the first card of the sample page. *)
Lemma record_keys_are_field_names_witness :
  let rec : record := <["price" := VFloat (123456 # 100)]> (<["name" := VStr "Widget"]> ∅) in
  _extract_record (H := Sample.dom) (H0 := Sample.lib) Sample.extractor (Sample.Card 1)
  = Ok rec
  ∧ dom rec = list_to_set ["name"; "price"].
Proof.
  intros rec.
  assert (Hrec : _extract_record (H := Sample.dom) (H0 := Sample.lib)
                   Sample.extractor (Sample.Card 1) = Ok rec) by (vm_compute; reflexivity).
  split; [exact Hrec|].
  exact (proj1 (record_keys_are_field_names (H := Sample.dom) (H0 := Sample.lib)
                  Sample.extractor (Sample.Card 1) rec Hrec)).
Defined.


(** * The task coordinator *)

Section CoordinatorFacts.
Import TaskService.

Lemma commit_result_fresh db task_id t run :
  TaskRunModel.run_id run ∉ map TaskRunModel.run_id (task_runs db) →
  commit_result db task_id t run
  = (Ok tt, {| tasks := <[task_id := t]> (tasks db);
               task_runs := task_runs db ++ [run] |}).
Proof. intros Hfresh. unfold commit_result. by rewrite bool_decide_eq_false_2. Qed.

Lemma commit_result_duplicate db task_id t run :
  TaskRunModel.run_id run ∈ map TaskRunModel.run_id (task_runs db) →
  commit_result db task_id t run = (Raise (IntegrityError "uq_task_runs_run_id"), db).
Proof. intros Hdup. unfold commit_result. by rewrite bool_decide_eq_true_2. Qed.

(** A result whose [run_id] is already stored changes nothing. *)
Lemma update_from_result_duplicate now task_id run_id status metrics extraction
    errors pointers db :
  run_id ∈ map TaskRunModel.run_id (task_runs db) →
  snd (update_from_result now task_id run_id status metrics extraction errors pointers db)
  = db.
Proof.
  intros Hdup. unfold update_from_result.
  destruct (tasks db !! task_id); [|reflexivity].
  destruct (if in_members status then TaskStatus_of status else Ok FAILED);
    [|reflexivity].
  rewrite commit_result_duplicate; [reflexivity | exact Hdup].
Qed.

(** Whatever a call to [update_from_result] does, its [run_id] is stored
    afterwards or the database is the one before the call. *)
Lemma update_from_result_stores now task_id run_id status metrics extraction
    errors pointers db :
  let db1 := snd (update_from_result now task_id run_id status metrics extraction
                    errors pointers db) in
  db1 = db ∨ (run_id ∈ map TaskRunModel.run_id (task_runs db1)
              ∧ run_id ∉ map TaskRunModel.run_id (task_runs db)).
Proof.
  unfold update_from_result.
  destruct (tasks db !! task_id); [|by left].
  destruct (if in_members status then TaskStatus_of status else Ok FAILED);
    [|by left].
  unfold commit_result. case_bool_decide as Hdup; [by left|].
  right. split; [|exact Hdup]. simpl. rewrite map_app. set_solver.
Qed.

(** C2. Result ingestion is idempotent on [run_id]: after a first ingestion
    of a result, ingesting the same result again (even at a later time)
    leaves the database (the task's status, attempt counter, counters and
    pointers, and the rows of [task_runs]) as the first ingestion left it.
    The same holds for envelopes handed over by the results consumer. *)
Theorem ingestion_idempotent (now now' : Z) (task_id run_id : uuid) (status : string)
    (metrics extraction : gmap string pyval) (errors : list pyval)
    (pointers : gmap string pyval) (db : database) :
  let db1 := snd (update_from_result now task_id run_id status metrics extraction
                    errors pointers db) in
  snd (update_from_result now' task_id run_id status metrics extraction
         errors pointers db1) = db1
  ∧ ∀ r : ResultMessage.t,
      snd (ingest now' r (snd (ingest now r db))) = snd (ingest now r db).
Proof.
  assert (Hgen : ∀ t1 t2 tid rid st m e er p d,
    let d1 := snd (update_from_result t1 tid rid st m e er p d) in
    snd (update_from_result t2 tid rid st m e er p d1) = d1).
  { intros t1 t2 tid rid st m e er p d d1.
    destruct (update_from_result_stores t1 tid rid st m e er p d) as [Hsame|[Hin _]];
      fold d1 in Hsame || fold d1 in Hin.
    - rewrite Hsame.
      destruct (update_from_result_stores t2 tid rid st m e er p d)
        as [Hsame2|[Hin2 Hfresh2]]; [exact Hsame2|].
      (* the second call would store the run, so the first one did too *)
      exfalso. revert Hsame Hin2 Hfresh2. subst d1. unfold update_from_result.
      destruct (tasks d !! tid); [|simpl; intros; contradiction].
      destruct (if in_members st then TaskStatus_of st else Ok FAILED);
        [|simpl; intros; contradiction].
      unfold commit_result. case_bool_decide as Hdup; simpl; [intros; contradiction|].
      intros Heq _ _. apply (f_equal task_runs) in Heq. simpl in Heq.
      apply (f_equal length) in Heq. rewrite length_app in Heq. simpl in Heq. lia.
    - apply update_from_result_duplicate. exact Hin. }
  split; [apply Hgen|]. intros r. apply Hgen.
Qed.


(** The status the ingestion gives to a task, for the statuses a worker
    can send. *)
Lemma worker_status_maps_to_failed status :
  status ∈ ["success"; "partial"; "failed"; "retry"] →
  (if in_members status then TaskStatus_of status else Ok FAILED) = Ok FAILED.
Proof.
  intros Hin. repeat (apply elem_of_cons in Hin as [->|Hin]; [reflexivity|]).
  by apply elem_of_nil in Hin.
Qed.


End CoordinatorFacts.


(** * The workers *)

Section WorkerMonadFacts.
Context `{WorkerEnv}.

Lemma returns_bind {A B} (P : B → wstate → Prop) (m : W A) (k : A → W B) :
  (∀ a, returns P (k a)) → returns P (m ≫= k).
Proof.
  intros Hk s b s'. unfold mbind, W_bind.
  destruct (m s) as [[a|e] s1]; [apply Hk | discriminate].
Qed.

Lemma returns_finish (P : ResultMessage.t → wstate → Prop) build :
  (∀ s, P (build elapsed_ms (builder s)) s) → returns P (finish build).
Proof. intros HP s a s' [= <- <-]. apply HP. Qed.

Lemma returns_lift_raise {A} (P : A → wstate → Prop) e : returns P (lift (Raise e)).
Proof. intros s a s'. discriminate. Qed.

Lemma preserves_bind {A B} I (m : W A) (k : A → W B) :
  preserves I m → (∀ a, preserves I (k a)) → preserves I (m ≫= k).
Proof.
  intros Hm Hk s r s' Hs. unfold mbind, W_bind.
  destruct (m s) as [[a|e] s1] eqn:Hms.
  - apply Hk. eapply Hm; eauto.
  - intros [= <- <-]. eapply Hm; eauto.
Qed.

Lemma preserves_ret {A} I (a : A) : preserves I (mret a).
Proof. intros s r s' Hs [= <- <-]. exact Hs. Qed.

Lemma preserves_lift {A} I (x : res A) : preserves I (lift x).
Proof. intros s r s' Hs [= <- <-]. exact Hs. Qed.

Lemma preserves_finish I build : preserves I (finish build).
Proof. intros s r s' Hs [= <- <-]. exact Hs. Qed.

Lemma preserves_when I c m : preserves I m → preserves I (when c m).
Proof. destruct c; [trivial | intros _; apply preserves_ret]. Qed.

End WorkerMonadFacts.

Section HTTPWorkerFacts.
Context {node : Type} `{Dom node} `{PyLib} `{WorkerEnv}.
Variable _fetch_page :
  string → list (string * string) → option string → option string * Z.
Variable with_query_param : string → string → Z → string.

Local Abbreviation run := (HTTPWorker.run _fetch_page with_query_param).
Local Abbreviation _execute_task := (HTTPWorker._execute_task _fetch_page with_query_param).

(** A response with an error status ends the run with the [failed]
    envelope, whatever the attempt number. *)
Lemma execute_http_error task schema http_status :
  _get_schema (TaskMessage.schema_id task) (TaskMessage.schema_version task) = Some schema →
  (∀ url headers proxy, snd (_fetch_page url headers proxy) = http_status) →
  400 ≤ http_status →
  let r := fst (_execute_task task) in
  ResultMessage.status r = "failed"
  ∧ ResultMessage.task_id r = TaskMessage.task_id task
  ∧ ResultMessage.run_id r = TaskMessage.run_id task
  ∧ ResultMessage.http_status r = Some http_status
  ∧ ResultMessage.errors r
    = [ {| ErrorDetail.code := "HTTP_ERROR";
           ErrorDetail.message := "HTTP " +:+ py_str (VInt http_status);
           ErrorDetail.is_retryable := retryable_http_status http_status |} ]
  ∧ published (snd (_execute_task task)) = [].
Proof.
  intros Hschema Hfetch Herr.
  unfold HTTPWorker._execute_task, HTTPWorker.run.
  rewrite Hschema.
  match goal with |- context [_fetch_page ?u ?h ?p] =>
    specialize (Hfetch u h p); destruct (_fetch_page u h p) as [html st] end.
  simpl in Hfetch. subst st.
  assert (Hc : negb (some_nonempty html) || (400 <=? http_status) = true).
  { apply orb_true_iff. right. by apply Z.leb_le. }
  rewrite Hc. simpl. repeat split.
Qed.

(** The [try] block ends with [build_failed] or [build_success]: the
    envelope it returns is built from the final builder and is never a
    [retry] envelope. *)
Lemma run_returns_built task : returns built_from_state (run task).
Proof.
  assert (Hfailed : returns built_from_state (finish ResultBuilder.build_failed)).
  { apply returns_finish. intros s. exists "failed". split; [set_solver|reflexivity]. }
  assert (Hsuccess : returns built_from_state (finish ResultBuilder.build_success)).
  { apply returns_finish. intros s. unfold ResultBuilder.build_success.
    destruct (0 <? ResultBuilder._records_valid (builder s));
      [exists "success" | exists "partial"]; (split; [set_solver|reflexivity]). }
  unfold HTTPWorker.run.
  destruct (_get_schema _ _) as [schema|].
  - destruct (_fetch_page _ _ _) as [html http_status].
    do 3 (apply returns_bind; intros _).
    destruct (negb (some_nonempty html) || (400 <=? http_status)).
    + apply returns_bind; intros _. exact Hfailed.
    + do 6 (apply returns_bind; intros ?). exact Hsuccess.
  - apply returns_bind; intros _. exact Hfailed.
Qed.

Lemma built_status_not_retry r s : built_from_state r s → ResultMessage.status r ≠ "retry".
Proof.
  intros (st & Hst & ->). simpl.
  repeat (apply elem_of_cons in Hst as [->|Hst]; [discriminate|]).
  by apply elem_of_nil in Hst.
Qed.

(** A [retry] envelope comes from the [except] clauses for timeouts and
    connection errors, while [attempt < max_attempts]. *)
Lemma retry_only_from_transport_exceptions task :
  ResultMessage.status (fst (_execute_task task)) = "retry" →
  TaskMessage.attempt task < TaskMessage.max_attempts task
  ∧ ∃ s0 s e, run task s0 = (Raise e, s)
              ∧ (e = TimeoutError ∨ ∃ msg, e = ClientError msg).
Proof.
  unfold HTTPWorker._execute_task.
  match goal with |- context [run task ?s] => set (s0 := s) end.
  destruct (run task s0) as [[r|e] s] eqn:Hrun.
  - simpl. intros Hst. exfalso.
    exact (built_status_not_retry _ _ (run_returns_built task _ _ _ Hrun) Hst).
  - assert (Hretry : ∀ b,
      ResultMessage.status
        (if TaskMessage.attempt task <? TaskMessage.max_attempts task
         then ResultBuilder.build_retry elapsed_ms b
         else ResultBuilder.build_failed elapsed_ms b) = "retry" →
      TaskMessage.attempt task < TaskMessage.max_attempts task).
    { intros b. destruct (Z.ltb_spec (TaskMessage.attempt task)
                            (TaskMessage.max_attempts task)); [done|discriminate]. }
    destruct e; simpl; intros Hst; try discriminate.
    + split; [eapply Hretry, Hst|]. exists s0, s, TimeoutError. split; [done|by left].
    + split; [eapply Hretry, Hst|]. exists s0, s, (ClientError msg).
      split; [done|right; by exists msg].
Qed.

(** C1 on the code. When the fetch answers HTTP 503 the run ends with the
    envelope status [failed] whatever the attempt number, also while
    [attempt < max_attempts]: the branch adds the error [HTTP_ERROR], marks
    it retryable (so that [should_retry] holds of the envelope) and then
    builds the [failed] envelope unconditionally; nothing is published.  In
    the same function a [retry] envelope is built only by the handlers of
    timeout and connection exceptions, while [attempt < max_attempts].
    [update_from_result], given that envelope for a stored task, stores the
    status [FAILED], not [DLQ], and one run row. *)
Theorem http_503_runs_fail (task : TaskMessage.t) (schema : ParsingSchema.t) :
  _get_schema (TaskMessage.schema_id task) (TaskMessage.schema_version task) = Some schema →
  (∀ url headers proxy, snd (_fetch_page url headers proxy) = 503) →
  let r := fst (_execute_task task) in
  ResultMessage.status r = "failed"
  ∧ ResultMessage.status r ≠ "retry"
  ∧ ResultMessage.errors r
    = [ {| ErrorDetail.code := "HTTP_ERROR";
           ErrorDetail.message := "HTTP " +:+ py_str (VInt 503);
           ErrorDetail.is_retryable := true |} ]
  ∧ ResultMessage.http_status r = Some 503
  ∧ ResultMessage.should_retry r = true
  ∧ published (snd (_execute_task task)) = []
  ∧ (∀ t, ResultMessage.status (fst (_execute_task t)) = "retry" →
          TaskMessage.attempt t < TaskMessage.max_attempts t
          ∧ ∃ s0 s e, run t s0 = (Raise e, s)
                      ∧ (e = TimeoutError ∨ ∃ msg, e = ClientError msg))
  ∧ ∀ (now : Z) (metrics extraction : gmap string pyval) (errors : list pyval)
      (pointers : gmap string pyval) (db : database) (stored : TaskModel.t),
      tasks db !! TaskMessage.task_id task = Some stored →
      TaskMessage.run_id task ∉ map TaskRunModel.run_id (task_runs db) →
      let out := TaskService.update_from_result now (ResultMessage.task_id r)
                   (ResultMessage.run_id r) (ResultMessage.status r)
                   metrics extraction errors pointers db in
      fst out = Ok tt
      ∧ TaskModel.status <$> tasks (snd out) !! TaskMessage.task_id task = Some FAILED
      ∧ TaskModel.status <$> tasks (snd out) !! TaskMessage.task_id task ≠ Some DLQ
      ∧ length (task_runs (snd out)) = S (length (task_runs db)).
Proof.
  intros Hschema Hfetch r.
  destruct (execute_http_error task schema 503 Hschema Hfetch)
    as (Hst & Htid & Hrid & Hhs & Herr & Hpub); [lia|].
  fold r in Hst, Htid, Hrid, Hhs, Herr.
  split; [exact Hst|]. split; [rewrite Hst; discriminate|].
  split; [exact Herr|]. split; [exact Hhs|].
  split; [unfold ResultMessage.should_retry; rewrite Hst, Herr; reflexivity|].
  split; [exact Hpub|].
  split; [intros t; apply retry_only_from_transport_exceptions|].
  intros now metrics extraction errors pointers db stored Hstored Hfresh out.
  unfold out, TaskService.update_from_result.
  rewrite Htid, Hrid, Hst, Hstored.
  rewrite (worker_status_maps_to_failed "failed")
    by (apply list_elem_of_further, list_elem_of_further, list_elem_of_here).
  rewrite commit_result_fresh by exact Hfresh. simpl.
  rewrite lookup_insert_eq. simpl.
  split_and!; [reflexivity | reflexivity | discriminate |].
  rewrite length_app. simpl. lia.
Qed.

End HTTPWorkerFacts.

(** The sample task against a server that always answers 503, on its first
    attempt of three: the envelope is [failed], not [retry], and
    [update_from_result] stores [FAILED]. *)
Lemma http_503_runs_fail_witness :
  let task := Sample.task 41 0 1 in
  let r := fst (HTTPWorker._execute_task (H := Sample.dom) (H0 := Sample.lib)
                  (H1 := Sample.env None) (Sample.fetch_status 503)
                  Sample.no_query_rewrite task) in
  let out := TaskService.update_from_result 1 (ResultMessage.task_id r)
               (ResultMessage.run_id r) (ResultMessage.status r) ∅ ∅ [] ∅
               (Sample.db QUEUED) in
  TaskMessage.attempt task < TaskMessage.max_attempts task
  ∧ ResultMessage.status r = "failed"
  ∧ ResultMessage.should_retry r = true
  ∧ TaskModel.status <$> tasks (snd out) !! 7%N = Some FAILED.
Proof.
  intros task r out.
  destruct (http_503_runs_fail (H := Sample.dom) (H0 := Sample.lib)
              (H1 := Sample.env None) (Sample.fetch_status 503)
              Sample.no_query_rewrite task (Sample.products None)
              eq_refl (λ _ _ _, eq_refl))
    as (Hst & _ & _ & _ & Hretry & _ & _ & Hstore).
  destruct (Hstore 1 ∅ ∅ [] ∅ (Sample.db QUEUED) (Sample.stored QUEUED))
    as (_ & Hfailed & _); [reflexivity | simpl; by intros ?%elem_of_nil |].
  split; [reflexivity|]. exact (conj Hst (conj Hretry Hfailed)).
Defined.

Section RejectedCount.
Context {node : Type} `{Dom node} `{PyLib} `{WorkerEnv}.

Lemma preserves_bind_lift {A B} I (x : res A) (k : A → W B) :
  (∀ a, x = Ok a → preserves I (k a)) → preserves I (lift x ≫= k).
Proof.
  intros Hk s r s' Hs. unfold mbind, W_bind, lift.
  destruct x as [a|e]; [by apply Hk | intros [= <- <-]; exact Hs].
Qed.

Lemma preserves_update I f :
  (∀ s, I s → I {| builder := f (builder s); published := published s;
                   trashed := trashed s; drawn := drawn s |}) →
  preserves I (update f).
Proof. intros Hf s r s' Hs [= <- <-]. by apply Hf. Qed.

Lemma preserves_draw_uuid I :
  (∀ s, I s → I {| builder := builder s; published := published s;
                   trashed := trashed s; drawn := S (drawn s) |}) →
  preserves I draw_uuid.
Proof. intros Hd s r s' Hs [= <- <-]. by apply Hd. Qed.

Lemma preserves_publish I msg mode :
  (∀ s, I s → I {| builder := builder s; published := published s ++ [(msg, mode)];
                   trashed := trashed s; drawn := drawn s |}) →
  preserves I (publish msg mode).
Proof. intros Hp s r s' Hs [= <- <-]. by apply Hp. Qed.

(** A record with a key is truthy. *)
Lemma record_truthy_of_keys (r : record) (names : list string) :
  names ≠ [] → dom r = list_to_set names → record_truthy r = true.
Proof.
  intros Hne Hdom. unfold record_truthy. apply negb_true_iff, Nat.eqb_neq.
  intros Hsize. apply map_size_empty_inv in Hsize. subst r.
  rewrite dom_empty_L in Hdom. destruct names as [|k ks]; [done|].
  simpl in Hdom. set_solver.
Qed.

Lemma filter_all_true {A} (p : A → bool) (l : list A) :
  Forall (λ x, p x = true) l → filter (λ x, p x = true) l = l.
Proof.
  induction 1 as [|x l Hx _ IH]; [reflexivity|].
  rewrite filter_cons_True by exact Hx. by rewrite IH.
Qed.

(** Whatever [extract] returns for a schema with at least one field is a
    list of truthy records: the worker finds nothing to reject in it. *)
Lemma extracted_records_truthy (self : DataExtractor.t) html records :
  ParsingSchema.fields (DataExtractor.schema self) ≠ [] →
  extract self html = Ok records →
  filter (λ r, record_truthy r = true) records = records.
Proof.
  intros Hfields Hext. apply filter_all_true.
  eapply Forall_impl; [apply (extract_keys self html records Hext)|].
  intros r Hr. simpl in Hr. eapply record_truthy_of_keys; [|exact Hr].
  destruct (ParsingSchema.fields (DataExtractor.schema self)); [done|discriminate].
Qed.

End RejectedCount.

Section HTTPRejectedCount.
Context {node : Type} `{Dom node} `{PyLib} `{WorkerEnv}.
Variable _fetch_page :
  string → list (string * string) → option string → option string * Z.
Variable with_query_param : string → string → Z → string.

Local Abbreviation run := (HTTPWorker.run _fetch_page with_query_param).
Local Abbreviation _execute_task := (HTTPWorker._execute_task _fetch_page with_query_param).

Local Ltac keep_builder :=
  apply preserves_update; intros ? (? & ? & ?); repeat split; simpl; assumption.

Lemma http_child_preserves_nothing_rejected parent url :
  preserves nothing_rejected (HTTPWorker._create_pagination_task parent url).
Proof.
  unfold HTTPWorker._create_pagination_task.
  apply preserves_bind; [apply preserves_draw_uuid; intros s Hs; exact Hs | intros ?].
  apply preserves_bind; [apply preserves_draw_uuid; intros s Hs; exact Hs | intros ?].
  apply preserves_bind; [apply preserves_lift | intros ?].
  apply preserves_publish. intros s Hs. exact Hs.
Qed.

Lemma http_run_preserves_nothing_rejected task :
  (∀ schema,
     _get_schema (TaskMessage.schema_id task) (TaskMessage.schema_version task) = Some schema →
     ParsingSchema.fields schema ≠ []) →
  preserves nothing_rejected (run task).
Proof.
  intros Hfields. unfold HTTPWorker.run.
  destruct (_get_schema _ _) as [schema|] eqn:Hschema.
  - specialize (Hfields schema eq_refl).
    destruct (_fetch_page _ _ _) as [html http_status].
    do 3 (apply preserves_bind; [keep_builder | intros _]).
    destruct (negb (some_nonempty html) || (400 <=? http_status)).
    + apply preserves_bind; [keep_builder | intros _]. apply preserves_finish.
    + apply preserves_bind_lift. intros records Hext. cbv zeta.
      rewrite (extracted_records_truthy
                 {| DataExtractor.schema := schema;
                    DataExtractor.base_url := TaskMessage.target_url task |}
                 _ _ Hfields Hext), Z.sub_diag.
      apply preserves_bind.
      { apply preserves_update. intros s (_ & _ & Htr). repeat split; simpl; assumption. }
      intros _. apply preserves_bind; [keep_builder | intros _].
      apply preserves_bind.
      { destruct records; [apply preserves_ret|].
        apply preserves_bind; [apply preserves_lift | intros ?]. keep_builder. }
      intros _. apply preserves_bind; [apply preserves_ret | intros _].
      apply preserves_bind; [|intros _; apply preserves_finish].
      destruct (ParsingSchema.pagination schema); [|apply preserves_ret].
      apply preserves_bind; [apply preserves_lift | intros next_url].
      apply preserves_when.
      apply preserves_bind; [keep_builder | intros _].
      apply http_child_preserves_nothing_rejected.
  - apply preserves_bind; [keep_builder | intros _]. apply preserves_finish.
Qed.

(** C5 on the code. Whatever the page, the envelope of an HTTP run never
    reports a rejected record: [extract] hands over only the records that
    passed validation, all of them truthy, so that [records_rejected] is 0,
    [records_valid] equals [records_extracted] and nothing is written to the
    trash store. *)
Theorem http_rejected_count_always_zero (task : TaskMessage.t) :
  (∀ schema,
     _get_schema (TaskMessage.schema_id task) (TaskMessage.schema_version task) = Some schema →
     ParsingSchema.fields schema ≠ []) →
  ResultMessage.records_rejected (fst (_execute_task task)) = 0
  ∧ ResultMessage.records_valid (fst (_execute_task task))
    = ResultMessage.records_extracted (fst (_execute_task task))
  ∧ trashed (snd (_execute_task task)) = [].
Proof.
  intros Hfields. unfold HTTPWorker._execute_task.
  match goal with |- context [run task ?s] => set (s0 := s) end.
  assert (Hs0 : nothing_rejected s0) by (repeat split).
  destruct (run task s0) as [[r|e] s] eqn:Hrun.
  - destruct (http_run_preserves_nothing_rejected task Hfields _ _ _ Hs0 Hrun)
      as (Hr & Hv & Ht).
    destruct (run_returns_built _fetch_page with_query_param task _ _ _ Hrun)
      as (st & _ & ->).
    simpl. repeat split; assumption.
  - destruct (http_run_preserves_nothing_rejected task Hfields _ _ _ Hs0 Hrun)
      as (Hr & Hv & Ht).
    destruct e; simpl;
      try destruct (TaskMessage.attempt task <? TaskMessage.max_attempts task);
      simpl; repeat split; assumption.
Qed.

End HTTPRejectedCount.

(** The sample page: three cards, the second without a price.  The record of
    the second card is rejected by the extractor, and the envelope of the
    run counts two extracted, two valid and no rejected record. *)
Lemma http_rejected_count_always_zero_witness :
  let result := HTTPWorker._execute_task (H := Sample.dom) (H0 := Sample.lib)
                  (H1 := Sample.env None) (Sample.fetch_status 200)
                  Sample.no_query_rewrite (Sample.task 41 0 1) in
  (css (Dom := Sample.dom) Sample.Page "div.product-card"
   = Ok [Sample.Card 1; Sample.Card 2; Sample.Card 3])
  ∧ (rbind (_extract_record (H := Sample.dom) (H0 := Sample.lib)
              Sample.extractor (Sample.Card 2))
           (λ r, Ok (_validate_record Sample.extractor r)) = Ok false)
  ∧ ResultMessage.status (fst result) = "success"
  ∧ ResultMessage.records_extracted (fst result) = 2
  ∧ ResultMessage.records_valid (fst result) = 2
  ∧ ResultMessage.records_rejected (fst result) = 0
  ∧ trashed (snd result) = [].
Proof.
  intros result.
  split; [reflexivity|]. split; [vm_compute; reflexivity|].
  split; [vm_compute; reflexivity|].
  split; [vm_compute; reflexivity|].
  split; [vm_compute; reflexivity|].
  destruct (http_rejected_count_always_zero (H := Sample.dom) (H0 := Sample.lib)
              (H1 := Sample.env None) (Sample.fetch_status 200)
              Sample.no_query_rewrite (Sample.task 41 0 1)) as (Hr & _ & Ht).
  - intros schema [= <-]. discriminate.
  - split; assumption.
Defined.

Section HTTPPagination.
Context {node : Type} `{Dom node} `{PyLib} `{WorkerEnv}.
Variable _fetch_page :
  string → list (string * string) → option string → option string * Z.
Variable with_query_param : string → string → Z → string.

Local Abbreviation run := (HTTPWorker.run _fetch_page with_query_param).
Local Abbreviation _execute_task := (HTTPWorker._execute_task _fetch_page with_query_param).

Local Ltac keep_published :=
  apply preserves_update; intros ? Hpub; exact Hpub.

(** The HTTP worker publishes no child task for a page at or beyond the page
    limit. *)
Lemma http_child_only_below_page_limit task :
  (∀ schema pagination,
     _get_schema (TaskMessage.schema_id task) (TaskMessage.schema_version task) = Some schema →
     ParsingSchema.pagination schema = Some pagination →
     HTTPWorker.page_limit task pagination ≤ TaskMessage.page_number task) →
  published (snd (_execute_task task)) = [].
Proof.
  intros Hlimit.
  assert (Hrun : preserves nothing_published (run task)).
  { unfold HTTPWorker.run.
    destruct (_get_schema _ _) as [schema|] eqn:Hschema.
    - specialize (Hlimit schema).
      destruct (_fetch_page _ _ _) as [html http_status].
      do 3 (apply preserves_bind; [keep_published | intros _]).
      destruct (negb (some_nonempty html) || (400 <=? http_status)).
      + apply preserves_bind; [keep_published | intros _]. apply preserves_finish.
      + apply preserves_bind; [apply preserves_lift | intros records]. cbv zeta.
        do 2 (apply preserves_bind; [keep_published | intros _]).
        apply preserves_bind.
        { destruct (filter _ records); [apply preserves_ret|].
          apply preserves_bind; [apply preserves_lift | intros ?]. keep_published. }
        intros _. apply preserves_bind.
        { apply preserves_when.
          apply preserves_bind; [apply preserves_lift | intros ?].
          intros s r s' Hs [= <- <-]. exact Hs. }
        intros _. apply preserves_bind; [|intros _; apply preserves_finish].
        destruct (ParsingSchema.pagination schema) as [pagination|];
          [|apply preserves_ret].
        specialize (Hlimit pagination eq_refl eq_refl).
        apply preserves_bind; [apply preserves_lift | intros next_url].
        assert (Hlt : (TaskMessage.page_number task
                       <? HTTPWorker.page_limit task pagination) = false)
          by (apply Z.ltb_ge; exact Hlimit).
        rewrite Hlt, andb_false_r. apply preserves_ret.
    - apply preserves_bind; [keep_published | intros _]. apply preserves_finish. }
  unfold HTTPWorker._execute_task.
  match goal with |- context [run task ?s] => set (s0 := s) end.
  assert (Hs0 : nothing_published s0) by reflexivity.
  destruct (run task s0) as [[r|e] s] eqn:Hrun0;
    pose proof (Hrun _ _ _ Hs0 Hrun0) as Hpub;
    [exact Hpub | destruct e; exact Hpub].
Qed.

End HTTPPagination.

(** C6 on the code. The sample catalogue declares [max_pages = 10] and shows
    a next-page link.  For the task of page 10 the HTTP worker publishes no
    child task, but the browser worker, which does not compare [page_number]
    with the limit, publishes the child task of page 11 and reports
    [has_next_page]. For the task of page 1 both publish exactly one child,
    of page 2 and with the parent's [task_id]. *)
Theorem browser_worker_ignores_max_pages :
  let pagination := Sample.next_button 10 in
  let http page :=
    HTTPWorker._execute_task (H := Sample.dom) (H0 := Sample.lib)
      (H1 := Sample.env (Some pagination)) (Sample.fetch_status 200)
      Sample.no_query_rewrite (Sample.task 41 0 page) in
  let browser page :=
    BrowserWorker._execute_task (H := Sample.dom) (H0 := Sample.lib)
      (H1 := Sample.env (Some pagination)) Sample.new_page Sample.page_goto
      Sample.no_navigation Sample.no_navigation Sample.page_content
      Sample.capture_debug Sample.next_href Sample.page_url (Sample.task 41 0 page) in
  let children (out : ResultMessage.t * wstate) :=
    map (λ m, (TaskMessage.page_number (fst m), TaskMessage.parent_task_id (fst m), snd m))
        (published (snd out)) in
  HTTPWorker.page_limit (Sample.task 41 0 10) pagination = 10
  ∧ children (http 1) = [(2, Some 7%N, "http")]
  ∧ children (browser 1) = [(2, Some 7%N, "browser")]
  ∧ children (http 10) = []
  ∧ ResultMessage.has_next_page (fst (http 10)) = false
  ∧ children (browser 10) = [(11, Some 7%N, "browser")]
  ∧ ResultMessage.has_next_page (fst (browser 10)) = true
  ∧ ResultMessage.status (fst (browser 10)) = "success".
Proof. vm_compute. repeat split. Qed.

(** * Number extraction *)

Lemma chr_eqb_sym a b : chr_eqb a b = chr_eqb b a.
Proof. apply Ascii.eqb_sym. Qed.

Lemma chr_eqb_eq a b : chr_eqb a b = true ↔ a = b.
Proof. apply Ascii.eqb_eq. Qed.

Lemma chr_eqb_refl a : chr_eqb a a = true.
Proof. apply Ascii.eqb_refl. Qed.

Lemma flat_map_flat_map {A B C} (f : B → list C) (g : A → list B) (l : list A) :
  flat_map f (flat_map g l) = flat_map (λ x, flat_map f (g x)) l.
Proof.
  induction l as [|x l IH]; simpl; [reflexivity|].
  by rewrite flat_map_app, IH.
Qed.

Lemma flat_map_agree {A B} (f g : A → list B) (l : list A) :
  (∀ x, x ∈ l → f x = g x) → flat_map f l = flat_map g l.
Proof.
  induction l as [|x l IH]; intros Hfg; simpl; [reflexivity|].
  rewrite Hfg by set_solver. rewrite IH; [reflexivity|]. intros y Hy. apply Hfg. set_solver.
Qed.

Lemma flat_map_singleton {A} (l : list A) : flat_map (λ x, [x]) l = l.
Proof. induction l as [|x l IH]; simpl; [reflexivity|]. by rewrite IH. Qed.

(** Replacing a single character is a character-wise substitution. *)
Lemma text_replace_chr c new l :
  text_replace [c] new l = flat_map (λ x, if chr_eqb x c then new else [x]) l.
Proof.
  unfold text_replace. induction l as [|x l IH]; simpl; [reflexivity|].
  rewrite (chr_eqb_sym c x). destruct (chr_eqb x c); simpl; by rewrite IH.
Qed.

Lemma has_chr_false c l : has_chr c l = false ↔ c ∉ l.
Proof.
  unfold has_chr. induction l as [|x l IH]; simpl.
  - split; [intros _; apply not_elem_of_nil | reflexivity].
  - rewrite orb_false_iff, IH, not_elem_of_cons. split.
    + intros [Hx Hl]. split; [|exact Hl]. intros ->. by rewrite chr_eqb_refl in Hx.
    + intros [Hx Hl]. split; [|exact Hl].
      destruct (chr_eqb c x) eqn:E; [|reflexivity]. by apply chr_eqb_eq in E.
Qed.

Lemma has_chr_true c l : has_chr c l = true ↔ c ∈ l.
Proof.
  destruct (has_chr c l) eqn:E.
  - split; [intros _|reflexivity]. destruct (decide (c ∈ l)) as [|Hn]; [done|].
    apply has_chr_false in Hn. congruence.
  - apply has_chr_false in E. split; [discriminate | contradiction].
Qed.

Lemma has_chr_app c l1 l2 : has_chr c (l1 ++ l2) = has_chr c l1 || has_chr c l2.
Proof. apply existsb_app. Qed.

(** *** [rfind] and the rightmost separator *)

Lemma rfind_from_snoc c l x i acc :
  rfind_from c (l ++ [x]) i acc
  = if chr_eqb x c then i + Z.of_nat (length l) else rfind_from c l i acc.
Proof.
  revert i acc. induction l as [|y l IH]; intros i acc; simpl.
  - destruct (chr_eqb x c); [lia | reflexivity].
  - rewrite IH. destruct (chr_eqb x c); [lia | reflexivity].
Qed.

Lemma rfind_snoc c l x :
  rfind c (l ++ [x]) = if chr_eqb x c then Z.of_nat (length l) else rfind c l.
Proof. unfold rfind. rewrite rfind_from_snoc. by destruct (chr_eqb x c). Qed.

Lemma rfind_bound c l : rfind c l < Z.of_nat (length l).
Proof.
  induction l as [|x l IH] using rev_ind; [unfold rfind; simpl; lia|].
  rewrite rfind_snoc, length_app. simpl. destruct (chr_eqb x c); lia.
Qed.

Lemma rightmost_separator_snoc l x :
  rightmost_separator (l ++ [x])
  = if is_separator x then x else rightmost_separator l.
Proof.
  unfold rightmost_separator. rewrite filter_app.
  destruct (is_separator x) eqn:E.
  - rewrite (filter_cons_True _ x []) by exact E. simpl. apply last_last.
  - rewrite (filter_cons_False _ x []) by congruence. simpl. by rewrite app_nil_r.
Qed.

(** With a comma in the text: the last comma lies to the right of the last
    point exactly when the rightmost separator is a comma. *)
Lemma rfind_comma_rightmost l :
  has_chr "," l = true →
  (rfind "," l >? rfind "." l) = chr_eqb (rightmost_separator l) ",".
Proof.
  induction l as [|x l IH] using rev_ind; [discriminate|].
  rewrite has_chr_app, !rfind_snoc, rightmost_separator_snoc. simpl.
  unfold is_separator. rewrite (chr_eqb_sym "," x), orb_false_r.
  destruct (chr_eqb x ",") eqn:Ec; simpl.
  - intros _. apply chr_eqb_eq in Ec. subst x.
    pose proof (rfind_bound "." l).
    change (chr_eqb "," ".") with false. change (chr_eqb "," ",") with true.
    cbv iota. rewrite Z.gtb_ltb. apply Z.ltb_lt. lia.
  - destruct (chr_eqb x ".") eqn:Ep; simpl.
    + intros _. apply chr_eqb_eq in Ep. subst x.
      pose proof (rfind_bound "," l).
      change (chr_eqb "." ",") with false.
      rewrite Z.gtb_ltb. apply Z.ltb_ge. lia.
    + rewrite orb_false_r. exact IH.
Qed.

(** *** The last segment of a split *)

Lemma after_last_absent c l : has_chr c l = false → after_last c l = l.
Proof.
  destruct l as [|x l]; simpl; [reflexivity|].
  rewrite orb_false_iff. intros [Hx Hl]. rewrite Hl, (chr_eqb_sym x c), Hx. reflexivity.
Qed.

Lemma split_chr_absent c l : has_chr c l = false → split_chr c l = [l].
Proof.
  induction l as [|x l IH]; simpl; [reflexivity|].
  rewrite orb_false_iff. intros [Hx Hl].
  rewrite (chr_eqb_sym x c), Hx, (IH Hl). reflexivity.
Qed.

Lemma split_chr_present c l :
  has_chr c l = true → ∃ h g r, split_chr c l = h :: g :: r.
Proof.
  induction l as [|x l IH]; simpl; [discriminate|].
  rewrite (chr_eqb_sym c x). destruct (chr_eqb x c) eqn:E; simpl.
  - intros _. destruct (split_chr c l) as [|g r] eqn:Es.
    + destruct l; simpl in Es; [discriminate|].
      destruct (chr_eqb a c); [discriminate|]. destruct (split_chr c l); discriminate.
    + by exists [], g, r.
  - intros Hl. destruct (IH Hl) as (h & g & r & ->). by exists (x :: h), g, r.
Qed.

Lemma last_split_chr c l : List.last (split_chr c l) [] = after_last c l.
Proof.
  induction l as [|x l IH]; [reflexivity|].
  cbn [after_last]. destruct (has_chr c l) eqn:Hl.
  - destruct (split_chr_present c l Hl) as (h & g & r & Hs).
    rewrite <- IH. cbn [split_chr]. rewrite Hs.
    destruct (chr_eqb x c); reflexivity.
  - cbn [split_chr]. rewrite (split_chr_absent c l Hl).
    destruct (chr_eqb x c); reflexivity.
Qed.

(** *** The code follows the separator rule *)

Lemma normalize_separators_spec cleaned :
  normalize_separators cleaned = read_decimal (decimal_separator cleaned) cleaned.
Proof.
  unfold normalize_separators, decimal_separator, read_decimal.
  rewrite !text_replace_chr, last_split_chr.
  destruct (has_chr "," cleaned) eqn:Hc; simpl.
  - destruct (has_chr "." cleaned) eqn:Hp; simpl.
    + rewrite (rfind_comma_rightmost _ Hc).
      assert (Hsep : rightmost_separator cleaned = ","%char
                     ∨ rightmost_separator cleaned = "."%char).
      { unfold rightmost_separator.
        assert (Hall : Forall (λ c, c = ","%char ∨ c = "."%char)
                         (filter (λ c, is_separator c = true) cleaned)).
        { apply Forall_forall. intros c Hin.
          apply list_elem_of_filter in Hin as [Hsep _].
          unfold is_separator in Hsep. apply orb_true_iff in Hsep as [E|E];
            apply chr_eqb_eq in E; auto. }
        induction Hall as [|c l Hc' _ IH']; [by right|].
        destruct l; [exact Hc' | exact IH']. }
      destruct Hsep as [-> | ->]; simpl.
      * rewrite flat_map_flat_map. apply flat_map_agree. intros x _.
        unfold is_separator.
        destruct (chr_eqb x ".") eqn:Ep; simpl.
        -- apply chr_eqb_eq in Ep. subst x. reflexivity.
        -- destruct (chr_eqb x ","); reflexivity.
      * apply flat_map_agree. intros x _. unfold is_separator.
        destruct (chr_eqb x ".") eqn:Ep; simpl.
        -- apply chr_eqb_eq in Ep. subst x. reflexivity.
        -- destruct (chr_eqb x ","); reflexivity.
    + apply has_chr_false in Hp.
      destruct (Nat.eqb (length (after_last "," cleaned)) 2); simpl.
      * apply flat_map_agree. intros x Hx. unfold is_separator.
        destruct (chr_eqb x ",") eqn:Ec; [reflexivity|]. simpl.
        destruct (chr_eqb x ".") eqn:Ep; [|reflexivity].
        apply chr_eqb_eq in Ep. subst x. contradiction.
      * apply flat_map_agree. intros x Hx. unfold is_separator.
        destruct (chr_eqb x ".") eqn:Ep; simpl.
        -- apply chr_eqb_eq in Ep. subst x. contradiction.
        -- destruct (chr_eqb x ","); reflexivity.
  - apply has_chr_false in Hc. rewrite <- (flat_map_singleton cleaned) at 1.
    apply flat_map_agree. intros x Hx. unfold is_separator.
    destruct (chr_eqb x ".") eqn:Ep; simpl.
    + apply chr_eqb_eq in Ep. by subst x.
    + destruct (chr_eqb x ",") eqn:Ec; [|reflexivity].
      apply chr_eqb_eq in Ec. subst x. contradiction.
Qed.

Lemma extract_number_spec value : _extract_number value = spec_extract_number value.
Proof.
  unfold _extract_number, spec_extract_number.
  destruct (String.eqb value ""); [reflexivity|].
  by rewrite normalize_separators_spec.
Qed.

(** *** Texts of digits and separators *)

Lemma digit_not_special x :
  is_digit x = true →
  chr_eqb x "," = false ∧ chr_eqb x "." = false
  ∧ chr_eqb x "-" = false ∧ chr_eqb x "+" = false.
Proof.
  intros Hx. repeat split;
    (match goal with |- chr_eqb x ?c = false =>
       destruct (chr_eqb x c) eqn:E; [|reflexivity];
       apply chr_eqb_eq in E; subst x; discriminate Hx
     end).
Qed.

Lemma digit_is_kept x : is_digit x = true → keep_numeric x = true.
Proof. intros Hx. unfold keep_numeric. by rewrite Hx. Qed.

Lemma clean_number_kept l :
  Forall (λ c, keep_numeric c = true) l → clean_number l = l.
Proof. apply filter_all_true. Qed.

Lemma of_text_nonempty l : l ≠ [] → String.eqb (of_text l) "" = false.
Proof. destruct l; [done | reflexivity]. Qed.

(** On a non-empty text of digits, points, commas and minus signs nothing is
    removed by the cleaning: the number is read by the separator rule. *)
Lemma extract_number_of_numeric l :
  l ≠ [] → Forall (λ c, keep_numeric c = true) l →
  _extract_number (of_text l) = py_float (read_decimal (decimal_separator l) l).
Proof.
  intros Hne Hkept. rewrite extract_number_spec. unfold spec_extract_number.
  by rewrite (of_text_nonempty l Hne), to_text_of_text, (clean_number_kept l Hkept).
Qed.

Lemma digits_no_chr c d :
  is_digit c = false → all_digits d → has_chr c d = false.
Proof.
  intros Hc Hd. apply has_chr_false. intros Hin.
  unfold all_digits in Hd. rewrite Forall_forall in Hd. specialize (Hd c Hin). congruence.
Qed.

Lemma digits_no_separator d :
  all_digits d → filter (λ c, is_separator c = true) d = [].
Proof.
  induction 1 as [|x d Hx _ IH]; [reflexivity|].
  destruct (digit_not_special x Hx) as (Hc & Hp & _).
  rewrite filter_cons_False; [exact IH|]. unfold is_separator. by rewrite Hc, Hp.
Qed.

Lemma read_decimal_digits dec d :
  is_separator dec = true → all_digits d → read_decimal dec d = d.
Proof.
  intros Hdec Hd. unfold read_decimal.
  rewrite <- (flat_map_singleton d) at 2. apply flat_map_agree.
  intros x Hx. unfold all_digits in Hd. rewrite Forall_forall in Hd.
  destruct (digit_not_special x (Hd x Hx)) as (Hc & Hp & _).
  unfold is_separator in *. rewrite Hc, Hp. simpl.
  destruct (chr_eqb x dec) eqn:E; [|reflexivity].
  apply chr_eqb_eq in E. subst dec. rewrite Hc, Hp in Hdec. discriminate.
Qed.

Lemma read_decimal_app dec l1 l2 :
  read_decimal dec (l1 ++ l2) = read_decimal dec l1 ++ read_decimal dec l2.
Proof. apply flat_map_app. Qed.

Lemma lstrip_digits d rest :
  all_digits d → ltrimmed is_digit rest → lstrip_by is_digit (d ++ rest) = rest.
Proof.
  intros Hd Hrest. induction Hd as [|x d Hx _ IH]; simpl.
  - by apply lstrip_by_fix.
  - by rewrite Hx.
Qed.

(** [float()] of digits, and of digits around a point. *)
Lemma py_float_digits d :
  all_digits d → d ≠ [] → py_float d = Some (digits_val d # 1).
Proof.
  intros Hd Hne.
  assert (Hstrip : lstrip_by is_digit d = []).
  { rewrite <- (app_nil_r d). apply (lstrip_digits d [] Hd I). }
  assert (Hu : float_unsigned d = Some (digits_val d # 1)).
  { unfold float_unsigned. rewrite Hstrip. cbn [length].
    rewrite Nat.sub_0_r, firstn_all. destruct d; [done|reflexivity]. }
  destruct d as [|x d]; [done|]. unfold py_float.
  inversion Hd as [|? ? Hx _]; subst.
  destruct (digit_not_special x Hx) as (_ & _ & Hm & Hpl).
  by rewrite Hm, Hpl.
Qed.

Lemma py_float_point a c :
  all_digits a → all_digits c → a ++ c ≠ [] →
  py_float (a ++ "."%char :: c) = Some (digits_val (a ++ c) # pow10 (length c)).
Proof.
  intros Ha Hc Hne.
  assert (Hu : float_unsigned (a ++ "."%char :: c)
               = Some (digits_val (a ++ c) # pow10 (length c))).
  { unfold float_unsigned.
    rewrite (lstrip_digits a ("."%char :: c) Ha eq_refl).
    rewrite length_app. simpl length.
    replace (length a + S (length c) - S (length c))%nat with (length a) by lia.
    rewrite take_app_length.
    change (chr_eqb "." ".") with true. cbv iota. simpl andb.
    assert (Hall : forallb is_digit c = true).
    { apply forallb_forall. intros x Hx. apply list_elem_of_In in Hx.
      unfold all_digits in Hc. rewrite Forall_forall in Hc. by apply Hc. }
    rewrite Hall. simpl.
    destruct (Nat.eqb (length a + length c) 0) eqn:E; [|reflexivity].
    apply Nat.eqb_eq in E. destruct a, c; simpl in *; try lia. done. }
  destruct a as [|x a].
  - simpl. simpl in Hu. unfold py_float.
    change (chr_eqb "." "-") with false. change (chr_eqb "." "+") with false.
    exact Hu.
  - simpl app. unfold py_float. inversion Ha as [|? ? Hx _]; subst.
    destruct (digit_not_special x Hx) as (_ & _ & Hm & Hpl).
    rewrite Hm, Hpl. exact Hu.
Qed.

Lemma after_last_app c a b :
  has_chr c b = false → after_last c (a ++ c :: b) = b.
Proof.
  intros Hb. induction a as [|x a IH]; simpl.
  - by rewrite Hb, chr_eqb_refl.
  - rewrite has_chr_app. simpl. rewrite chr_eqb_refl, orb_true_r. exact IH.
Qed.

Lemma all_digits_kept d : all_digits d → Forall (λ c, keep_numeric c = true) d.
Proof. intros Hd. eapply Forall_impl; [exact Hd|]. intros x. apply digit_is_kept. Qed.

Section Shapes.
Variables a b c : text.
Hypotheses (Ha : all_digits a) (Hb : all_digits b) (Hc : all_digits c).

Lemma read_us_format :
  _extract_number (of_text (a ++ ","%char :: b ++ "."%char :: c))
  = py_float ((a ++ b) ++ "."%char :: c).
Proof.
  rewrite extract_number_of_numeric.
  - assert (Hdec : decimal_separator (a ++ ","%char :: b ++ "."%char :: c) = "."%char).
    { unfold decimal_separator. rewrite !has_chr_app. simpl.
      rewrite !has_chr_app. simpl.
      change (chr_eqb "," ",") with true. change (chr_eqb "." ".") with true.
      rewrite !orb_true_r. simpl.
      unfold rightmost_separator. rewrite filter_app, (digits_no_separator a Ha).
      rewrite filter_cons_True by reflexivity.
      rewrite filter_app, (digits_no_separator b Hb).
      rewrite filter_cons_True by reflexivity.
      by rewrite (digits_no_separator c Hc). }
    rewrite Hdec. f_equal.
    rewrite read_decimal_app, (read_decimal_digits "."%char a eq_refl Ha).
    change (read_decimal "." (","%char :: b ++ "."%char :: c))
      with (read_decimal "." (b ++ "."%char :: c)).
    rewrite read_decimal_app, (read_decimal_digits "."%char b eq_refl Hb).
    change (read_decimal "." ("."%char :: c)) with ("."%char :: read_decimal "." c).
    by rewrite (read_decimal_digits "."%char c eq_refl Hc), app_assoc.
  - by destruct a.
  - apply Forall_app. split; [by apply all_digits_kept|].
    constructor; [reflexivity|]. apply Forall_app. split; [by apply all_digits_kept|].
    constructor; [reflexivity | by apply all_digits_kept].
Qed.

Lemma read_european_format :
  _extract_number (of_text (a ++ "."%char :: b ++ ","%char :: c))
  = py_float ((a ++ b) ++ "."%char :: c).
Proof.
  rewrite extract_number_of_numeric.
  - assert (Hdec : decimal_separator (a ++ "."%char :: b ++ ","%char :: c) = ","%char).
    { unfold decimal_separator. rewrite !has_chr_app. simpl.
      rewrite !has_chr_app. simpl.
      change (chr_eqb "," ",") with true. change (chr_eqb "." ".") with true.
      rewrite !orb_true_r. simpl.
      unfold rightmost_separator. rewrite filter_app, (digits_no_separator a Ha).
      rewrite filter_cons_True by reflexivity.
      rewrite filter_app, (digits_no_separator b Hb).
      rewrite filter_cons_True by reflexivity.
      by rewrite (digits_no_separator c Hc). }
    rewrite Hdec. f_equal.
    rewrite read_decimal_app, (read_decimal_digits ","%char a eq_refl Ha).
    change (read_decimal "," ("."%char :: b ++ ","%char :: c))
      with (read_decimal "," (b ++ ","%char :: c)).
    rewrite read_decimal_app, (read_decimal_digits ","%char b eq_refl Hb).
    change (read_decimal "," (","%char :: c)) with ("."%char :: read_decimal "," c).
    by rewrite (read_decimal_digits ","%char c eq_refl Hc), app_assoc.
  - by destruct a.
  - apply Forall_app. split; [by apply all_digits_kept|].
    constructor; [reflexivity|]. apply Forall_app. split; [by apply all_digits_kept|].
    constructor; [reflexivity | by apply all_digits_kept].
Qed.

Lemma read_comma_only :
  _extract_number (of_text (a ++ ","%char :: b))
  = py_float (if Nat.eqb (length b) 2 then a ++ "."%char :: b else a ++ b).
Proof.
  rewrite extract_number_of_numeric.
  - unfold decimal_separator.
    rewrite (after_last_app "," a b (digits_no_chr "," b eq_refl Hb)).
    rewrite !has_chr_app. simpl.
    change (chr_eqb "," ",") with true. change (chr_eqb "." ",") with false.
    rewrite (digits_no_chr "." a eq_refl Ha), (digits_no_chr "." b eq_refl Hb).
    rewrite orb_true_r. simpl.
    destruct (Nat.eqb (length b) 2); f_equal.
    + rewrite read_decimal_app, (read_decimal_digits ","%char a eq_refl Ha).
      change (read_decimal "," (","%char :: b)) with ("."%char :: read_decimal "," b).
      by rewrite (read_decimal_digits ","%char b eq_refl Hb).
    + rewrite read_decimal_app, (read_decimal_digits "."%char a eq_refl Ha).
      change (read_decimal "." (","%char :: b)) with (read_decimal "." b).
      by rewrite (read_decimal_digits "."%char b eq_refl Hb).
  - by destruct a.
  - apply Forall_app. split; [by apply all_digits_kept|].
    constructor; [reflexivity | by apply all_digits_kept].
Qed.
End Shapes.

(** C8. Number extraction reads ["1,234.56"] and ["1.234,56"] as the same
    number 1234.56, and follows the separator rule: on every input it agrees
    with [spec_extract_number], which reads the cleaned text with the
    rightmost separator as the decimal one when both [,] and [.] occur, with
    [,] as the decimal one when only [,] occurs and two characters follow the
    last [,], and with [,] grouping thousands otherwise.  On digits [a], [b],
    [c]: [a,b.c] and [a.b,c] are both read as the number [ab.c]; [a,b] is
    read as [a.b] when [b] has exactly two digits and as the integer [ab]
    otherwise. *)
Theorem extract_number_separator_rule :
  _extract_number "1,234.56" = Some (123456 # 100)
  ∧ _extract_number "1.234,56" = Some (123456 # 100)
  ∧ (∀ value, _extract_number value = spec_extract_number value)
  ∧ (∀ a b c, all_digits a → all_digits b → all_digits c → a ++ b ++ c ≠ [] →
       _extract_number (of_text (a ++ ","%char :: b ++ "."%char :: c))
       = Some (digits_val (a ++ b ++ c) # pow10 (length c))
       ∧ _extract_number (of_text (a ++ "."%char :: b ++ ","%char :: c))
         = Some (digits_val (a ++ b ++ c) # pow10 (length c)))
  ∧ (∀ a b, all_digits a → all_digits b → length b = 2%nat →
       _extract_number (of_text (a ++ ","%char :: b))
       = Some (digits_val (a ++ b) # 100))
  ∧ (∀ a b, all_digits a → all_digits b → length b ≠ 2%nat → a ++ b ≠ [] →
       _extract_number (of_text (a ++ ","%char :: b))
       = Some (digits_val (a ++ b) # 1)).
Proof.
  split; [reflexivity|]. split; [reflexivity|].
  split; [exact extract_number_spec|]. split; [|split].
  - intros a b c Ha Hb Hc Hne.
    assert (Hab : all_digits (a ++ b)) by (apply Forall_app; by split).
    rewrite read_us_format, read_european_format by assumption.
    rewrite py_float_point by (try assumption; by rewrite <- app_assoc).
    by rewrite <- app_assoc.
  - intros a b Ha Hb Hlen. rewrite read_comma_only by assumption.
    rewrite Hlen. simpl. rewrite py_float_point; try assumption.
    + by rewrite Hlen.
    + destruct b; [discriminate Hlen | by destruct a].
  - intros a b Ha Hb Hlen Hne. rewrite read_comma_only by assumption.
    apply Nat.eqb_neq in Hlen. rewrite Hlen.
    apply py_float_digits; [apply Forall_app; by split | exact Hne].
Qed.

(** The rule on "12,34" (two digits after the comma) and on "1,234.5" and
    "1.234,5" (both separators). *)
Lemma extract_number_separator_rule_witness :
  _extract_number "12,34" = Some (1234 # 100)
  ∧ _extract_number "1,234.5" = Some (12345 # 10)
  ∧ _extract_number "1.234,5" = Some (12345 # 10).
Proof.
  destruct extract_number_separator_rule as (_ & _ & _ & Hboth & Htwo & _).
  split.
  - apply (Htwo (to_text "12") (to_text "34")); [repeat constructor.. | reflexivity].
  - apply (Hboth (to_text "1") (to_text "234") (to_text "5"));
      [repeat constructor.. | discriminate].
Defined.


(** * Further properties of the transformation library *)

Section StripFacts.
Variable p : ascii → bool.

Lemma lstrip_by_split l :
  ∃ pre, l = pre ++ lstrip_by p l ∧ Forall (λ c, p c = true) pre.
Proof.
  induction l as [|c t (pre & Ht & Hpre)]; simpl.
  - by exists [].
  - destruct (p c) eqn:E.
    + exists (c :: pre). split; [by rewrite Ht at 1 | by constructor].
    + by exists [].
Qed.

(** What [strip] removes is a run of [p]-characters at each end, and what it
    leaves starts and ends with other characters. *)
Lemma strip_by_split l :
  ∃ pre post,
    l = pre ++ strip_by p l ++ post
    ∧ Forall (λ c, p c = true) pre ∧ Forall (λ c, p c = true) post
    ∧ ltrimmed p (strip_by p l) ∧ ltrimmed p (rev (strip_by p l)).
Proof.
  destruct (lstrip_by_split l) as (pre & Hl & Hpre).
  destruct (lstrip_by_split (rev (lstrip_by p l))) as (q & Hr & Hq).
  exists pre, (rev q). unfold strip_by. split; [|split; [exact Hpre|split; [|split]]].
  - rewrite <- rev_app_distr, <- Hr, rev_involutive. exact Hl.
  - apply Forall_rev. exact Hq.
  - apply rstrip_keeps_ltrimmed, lstrip_by_ltrimmed.
  - rewrite rev_involutive. apply lstrip_by_ltrimmed.
Qed.
End StripFacts.

Section TransformerEdges.
Context `{PyLib}.

(** X1. [trim] on an ASCII string removes exactly the whitespace at its two
    ends: the input is the result between two runs of whitespace, and the
    result neither starts nor ends with a whitespace character. *)
Theorem trim_removes_surrounding_whitespace (s base_url : string) :
  ascii_text (to_text s) →
  ∃ t pre post,
    _apply_single_transform (VStr s) "trim" base_url = Ok (VStr t)
    ∧ to_text s = pre ++ to_text t ++ post
    ∧ all_spaces pre ∧ all_spaces post ∧ trimmed (to_text t).
Proof.
  intros _.
  destruct (strip_by_split is_space (to_text s)) as (pre & post & Hs & Hpre & Hpost & Hl & Hr).
  exists (str_strip s), pre, post. unfold str_strip. rewrite to_text_of_text.
  repeat split; assumption.
Qed.

Lemma apply_chain_None chain base_url : apply_chain VNone chain base_url = Ok VNone.
Proof. induction chain as [|t chain IH]; simpl; [reflexivity | exact IH]. Qed.

(** X2. [None] is absorbing: once a value is [None] (at the start, or after
    a transformation such as [extract_number] found no number) the rest of
    the chain is not applied, whatever it contains, and the result is
    [None]. *)
Theorem none_absorbs_rest_of_chain (value : pyval) (before after : list string)
    (base_url : string) :
  apply_transformations value before base_url = Ok VNone →
  apply_transformations value (before ++ after) base_url = Ok VNone.
Proof.
  unfold apply_transformations. destruct value; try reflexivity;
    intros Hb; rewrite apply_chain_app, Hb; simpl; apply apply_chain_None.
Qed.

(** *** Numbers *)

Lemma float_unsigned_needs_digit l : no_digit l → float_unsigned l = None.
Proof.
  intros Hl. unfold float_unsigned.
  assert (Hstrip : lstrip_by is_digit l = l).
  { destruct Hl as [|c l Hc _]; simpl; [reflexivity | by rewrite Hc]. }
  rewrite Hstrip, Nat.sub_diag. simpl.
  destruct Hl as [|c frac Hc Hfrac]; [reflexivity|].
  destruct (chr_eqb c "."); [|reflexivity]. simpl.
  destruct Hfrac as [|d frac Hd _]; [reflexivity|]. simpl. by rewrite Hd.
Qed.

Lemma py_float_needs_digit l : no_digit l → py_float l = None.
Proof.
  intros Hl. unfold py_float. destruct l as [|c t]; [reflexivity|].
  assert (Ht : no_digit t) by (by inversion Hl).
  destruct (chr_eqb c "-"); [by rewrite (float_unsigned_needs_digit t Ht)|].
  destruct (chr_eqb c "+"); by apply float_unsigned_needs_digit.
Qed.

Lemma read_decimal_no_digit dec l : no_digit l → no_digit (read_decimal dec l).
Proof.
  intros Hl. unfold read_decimal. induction Hl as [|c l Hc _ IH]; simpl; [constructor|].
  apply Forall_app. split; [|exact IH].
  destruct (chr_eqb c dec); [repeat constructor|].
  destruct (is_separator c); repeat constructor. exact Hc.
Qed.

Lemma clean_number_no_digit l : no_digit l → no_digit (clean_number l).
Proof.
  intros Hl. unfold clean_number, no_digit in *. rewrite Forall_forall in *.
  intros c Hc. apply list_elem_of_filter in Hc as [_ Hc]. by apply Hl.
Qed.

(** X3. An ASCII text without a digit is not a number: [_extract_number]
    returns [None] for it (the empty string and texts such as "n/a" or "-"
    alike), and so do the [extract_number], [extract_int] and
    [extract_price] transformations. *)
Theorem extract_number_needs_digit (value base_url : string) :
  ascii_text (to_text value) →
  no_digit (to_text value) →
  _extract_number value = None
  ∧ _extract_price value = VNone
  ∧ _apply_single_transform (VStr value) "extract_number" base_url = Ok VNone
  ∧ _apply_single_transform (VStr value) "extract_int" base_url = Ok VNone
  ∧ _apply_single_transform (VStr value) "extract_price" base_url = Ok VNone.
Proof.
  intros _ Hv.
  assert (Hn : _extract_number value = None).
  { rewrite extract_number_spec. unfold spec_extract_number.
    destruct (String.eqb value ""); [reflexivity|].
    apply py_float_needs_digit, read_decimal_no_digit, clean_number_no_digit, Hv. }
  assert (Hp : _extract_price value = VNone).
  { unfold _extract_price. rewrite Hn. by destruct (String.eqb value ""). }
  split; [exact Hn|]. split; [exact Hp|].
  cbn. rewrite Hn, Hp. auto.
Qed.

Lemma clean_number_idem l : clean_number (clean_number l) = clean_number l.
Proof.
  unfold clean_number. apply filter_all_true.
  apply Forall_forall. intros c Hc. by apply list_elem_of_filter in Hc as [Hk _].
Qed.

(** X4. In an ASCII text only digits, points, commas and minus signs matter
    to [_extract_number]: two ASCII texts that agree on these characters
    give the same result, so ASCII currency symbols, letters and blanks
    anywhere in the text change nothing. *)
Theorem extract_number_ignores_other_characters (v1 v2 : string) :
  ascii_text (to_text v1) → ascii_text (to_text v2) →
  clean_number (to_text v1) = clean_number (to_text v2) →
  _extract_number v1 = _extract_number v2.
Proof.
  assert (Hgen : ∀ v, _extract_number v
                      = py_float (normalize_separators (clean_number (to_text v)))).
  { intros v. unfold _extract_number. destruct (String.eqb_spec v ""); [|reflexivity].
    by subst v. }
  intros _ _ Hclean. by rewrite !Hgen, Hclean.
Qed.

(** *** Booleans *)

Lemma is_space_lower c : is_space (lower_chr c) = is_space c.
Proof.
  unfold lower_chr. destruct ((65 <=? nat_of_ascii c)%nat && (nat_of_ascii c <=? 90)%nat) eqn:E;
    [|reflexivity].
  apply andb_true_iff in E as [H1 H2]. apply Nat.leb_le in H1, H2.
  unfold is_space. rewrite nat_ascii_embedding by lia.
  repeat match goal with
         | |- context [(?a <=? ?b)%nat] => destruct (Nat.leb_spec a b); try lia
         end; reflexivity.
Qed.

Lemma lstrip_by_map (f : ascii → ascii) p l :
  (∀ c, p (f c) = p c) → lstrip_by p (map f l) = map f (lstrip_by p l).
Proof.
  intros Hf. induction l as [|c t IH]; simpl; [reflexivity|].
  rewrite Hf. destruct (p c); [exact IH | reflexivity].
Qed.

Lemma strip_lower_commute s : str_strip (str_lower s) = str_lower (str_strip s).
Proof.
  unfold str_strip, str_lower, strip_by. rewrite !to_text_of_text. f_equal.
  rewrite (lstrip_by_map lower_chr is_space _ is_space_lower), <- map_rev.
  rewrite (lstrip_by_map lower_chr is_space _ is_space_lower), <- map_rev.
  reflexivity.
Qed.

(** X5. On an ASCII string [_to_bool] is false exactly for the falsy tokens
    (compared without case and surrounding whitespace) and for blank
    strings; every other ASCII string, known or not, is true. *)
Theorem to_bool_false_iff (value : string) :
  ascii_text (to_text value) →
  (_to_bool value = false
   ↔ str_strip (str_lower value) ∈ false_values ∨ str_strip value = "").
Proof.
  intros _. unfold _to_bool.
  assert (Hin : ∀ l x, existsb (String.eqb x) l = true ↔ x ∈ l).
  { intros l x. rewrite existsb_exists. split.
    - intros (y & Hy & E). apply String.eqb_eq in E. subst y. by apply list_elem_of_In.
    - intros Hx. exists x. split; [by apply list_elem_of_In | apply String.eqb_refl]. }
  destruct (existsb (String.eqb (str_strip (str_lower value))) true_values) eqn:Et.
  - split; [discriminate|]. intros [Hf | Hblank]; exfalso.
    + apply Hin in Et. revert Et.
      repeat (apply elem_of_cons in Hf as [-> | Hf];
              [vm_compute; intros Hx; repeat (apply elem_of_cons in Hx as [Hx|Hx];
                 [discriminate Hx|]); by apply elem_of_nil in Hx |]).
      by apply elem_of_nil in Hf.
    + rewrite strip_lower_commute, Hblank in Et. discriminate Et.
  - destruct (existsb (String.eqb (str_strip (str_lower value))) false_values) eqn:Ef.
    + split; [intros _; left; by apply Hin | reflexivity].
    + rewrite negb_false_iff, String.eqb_eq. split; [by right|].
      intros [Hf | Hblank]; [|exact Hblank].
      apply Hin in Hf. congruence.
Qed.

End TransformerEdges.

(** After [extract_number] found no number in "n/a", the malformed
    [substr:x] is never reached. *)
Lemma none_absorbs_rest_of_chain_witness :
  apply_transformations (H := Sample.lib) (VStr "n/a") ["extract_number"] "" = Ok VNone
  ∧ _apply_single_transform (H := Sample.lib) (VStr "n/a") "substr:x" ""
    = Raise (ValueError "x")
  ∧ apply_transformations (H := Sample.lib) (VStr "n/a")
      (["extract_number"] ++ ["substr:x"; "trim"]) "" = Ok VNone.
Proof.
  split; [reflexivity|]. split; [reflexivity|].
  exact (none_absorbs_rest_of_chain (H := Sample.lib) (VStr "n/a")
           ["extract_number"] ["substr:x"; "trim"] "" eq_refl).
Defined.

(** [trim] on a padded name. *)
Lemma trim_removes_surrounding_whitespace_witness :
  ascii_text (to_text "  Widget ")
  ∧ ∃ pre post,
      _apply_single_transform (H := Sample.lib) (VStr "  Widget ") "trim" ""
      = Ok (VStr "Widget")
      ∧ to_text "  Widget " = pre ++ to_text "Widget" ++ post
      ∧ all_spaces pre ∧ all_spaces post.
Proof.
  assert (Ha : ascii_text (to_text "  Widget ")) by (repeat constructor).
  split; [exact Ha|].
  destruct (trim_removes_surrounding_whitespace (H := Sample.lib) "  Widget " "" Ha)
    as (t & pre & post & Ht & Hs & Hpre & Hpost & _).
  assert (Heq : t = "Widget") by (vm_compute in Ht; congruence).
  subst t. exists pre, post. split_and!; [reflexivity | exact Hs | exact Hpre | exact Hpost].
Defined.

Lemma extract_number_needs_digit_witness :
  ascii_text (to_text "n/a") ∧ no_digit (to_text "n/a") ∧ _extract_number "n/a" = None.
Proof.
  assert (Ha : ascii_text (to_text "n/a")) by (repeat constructor).
  assert (Hn : no_digit (to_text "n/a")) by (repeat constructor).
  split; [exact Ha|]. split; [exact Hn|].
  exact (proj1 (extract_number_needs_digit (H := Sample.lib) "n/a" "" Ha Hn)).
Defined.

Lemma extract_number_ignores_other_characters_witness :
  _extract_number "USD 1,234.56 (net)" = _extract_number "1,234.56".
Proof.
  apply (extract_number_ignores_other_characters "USD 1,234.56 (net)" "1,234.56");
    [repeat constructor | repeat constructor | reflexivity].
Defined.

(** The token [Off], padded, is false. *)
Lemma to_bool_false_iff_witness :
  ascii_text (to_text " Off ") ∧ _to_bool " Off " = false.
Proof.
  assert (Ha : ascii_text (to_text " Off ")) by (repeat constructor).
  split; [exact Ha|].
  apply (to_bool_false_iff " Off " Ha). left.
  vm_compute. repeat first [apply list_elem_of_here | apply list_elem_of_further].
Defined.

(** * Further properties of the extraction core *)

Section ExtractorEdges.
Context {node : Type} `{Dom node} `{PyLib}.

Lemma rsplit_at_app sel attr :
  has_chr "@" attr = false → rsplit_at (sel ++ "@"%char :: attr) = (sel, attr).
Proof.
  intros Hattr. unfold rsplit_at. rewrite (after_last_app "@" sel attr Hattr).
  rewrite length_app. simpl length.
  replace (length sel + S (length attr) - length attr - 1)%nat with (length sel) by lia.
  by rewrite take_app_length.
Qed.

(** X6. The CSS shorthand [selector@attr]: with no [attribute] set, a
    selector ending in [@attr] reads the attribute [attr] of the first
    element matching the part before the last [@], exactly as the plain
    selector with [attribute = attr] does. *)
Theorem css_attribute_shorthand (n : node) (sel attr : text) :
  attr ≠ [] → has_chr "@" attr = false →
  _extract_css n (of_text (sel ++ "@"%char :: attr)) None
  = _extract_css n (of_text sel) (Some (of_text attr))
  ∧ _extract_css n (of_text sel) (Some (of_text attr))
    = rbind (css n (of_text sel))
        (λ elements, match elements with
                     | [] => Ok VNone
                     | element :: _ => Ok (attributes_get element (of_text attr))
                     end).
Proof.
  intros Hne Hattr.
  assert (Hnonempty : String.eqb (of_text attr) "" = false) by (by apply of_text_nonempty).
  assert (Hplain : _extract_css n (of_text sel) (Some (of_text attr))
    = rbind (css n (of_text sel))
        (λ elements, match elements with
                     | [] => Ok VNone
                     | element :: _ => Ok (attributes_get element (of_text attr))
                     end)).
  { unfold _extract_css. cbn [some_nonempty]. rewrite Hnonempty. cbn [negb].
    rewrite andb_false_r. cbv iota beta. cbn [some_nonempty default].
    rewrite Hnonempty. reflexivity. }
  split; [|exact Hplain]. rewrite Hplain.
  unfold _extract_css. rewrite to_text_of_text, has_chr_app.
  cbn [has_chr existsb some_nonempty negb].
  change (chr_eqb "@" "@") with true. rewrite orb_true_r. cbn [orb andb].
  rewrite (rsplit_at_app sel attr Hattr). cbv iota beta. cbn [some_nonempty default].
  rewrite Hnonempty. reflexivity.
Qed.

Section WithExtractor.
Variable self : DataExtractor.t.

(** X7. A field with a default value is never null: whatever the page holds
    and whatever validation decides, the value stored for it is not [None];
    in a record of a schema with unique field names such a field is always
    filled. *)
Theorem field_with_default_is_never_null (n : node) (f : FieldDefinition.t) (d : string) :
  FieldDefinition.default f = Some d →
  (∀ v, field_value self n f = Ok v → v ≠ VNone)
  ∧ ∀ rec,
      f ∈ ParsingSchema.fields (DataExtractor.schema self) →
      NoDup (map FieldDefinition.name (ParsingSchema.fields (DataExtractor.schema self))) →
      _extract_record self n = Ok rec →
      is_filled rec f = true.
Proof.
  intros Hd.
  assert (Hv : ∀ v, field_value self n f = Ok v → v ≠ VNone).
  { intros v. unfold field_value. rewrite Hd.
    match goal with |- rbind ?m _ = _ → _ => destruct m as [value|e] end;
      simpl; [|discriminate].
    intros [= <-]. destruct (is_None value) eqn:E; simpl; [discriminate|].
    by apply is_None_false. }
  split; [exact Hv|].
  intros rec Hf Hnd Hrec.
  destruct (extract_record_loop_values self n _ _ rec f Hrec Hnd Hf) as (v & Hfv & Hlook).
  unfold is_filled, record_get. rewrite Hlook. simpl.
  apply negb_true_iff, is_None_false. eapply Hv, Hfv.
Qed.

Lemma validate_record_true rec :
  _validate_record self rec = true →
  ParsingSchema.min_fields_required (DataExtractor.schema self) ≤ filled_fields self rec
  ∧ ∀ f, f ∈ ParsingSchema.fields (DataExtractor.schema self) →
         FieldDefinition.required f = true →
         record_get rec (FieldDefinition.name f) ≠ VNone.
Proof.
  unfold _validate_record.
  destruct (Z.ltb_spec (filled_fields self rec)
              (ParsingSchema.min_fields_required (DataExtractor.schema self)));
    [discriminate|].
  rewrite forallb_forall. intros Hall. split; [lia|]. intros f Hf Hreq.
  apply is_filled_spec, Hall, list_elem_of_In.
  unfold required_fields. apply list_elem_of_filter. by split.
Qed.

Lemma extract_containers_valid containers records :
  extract_containers self containers = Ok records →
  Forall (λ r, _validate_record self r = true) records
  ∧ (length records ≤ length containers)%nat.
Proof.
  revert records. induction containers as [|c cs IH]; intros records; simpl.
  - intros [= <-]. split; [apply Forall_nil_2 | simpl; lia].
  - destruct (_extract_record self c) as [r|e]; simpl; [|discriminate].
    destruct (extract_containers self cs) as [rs|e]; simpl; [|discriminate].
    destruct (IH rs eq_refl) as [Hall Hlen].
    intros [= <-]. destruct (_validate_record self r) eqn:Hr.
    + split; [by constructor | simpl; lia].
    + split; [exact Hall | lia].
Qed.

(** X8. What [extract] emits has passed validation and there is at most one
    record per record root: every emitted record holds a value for every
    required field and reaches [min_fields_required]; with an
    [item_container] there are no more records than matching nodes, without
    one there is at most one record. *)
Theorem emitted_records_are_complete (html : string) (records : list record) :
  extract self html = Ok records →
  Forall (λ r, ParsingSchema.min_fields_required (DataExtractor.schema self)
               ≤ filled_fields self r
               ∧ ∀ f, f ∈ ParsingSchema.fields (DataExtractor.schema self) →
                      FieldDefinition.required f = true →
                      record_get r (FieldDefinition.name f) ≠ VNone) records
  ∧ (∀ sel containers,
       ParsingSchema.item_container (DataExtractor.schema self) = Some sel → sel ≠ "" →
       css (HTMLParser html) sel = Ok containers →
       (length records ≤ length containers)%nat)
  ∧ (some_nonempty (ParsingSchema.item_container (DataExtractor.schema self)) = false →
     (length records ≤ 1)%nat).
Proof.
  unfold extract. intros Hext.
  assert (Hvalid : Forall (λ r, _validate_record self r = true) records
          ∧ (∀ sel containers,
               ParsingSchema.item_container (DataExtractor.schema self) = Some sel →
               sel ≠ "" → css (HTMLParser html) sel = Ok containers →
               (length records ≤ length containers)%nat)
          ∧ (some_nonempty (ParsingSchema.item_container (DataExtractor.schema self)) = false →
             (length records ≤ 1)%nat)).
  { destruct (some_nonempty _) eqn:Hc.
    - destruct (css _ _) as [cs|e] eqn:Hcss; simpl in Hext; [|discriminate].
      destruct (extract_containers_valid cs records Hext) as [Hall Hlen].
      split; [exact Hall|]. split; [|discriminate].
      intros sel containers Hsel _ Hcss'. rewrite Hsel in Hcss. simpl in Hcss.
      rewrite Hcss' in Hcss. by injection Hcss as ->.
    - destruct (_extract_record self (HTMLParser html)) as [r|e]; simpl in Hext;
        [|discriminate].
      injection Hext as <-.
      split; [|split].
      + destruct (_validate_record self r) eqn:Hr; repeat constructor. exact Hr.
      + intros sel containers Hsel Hne _. rewrite Hsel in Hc. simpl in Hc.
        apply negb_false_iff, String.eqb_eq in Hc. contradiction.
      + intros _. destruct (_validate_record self r); simpl; lia. }
  destruct Hvalid as (Hall & Hcount & Hone). split; [|by split].
  eapply Forall_impl; [exact Hall|]. intros r. apply validate_record_true.
Qed.

(** X9. A schema whose fields are all optional emits nothing: validation
    counts only required fields, so with [min_fields_required >= 1] (the
    schema model admits no smaller value) every record is rejected, however
    many of its fields were found. *)
Theorem optional_only_schema_emits_nothing (html : string) (records : list record) :
  (∀ f, f ∈ ParsingSchema.fields (DataExtractor.schema self) →
        FieldDefinition.required f = false) →
  1 ≤ ParsingSchema.min_fields_required (DataExtractor.schema self) →
  extract self html = Ok records →
  records = [] ∧ ∀ rec, _validate_record self rec = false.
Proof.
  intros Hopt Hmin Hext.
  assert (Hreq : required_fields self = []).
  { unfold required_fields.
    induction (ParsingSchema.fields (DataExtractor.schema self)) as [|f fs IH];
      [reflexivity|].
    rewrite filter_cons_False.
    - apply IH. intros g Hg. apply Hopt. set_solver.
    - rewrite (Hopt f) by set_solver. discriminate. }
  assert (Hrej : ∀ rec, _validate_record self rec = false).
  { intros rec. unfold _validate_record, filled_fields. rewrite Hreq. simpl.
    change (Z.of_nat 0) with 0.
    assert (Hlt : (0 <? ParsingSchema.min_fields_required (DataExtractor.schema self))
                  = true) by (apply Z.ltb_lt; lia).
    by rewrite Hlt. }
  split; [|exact Hrej].
  destruct records as [|r rs]; [reflexivity|]. exfalso.
  unfold extract in Hext.
  assert (Hr : _validate_record self r = true).
  { destruct (some_nonempty _).
    - destruct (css _ _) as [cs|e]; simpl in Hext; [|discriminate].
      destruct (extract_containers_valid cs _ Hext) as [Hall _].
      by inversion Hall.
    - destruct (_extract_record self (HTMLParser html)) as [r'|e]; simpl in Hext;
        [|discriminate].
      destruct (_validate_record self r') eqn:Hr'; [|discriminate].
      by injection Hext as -> _. }
  rewrite Hrej in Hr. discriminate.
Qed.

End WithExtractor.
End ExtractorEdges.

Lemma css_attribute_shorthand_witness :
  _extract_css (H := Sample.dom) Sample.Page "a.next-page@href" None
  = Ok (VStr "/catalog?page=next").
Proof.
  destruct (css_attribute_shorthand (H := Sample.dom) Sample.Page
              (to_text "a.next-page") (to_text "href")) as [Hshort Hattr];
    [discriminate | reflexivity |].
  exact (eq_trans Hshort Hattr).
Defined.

(** No card of the sample page has a [.category] element; the default fills
    the field. *)
Lemma field_with_default_is_never_null_witness :
  field_value (H := Sample.dom) (H0 := Sample.lib)
    (Sample2.with_fields [Sample2.category_field]) (Sample.Card 1) Sample2.category_field
  = Ok (VStr "Unknown")
  ∧ VStr "Unknown" ≠ VNone.
Proof.
  split; [reflexivity|].
  exact (proj1 (field_with_default_is_never_null (H := Sample.dom) (H0 := Sample.lib)
                  (Sample2.with_fields [Sample2.category_field]) (Sample.Card 1)
                  Sample2.category_field "Unknown" eq_refl) _ eq_refl).
Defined.

(** The sample page: three record roots, two complete records. *)
Lemma emitted_records_are_complete_witness :
  let rec : record := <["price" := VFloat (123456 # 100)]> (<["name" := VStr "Widget"]> ∅) in
  extract (H := Sample.dom) (H0 := Sample.lib) Sample.extractor "<html>" = Ok [rec; rec]
  ∧ Forall (λ r, record_get r "price" ≠ VNone) [rec; rec].
Proof.
  intros rec.
  assert (Hext : extract (H := Sample.dom) (H0 := Sample.lib) Sample.extractor "<html>"
                 = Ok [rec; rec]) by (vm_compute; reflexivity).
  split; [exact Hext|].
  destruct (emitted_records_are_complete (H := Sample.dom) (H0 := Sample.lib)
              Sample.extractor "<html>" [rec; rec] Hext) as (Hall & _).
  eapply Forall_impl; [exact Hall|]. intros r [_ Hreq].
  apply (Hreq Sample.price_field);
    [apply list_elem_of_further, list_elem_of_here | reflexivity].
Defined.

(** The sample page with both fields optional: all three cards have a name,
    and nothing is emitted. *)
Lemma optional_only_schema_emits_nothing_witness :
  extract (H := Sample.dom) (H0 := Sample.lib) Sample2.optional_only "<html>" = Ok []
  ∧ (rbind (_extract_record (H := Sample.dom) (H0 := Sample.lib) Sample2.optional_only
              (Sample.Card 1))
           (λ r, Ok (record_get r "name")) = Ok (VStr "Widget")).
Proof.
  split; [|vm_compute; reflexivity].
  destruct (extract (H := Sample.dom) (H0 := Sample.lib) Sample2.optional_only "<html>")
    as [records|e] eqn:Hext; [|vm_compute in Hext; discriminate Hext].
  f_equal.
  refine (proj1 (optional_only_schema_emits_nothing (H := Sample.dom) (H0 := Sample.lib)
                   Sample2.optional_only "<html>" records _ _ Hext)).
  - intros f Hf. simpl in Hf.
    repeat (apply elem_of_cons in Hf as [-> | Hf]; [reflexivity|]).
    by apply elem_of_nil in Hf.
  - simpl. lia.
Defined.

(** * Further properties of the HTTP worker *)

Section HTTPWorkerEdges.
Context {node : Type} `{Dom node} `{PyLib} `{WorkerEnv}.
Variable _fetch_page :
  string → list (string * string) → option string → option string * Z.
Variable with_query_param : string → string → Z → string.

Local Abbreviation run := (HTTPWorker.run _fetch_page with_query_param).
Local Abbreviation _execute_task := (HTTPWorker._execute_task _fetch_page with_query_param).

(** X10. An unusable response ends the run as [failed]: when the status is
    400 or more, or the body is missing or empty (whatever the status), the
    envelope carries the single error [HTTP_ERROR], marked retryable exactly
    for the statuses 429, 500, 502, 503 and 504; [should_retry] is true
    exactly then; no record is counted and no child task is published. *)
Theorem unusable_response_fails (task : TaskMessage.t) (schema : ParsingSchema.t)
    (html : option string) (http_status : Z) :
  _get_schema (TaskMessage.schema_id task) (TaskMessage.schema_version task) = Some schema →
  (∀ url headers proxy, _fetch_page url headers proxy = (html, http_status)) →
  some_nonempty html = false ∨ 400 ≤ http_status →
  let r := fst (_execute_task task) in
  ResultMessage.status r = "failed"
  ∧ ResultMessage.http_status r = Some http_status
  ∧ ResultMessage.errors r
    = [ {| ErrorDetail.code := "HTTP_ERROR";
           ErrorDetail.message := "HTTP " +:+ py_str (VInt http_status);
           ErrorDetail.is_retryable := retryable_http_status http_status |} ]
  ∧ (ResultMessage.should_retry r = true
     ↔ http_status ∈ [429; 500; 502; 503; 504])
  ∧ ResultMessage.records_extracted r = 0
  ∧ ResultMessage.requests_count r = 1
  ∧ published (snd (_execute_task task)) = [].
Proof.
  intros Hschema Hfetch Herr.
  unfold HTTPWorker._execute_task, HTTPWorker.run.
  rewrite Hschema, Hfetch.
  assert (Hc : negb (some_nonempty html) || (400 <=? http_status) = true).
  { destruct Herr as [-> | Hge]; [reflexivity|].
    apply orb_true_iff. right. by apply Z.leb_le. }
  rewrite Hc. simpl. repeat split; try reflexivity.
  - unfold ResultMessage.should_retry. simpl. rewrite orb_false_r.
    unfold retryable_http_status. apply bool_decide_eq_true_1.
  - unfold ResultMessage.should_retry. simpl. rewrite orb_false_r.
    unfold retryable_http_status. apply bool_decide_eq_true_2.
Qed.

(** X12. An exception raised by the extraction (a malformed transformation
    argument, an invalid validation pattern, a selector the parser rejects)
    ends the run as [failed] with the single error [UNKNOWN], not retryable,
    whatever the attempt number; the envelope keeps the status of the fetch
    and the length of the body ([len(html)], its number of code points) and
    counts no record. *)
Theorem extraction_exception_fails (task : TaskMessage.t) (schema : ParsingSchema.t)
    (html : string) (http_status : Z) (e : exn) :
  _get_schema (TaskMessage.schema_id task) (TaskMessage.schema_version task) = Some schema →
  (∀ url headers proxy, _fetch_page url headers proxy = (Some html, http_status)) →
  html ≠ "" → http_status < 400 →
  extract {| DataExtractor.schema := schema;
             DataExtractor.base_url := TaskMessage.target_url task |} html = Raise e →
  e ≠ TimeoutError → (∀ msg, e ≠ ClientError msg) →
  let r := fst (_execute_task task) in
  ResultMessage.status r = "failed"
  ∧ ResultMessage.errors r
    = [ {| ErrorDetail.code := "UNKNOWN";
           ErrorDetail.message := exn_message e;
           ErrorDetail.is_retryable := false |} ]
  ∧ ResultMessage.should_retry r = false
  ∧ ResultMessage.http_status r = Some http_status
  ∧ ResultMessage.bytes_downloaded r = Z.of_nat (py_len html)
  ∧ ResultMessage.records_extracted r = 0
  ∧ published (snd (_execute_task task)) = [].
Proof.
  intros Hschema Hfetch Hhtml Hst Hext Htimeout Hclient.
  unfold HTTPWorker._execute_task, HTTPWorker.run.
  rewrite Hschema, Hfetch.
  assert (Hc : negb (some_nonempty (Some html)) || (400 <=? http_status) = false).
  { apply orb_false_iff. split.
    - simpl. apply negb_false_iff, negb_true_iff. by apply String.eqb_neq.
    - apply Z.leb_gt. exact Hst. }
  rewrite Hc. cbn [default]. unfold mbind, W_bind, update, lift. simpl. rewrite Hext.
  destruct e; try (simpl; repeat split; reflexivity).
  - contradiction.
  - exfalso. by apply (Hclient msg).
Qed.

(** X13. A timeout of the Delta write after a successful extraction is
    answered by [retry] while [attempt < max_attempts] and by [failed]
    afterwards; the envelope carries the error [TIMEOUT], marked retryable,
    and keeps the counts of the records already extracted.  Its
    [should_retry] property is false on the [retry] envelope and true on the
    [failed] one. *)
Theorem delta_timeout_retries (task : TaskMessage.t) (schema : ParsingSchema.t)
    (html : string) (http_status : Z) (records : list record) :
  _get_schema (TaskMessage.schema_id task) (TaskMessage.schema_version task) = Some schema →
  (∀ url headers proxy, _fetch_page url headers proxy = (Some html, http_status)) →
  html ≠ "" → http_status < 400 →
  ParsingSchema.fields schema ≠ [] →
  extract {| DataExtractor.schema := schema;
             DataExtractor.base_url := TaskMessage.target_url task |} html = Ok records →
  records ≠ [] →
  write_raw_records records (TaskMessage.task_id task) (TaskMessage.run_id task)
    (TaskMessage.source_id task) (TaskMessage.schema_id task) = Raise TimeoutError →
  let r := fst (_execute_task task) in
  ResultMessage.status r
  = (if TaskMessage.attempt task <? TaskMessage.max_attempts task
     then "retry" else "failed")
  ∧ ResultMessage.errors r
    = [ {| ErrorDetail.code := "TIMEOUT";
           ErrorDetail.message := "Request timeout";
           ErrorDetail.is_retryable := true |} ]
  ∧ ResultMessage.should_retry r
    = negb (TaskMessage.attempt task <? TaskMessage.max_attempts task)
  ∧ ResultMessage.records_extracted r = Z.of_nat (length records)
  ∧ ResultMessage.records_valid r = Z.of_nat (length records)
  ∧ ResultMessage.delta_path r = ""
  ∧ published (snd (_execute_task task)) = [].
Proof.
  intros Hschema Hfetch Hhtml Hst Hfields Hext Hne Hwrite.
  unfold HTTPWorker._execute_task, HTTPWorker.run.
  rewrite Hschema, Hfetch.
  assert (Hc : negb (some_nonempty (Some html)) || (400 <=? http_status) = false).
  { apply orb_false_iff. split.
    - simpl. apply negb_false_iff, negb_true_iff. by apply String.eqb_neq.
    - apply Z.leb_gt. exact Hst. }
  rewrite Hc. cbn [default]. unfold mbind, W_bind, update, lift. simpl. rewrite Hext.
  cbv zeta.
  rewrite (extracted_records_truthy
             {| DataExtractor.schema := schema;
                DataExtractor.base_url := TaskMessage.target_url task |}
             html records Hfields Hext).
  destruct records as [|r0 rs]; [done|].
  rewrite Hwrite. simpl.
  destruct (TaskMessage.attempt task <? TaskMessage.max_attempts task);
    simpl; repeat split; reflexivity.
Qed.

End HTTPWorkerEdges.

(** X11. The HTTP worker never retries a request that could not be made:
    [_fetch_page] swallows every exception of the GET (timeouts and
    connection errors included) and reports [(None, 0)], so that the run ends
    as [failed] with [HTTP_ERROR] "HTTP 0", not retryable, whatever the
    attempt number. *)
Theorem fetch_exceptions_are_not_retried {node : Type} `{Dom node} `{PyLib} `{WorkerEnv}
    (session_get : string → list (string * string) → option string → res (string * Z))
    (with_query_param : string → string → Z → string)
    (task : TaskMessage.t) (schema : ParsingSchema.t) :
  _get_schema (TaskMessage.schema_id task) (TaskMessage.schema_version task) = Some schema →
  (∀ url headers proxy, ∃ e, session_get url headers proxy = Raise e) →
  let r := fst (HTTPWorker._execute_task (HTTPSession._fetch_page session_get)
                  with_query_param task) in
  ResultMessage.status r = "failed"
  ∧ ResultMessage.http_status r = Some 0
  ∧ ResultMessage.errors r
    = [ {| ErrorDetail.code := "HTTP_ERROR";
           ErrorDetail.message := "HTTP " +:+ py_str (VInt 0);
           ErrorDetail.is_retryable := false |} ]
  ∧ ResultMessage.should_retry r = false.
Proof.
  intros Hschema Hraise.
  unfold HTTPWorker._execute_task, HTTPWorker.run. rewrite Hschema.
  unfold HTTPSession._fetch_page.
  match goal with |- context [session_get ?u ?h ?p] =>
    destruct (Hraise u h p) as [e ->] end.
  simpl. repeat split; reflexivity.
Qed.

(** The sample task against a server that answers 404 with a body: failed,
    and not to be retried. *)
Lemma unusable_response_fails_witness :
  let result := HTTPWorker._execute_task (H := Sample.dom) (H0 := Sample.lib)
                  (H1 := Sample.env None) (Sample.fetch_status 404)
                  Sample.no_query_rewrite (Sample.task 41 0 1) in
  ResultMessage.status (fst result) = "failed"
  ∧ ResultMessage.http_status (fst result) = Some 404
  ∧ ResultMessage.should_retry (fst result) = false
  ∧ published (snd result) = [].
Proof.
  intros result.
  destruct (unusable_response_fails (H := Sample.dom) (H0 := Sample.lib)
              (H1 := Sample.env None) (Sample.fetch_status 404)
              Sample.no_query_rewrite (Sample.task 41 0 1) (Sample.products None)
              (Some "<html>Service Unavailable</html>") 404)
    as (Hstatus & Hhttp & _ & Hretry & _ & _ & Hpub);
    [reflexivity | reflexivity | right; lia |].
  refine (conj Hstatus (conj Hhttp (conj _ Hpub))).
  reflexivity.
Defined.

(** The catalogue whose price field carries the transformation [substr:x]:
    the extraction raises [ValueError] and the run fails with [UNKNOWN]. *)
Lemma extraction_exception_fails_witness :
  let result := HTTPWorker._execute_task (H := Sample.dom) (H0 := Sample.lib)
                  (H1 := broken_env) (Sample.fetch_status 200)
                  Sample.no_query_rewrite (Sample.task 41 0 1) in
  ResultMessage.status (fst result) = "failed"
  ∧ map ErrorDetail.code (ResultMessage.errors (fst result)) = ["UNKNOWN"]
  ∧ ResultMessage.should_retry (fst result) = false.
Proof.
  intros result.
  destruct (extraction_exception_fails (H := Sample.dom) (H0 := Sample.lib)
              (H1 := broken_env) (Sample.fetch_status 200)
              Sample.no_query_rewrite (Sample.task 41 0 1)
              (DataExtractor.schema
                 (Sample2.with_fields [Sample.name_field; broken_price_field]))
              "<html>Service Unavailable</html>" 200 (ValueError "x"))
    as (Hstatus & Herrors & Hretry & _);
    [reflexivity | reflexivity | discriminate | lia | vm_compute; reflexivity
    | discriminate | discriminate |].
  refine (conj Hstatus (conj _ Hretry)).
  unfold result. rewrite Herrors. reflexivity.
Defined.

(** The sample page extracted on the first attempt of three while the Delta
    writer times out: two records counted, and the run is to be retried. *)
Lemma delta_timeout_retries_witness :
  let result := HTTPWorker._execute_task (H := Sample.dom) (H0 := Sample.lib)
                  (H1 := slow_delta_env) (Sample.fetch_status 200)
                  Sample.no_query_rewrite (Sample.task 41 0 1) in
  ResultMessage.status (fst result) = "retry"
  ∧ ResultMessage.records_extracted (fst result) = 2.
Proof.
  intros result.
  destruct (delta_timeout_retries (H := Sample.dom) (H0 := Sample.lib)
              (H1 := slow_delta_env) (Sample.fetch_status 200)
              Sample.no_query_rewrite (Sample.task 41 0 1) (Sample.products None)
              "<html>Service Unavailable</html>" 200
              [ <["price" := VFloat (123456 # 100)]> (<["name" := VStr "Widget"]> ∅);
                <["price" := VFloat (123456 # 100)]> (<["name" := VStr "Widget"]> ∅) ])
    as (Hstatus & _ & _ & Hcount & _);
    [reflexivity | reflexivity | discriminate | lia | discriminate
    | vm_compute; reflexivity | discriminate | reflexivity |].
  split; [exact Hstatus | exact Hcount].
Defined.

(** The sample task on a host that cannot be reached, first attempt of
    three. *)
Lemma fetch_exceptions_are_not_retried_witness :
  let result := HTTPWorker._execute_task (H := Sample.dom) (H0 := Sample.lib)
                  (H1 := Sample.env None) (HTTPSession._fetch_page unreachable_session)
                  Sample.no_query_rewrite (Sample.task 41 0 1) in
  ResultMessage.status (fst result) = "failed"
  ∧ ResultMessage.should_retry (fst result) = false.
Proof.
  intros result.
  destruct (fetch_exceptions_are_not_retried (H := Sample.dom) (H0 := Sample.lib)
              (H1 := Sample.env None) unreachable_session
              Sample.no_query_rewrite (Sample.task 41 0 1) (Sample.products None))
    as (Hstatus & _ & _ & Hretry);
    [reflexivity | intros; eexists; reflexivity |].
  split; [exact Hstatus | exact Hretry].
Defined.

(** * Further properties of the task coordinator *)

Section CoordinatorEdges.
Import TaskService.

(** No string is both the name and the value of a status. *)
Lemma member_name_is_no_value status :
  in_members status = true → ∃ e, TaskStatus_of status = Raise e.
Proof.
  unfold in_members. intros Hin. apply existsb_exists in Hin as (m & _ & Heq).
  apply String.eqb_eq in Heq. subst status. destruct m; eexists; reflexivity.
Qed.

Lemma assigned_status status :
  (if in_members status then TaskStatus_of status else Ok FAILED) = Ok FAILED
  ∨ (in_members status = true
     ∧ ∃ e, (if in_members status then TaskStatus_of status else Ok FAILED) = Raise e).
Proof.
  destruct (in_members status) eqn:Hin; [|by left].
  right. split; [reflexivity|]. by apply member_name_is_no_value.
Qed.

(** X14. Whatever status string a result carries, [update_from_result]
    never stores a status other than [FAILED]: every row of [tasks] after
    the call is a row as it was before, or is the row of the task with the
    status [FAILED].  A status that spells the name of a member
    (["SUCCESS"], ["FAILED"], ...) makes the call raise, and then nothing is
    stored. *)
Theorem ingestion_only_assigns_failed (now : Z) (task_id run_id : uuid)
    (status : string) (metrics extraction : gmap string pyval) (errors : list pyval)
    (pointers : gmap string pyval) (db : database) :
  let out := update_from_result now task_id run_id status metrics extraction
               errors pointers db in
  (∀ id t', tasks (snd out) !! id = Some t' →
     tasks db !! id = Some t' ∨ (id = task_id ∧ TaskModel.status t' = FAILED))
  ∧ (in_members status = true → is_Some (tasks db !! task_id) →
     (∃ e, fst out = Raise e) ∧ snd out = db)
  ∧ (in_members status = false → is_Some (tasks db !! task_id) →
     run_id ∉ map TaskRunModel.run_id (task_runs db) →
     fst out = Ok tt
     ∧ TaskModel.status <$> tasks (snd out) !! task_id = Some FAILED).
Proof.
  unfold update_from_result. split; [|split].
  - intros id t'. destruct (tasks db !! task_id) as [t|]; [|by left].
    destruct (assigned_status status) as [-> | (_ & e & ->)]; [|by left].
    unfold commit_result. case_bool_decide; [by left|]. simpl.
    destruct (decide (id = task_id)) as [->|Hne].
    + rewrite lookup_insert_eq. intros [= <-]. by right.
    + rewrite lookup_insert_ne by done. by left.
  - intros Hin [t Ht]. rewrite Ht, Hin.
    destruct (member_name_is_no_value _ Hin) as [e ->]. simpl. eauto.
  - intros Hin [t Ht] Hfresh. rewrite Ht, Hin.
    rewrite commit_result_fresh by exact Hfresh. simpl.
    split; [reflexivity|]. by rewrite lookup_insert_eq.
Qed.

Lemma consistent_same_runs db tasks' :
  consistent db →
  (∀ id, is_Some (tasks db !! id) → is_Some (tasks' !! id)) →
  (∀ id t, tasks' !! id = Some t → TaskModel.id t = id ∧ 0 ≤ TaskModel.current_attempt t) →
  consistent {| tasks := tasks'; task_runs := task_runs db |}.
Proof.
  intros (Hnodup & Hruns & Htasks) Hkeep Hrows. split; [exact Hnodup|]. split.
  - intros run Hrun. destruct (Hruns run Hrun) as [Hsome Hatt].
    split; [|exact Hatt]. by apply Hkeep.
  - exact Hrows.
Qed.

(** X15. [cancel], [retry] and [update_from_result] keep the tables
    consistent: run identifiers stay unique, every run belongs to a stored
    task and has an attempt number of at least 1, every task stays under its
    own identifier with a non-negative attempt counter. *)
Theorem service_keeps_tables_consistent (db : database) :
  consistent db →
  (∀ now task_id, consistent (snd (cancel now task_id db)))
  ∧ (∀ _publish_task new_run_id proxy session context task_id,
       consistent (snd (retry _publish_task new_run_id proxy session context task_id db)))
  ∧ (∀ now task_id run_id status metrics extraction errors pointers,
       consistent (snd (update_from_result now task_id run_id status metrics
                          extraction errors pointers db))).
Proof.
  intros Hdb. pose proof Hdb as (Hnodup & Hruns & Htasks). split; [|split].
  - intros now task_id. unfold cancel.
    destruct (tasks db !! task_id) as [t|] eqn:Ht; [|exact Hdb].
    case_bool_decide; simpl; [|exact Hdb].
    apply (consistent_same_runs db); [exact Hdb| |].
    + intros id Hid. destruct (decide (id = task_id)) as [->|Hne].
      * rewrite lookup_insert_eq. eauto.
      * by rewrite lookup_insert_ne.
    + intros id t'. destruct (decide (id = task_id)) as [->|Hne].
      * rewrite lookup_insert_eq. intros [= <-]. simpl. by apply Htasks.
      * rewrite lookup_insert_ne by done. apply Htasks.
  - intros _publish_task new_run_id proxy session context task_id. unfold retry.
    destruct (tasks db !! task_id) as [t|] eqn:Ht; [|exact Hdb].
    case_bool_decide; simpl; [|exact Hdb].
    destruct (row_fits_message t); simpl; [|exact Hdb].
    destruct (_publish_task _); [|exact Hdb]. simpl.
    apply (consistent_same_runs db); [exact Hdb| |].
    + intros id Hid. destruct (decide (id = task_id)) as [->|Hne].
      * rewrite lookup_insert_eq. eauto.
      * by rewrite lookup_insert_ne.
    + intros id t'. destruct (decide (id = task_id)) as [->|Hne].
      * rewrite lookup_insert_eq. intros [= <-]. simpl.
        split; [by apply Htasks | lia].
      * rewrite lookup_insert_ne by done. apply Htasks.
  - intros now task_id run_id status metrics extraction errors pointers.
    unfold update_from_result.
    destruct (tasks db !! task_id) as [t|] eqn:Ht; [|exact Hdb].
    destruct (if in_members status then TaskStatus_of status else Ok FAILED);
      [|exact Hdb].
    unfold commit_result. case_bool_decide as Hdup; [exact Hdb|]. simpl.
    destruct (Htasks _ _ Ht) as [Hid Hatt].
    split; [|split]; simpl.
    + rewrite map_app. simpl. apply NoDup_app. split; [exact Hnodup|].
      split; [|apply NoDup_singleton].
      intros x Hx Hx'. apply list_elem_of_singleton in Hx'. by subst x.
    + intros run Hrun. apply elem_of_app in Hrun as [Hrun|Hrun].
      * destruct (Hruns run Hrun) as [Hsome Hge]. split; [|exact Hge].
        destruct (decide (TaskRunModel.task_id run = task_id)) as [->|Hne].
        -- rewrite lookup_insert_eq. eauto.
        -- by rewrite lookup_insert_ne.
      * apply list_elem_of_singleton in Hrun. subst run. simpl.
        rewrite lookup_insert_eq. split; [eauto | lia].
    + intros id t'. destruct (decide (id = task_id)) as [->|Hne].
      * rewrite lookup_insert_eq. intros [= <-]. simpl. split; [exact Hid | lia].
      * rewrite lookup_insert_ne by done. apply Htasks.
Qed.

Lemma retry_accepts _publish_task new_run_id proxy session context task_id db db' :
  retry _publish_task new_run_id proxy session context task_id db = (Ok true, db') →
  ∃ t, tasks db !! task_id = Some t
       ∧ (TaskModel.status t = FAILED ∨ TaskModel.status t = DLQ)
       ∧ _publish_task (retry_message t new_run_id proxy session context) = Ok tt
       ∧ db' = {| tasks :=
                    <[task_id :=
                      {| TaskModel.id := TaskModel.id t;
                         TaskModel.source_id := TaskModel.source_id t;
                         TaskModel.target_url := TaskModel.target_url t;
                         TaskModel.schema_id := TaskModel.schema_id t;
                         TaskModel.schema_version := TaskModel.schema_version t;
                         TaskModel.mode := TaskModel.mode t;
                         TaskModel.status := QUEUED;
                         TaskModel.priority := TaskModel.priority t;
                         TaskModel.max_attempts := TaskModel.max_attempts t;
                         TaskModel.current_attempt := 0;
                         TaskModel.parent_task_id := TaskModel.parent_task_id t;
                         TaskModel.records_extracted := TaskModel.records_extracted t;
                         TaskModel.records_valid := TaskModel.records_valid t;
                         TaskModel.delta_path := TaskModel.delta_path t;
                         TaskModel.errors := [];
                         TaskModel.started_at := TaskModel.started_at t;
                         TaskModel.completed_at := TaskModel.completed_at t |}]>
                    (tasks db);
                  task_runs := task_runs db |}.
Proof.
  unfold retry. destruct (tasks db !! task_id) as [t|]; [|discriminate].
  case_bool_decide as Hst; simpl; [|discriminate].
  destruct (row_fits_message t); simpl; [|discriminate].
  destruct (_publish_task _) as [[]|e] eqn:Hpub; [|discriminate].
  intros [= <-]. exists t. split; [reflexivity|]. split; [set_solver|].
  split; [exact Hpub | reflexivity].
Qed.

Lemma retry_refused _publish_task new_run_id proxy session context task_id db :
  fst (retry _publish_task new_run_id proxy session context task_id db) ≠ Ok true →
  snd (retry _publish_task new_run_id proxy session context task_id db) = db.
Proof.
  unfold retry. destruct (tasks db !! task_id) as [t|]; [|reflexivity].
  case_bool_decide; simpl; [|reflexivity].
  destruct (row_fits_message t); simpl; [|reflexivity].
  destruct (_publish_task _) as [[]|e]; [|reflexivity].
  simpl. intros Hne. by destruct Hne.
Qed.

(** X16. An accepted [retry] requeues the task and nothing more: the task
    was [FAILED] or [DLQ]; the message published for it starts again at
    attempt 0 and page 1, with no parent and no page limit; the row gets the
    status [QUEUED], the attempt counter 0 and no errors, while the results
    of the failed execution ([records_extracted], [records_valid],
    [delta_path], [completed_at]) and the rows of [task_runs] stay.  In
    every other case, a failed publication included, nothing is stored. *)
Theorem retry_requeues_and_keeps_results
    (_publish_task : TaskMessage.t → res unit) (new_run_id : uuid)
    (proxy session : option string) (context : pyval)
    (task_id : uuid) (db : database) :
  let out := retry _publish_task new_run_id proxy session context task_id db in
  (fst out = Ok true →
   ∃ t t' msg,
     tasks db !! task_id = Some t
     ∧ (TaskModel.status t = FAILED ∨ TaskModel.status t = DLQ)
     ∧ _publish_task msg = Ok tt
     ∧ TaskMessage.task_id msg = TaskModel.id t
     ∧ TaskMessage.run_id msg = new_run_id
     ∧ TaskMessage.attempt msg = 0
     ∧ TaskMessage.page_number msg = 1
     ∧ TaskMessage.max_pages msg = None
     ∧ TaskMessage.parent_task_id msg = None
     ∧ tasks (snd out) = <[task_id := t']> (tasks db)
     ∧ task_runs (snd out) = task_runs db
     ∧ TaskModel.status t' = QUEUED
     ∧ TaskModel.current_attempt t' = 0
     ∧ TaskModel.errors t' = []
     ∧ TaskModel.records_extracted t' = TaskModel.records_extracted t
     ∧ TaskModel.records_valid t' = TaskModel.records_valid t
     ∧ TaskModel.delta_path t' = TaskModel.delta_path t
     ∧ TaskModel.completed_at t' = TaskModel.completed_at t)
  ∧ (fst out ≠ Ok true → snd out = db).
Proof.
  intros out. split; [|apply retry_refused].
  intros Hok. destruct out as [r db'] eqn:Hout. simpl in Hok. subst r.
  destruct (retry_accepts _ _ _ _ _ _ _ _ Hout) as (t & Ht & Hst & Hpub & ->).
  eexists t, _, _. split; [exact Ht|]. split; [exact Hst|].
  split; [exact Hpub|]. simpl. by repeat split.
Qed.

(** X17. [cancel] and [retry] exclude each other.  A task that was
    cancelled cannot be retried and cannot be cancelled a second time; a
    task that [retry] accepts is one that [cancel] refuses, and once it is
    requeued [cancel] accepts it. *)
Theorem cancel_and_retry_exclude_each_other
    (_publish_task : TaskMessage.t → res unit) (new_run_id : uuid)
    (proxy session : option string) (context : pyval)
    (now now' : Z) (task_id : uuid) (db : database) :
  (fst (cancel now task_id db) = true →
   retry _publish_task new_run_id proxy session context task_id
     (snd (cancel now task_id db)) = (Ok false, snd (cancel now task_id db))
   ∧ cancel now' task_id (snd (cancel now task_id db))
     = (false, snd (cancel now task_id db)))
  ∧ (fst (retry _publish_task new_run_id proxy session context task_id db) = Ok true →
     fst (cancel now task_id db) = false
     ∧ fst (cancel now task_id
              (snd (retry _publish_task new_run_id proxy session context task_id db)))
       = true).
Proof.
  split.
  - destruct (cancel now task_id db) as [b db1] eqn:Hcancel. simpl. intros ->.
    revert Hcancel. unfold cancel at 1.
    destruct (tasks db !! task_id) as [t|] eqn:Ht; [|discriminate].
    case_bool_decide as Hst; simpl; [|discriminate]. intros [= <-]. split.
    + unfold retry. simpl. rewrite lookup_insert_eq. simpl. reflexivity.
    + unfold cancel. simpl. rewrite lookup_insert_eq. simpl. reflexivity.
  - intros Hok.
    destruct (retry _publish_task new_run_id proxy session context task_id db)
      as [r db'] eqn:Hout. simpl in Hok. subst r.
    destruct (retry_accepts _ _ _ _ _ _ _ _ Hout) as (t & Ht & Hst & _ & ->).
    simpl. split.
    + unfold cancel. rewrite Ht.
      rewrite bool_decide_eq_false_2; [reflexivity|].
      destruct Hst as [-> | ->]; set_solver.
    + unfold cancel. simpl. rewrite lookup_insert_eq. simpl. reflexivity.
Qed.

End CoordinatorEdges.

(** The queued sample task receives the [success] envelope of run 42: the
    row is stored as [FAILED]. *)
Lemma ingestion_only_assigns_failed_witness :
  let out := TaskService.update_from_result 200 7 42 "success" ∅ ∅ [] ∅
               (Sample.db QUEUED) in
  fst out = Ok tt
  ∧ TaskModel.status <$> tasks (snd out) !! 7%N = Some FAILED.
Proof.
  intros out.
  destruct (ingestion_only_assigns_failed 200 7 42 "success" ∅ ∅ [] ∅ (Sample.db QUEUED))
    as (_ & _ & Hstored).
  apply Hstored; [reflexivity | by eexists | vm_compute; by intros ?%elem_of_nil].
Defined.

(** The sample database is consistent, and stays so when the result of run
    42 is stored. *)
Lemma service_keeps_tables_consistent_witness :
  consistent (Sample.db QUEUED)
  ∧ consistent (snd (TaskService.update_from_result 200 7 42 "success" ∅ ∅ [] ∅
                       (Sample.db QUEUED))).
Proof.
  assert (Hdb : consistent (Sample.db QUEUED)).
  { split; [apply NoDup_nil_2|]. split.
    - intros run Hrun. by apply elem_of_nil in Hrun.
    - intros id t Ht. unfold Sample.db in Ht. cbn [tasks] in Ht.
      apply lookup_singleton_Some in Ht as [<- <-]. simpl. lia. }
  split; [exact Hdb|].
  destruct (service_keeps_tables_consistent (Sample.db QUEUED) Hdb) as (_ & _ & Hupdate).
  apply Hupdate.
Defined.

(** The failed sample task is retried while the bus is up. *)
Lemma retry_requeues_and_keeps_results_witness :
  let out := retry bus_up 43 None None (VDict []) 7 (Sample.db FAILED) in
  fst out = Ok true
  ∧ TaskModel.status <$> tasks (snd out) !! 7%N = Some QUEUED
  ∧ task_runs (snd out) = [].
Proof.
  intros out.
  assert (Hok : fst out = Ok true) by reflexivity.
  destruct (retry_requeues_and_keeps_results bus_up 43 None None (VDict []) 7
              (Sample.db FAILED)) as [Haccepted _].
  destruct (Haccepted Hok)
    as (t & t' & msg & _ & _ & _ & _ & _ & _ & _ & _ & _ & Htasks & Hruns & Hst & _).
  split; [exact Hok|]. split; [|exact Hruns].
  fold out in Htasks. rewrite Htasks, lookup_insert_eq. simpl. by rewrite Hst.
Defined.

(** The queued sample task, cancelled at time 100, can be neither retried
    nor cancelled again. *)
Lemma cancel_and_retry_exclude_each_other_witness :
  let db1 := snd (TaskService.cancel 100 7 (Sample.db QUEUED)) in
  retry bus_up 43 None None (VDict []) 7 db1 = (Ok false, db1)
  ∧ TaskService.cancel 101 7 db1 = (false, db1).
Proof.
  intros db1.
  destruct (cancel_and_retry_exclude_each_other bus_up 43 None None (VDict [])
              100 101 7 (Sample.db QUEUED)) as [Hcancelled _].
  apply Hcancelled. reflexivity.
Defined.

(** * Reasoning on runs with a postcondition *)

Section HoareFacts.
Context `{WorkerEnv}.

Lemma hoare_bind {A B} (P : wstate → Prop) (R : res A → wstate → Prop)
    (Q : res B → wstate → Prop) (m : W A) (k : A → W B) :
  hoare P m R →
  (∀ e s, R (Raise e) s → Q (Raise e) s) →
  (∀ a, hoare (R (Ok a)) (k a) Q) →
  hoare P (m ≫= k) Q.
Proof.
  intros Hm Hraise Hk s r s' Hs. unfold mbind, W_bind.
  destruct (m s) as [[a|e] s1] eqn:Hms.
  - apply Hk. eapply Hm; eauto.
  - intros [= <- <-]. apply Hraise. eapply Hm; eauto.
Qed.

(** A step that keeps the invariant [I], followed by the rest of the run. *)
Lemma hoare_keep {A B} (I : wstate → Prop) (Q : res B → wstate → Prop)
    (m : W A) (k : A → W B) :
  preserves I m →
  (∀ e s, I s → Q (Raise e) s) →
  (∀ a, hoare I (k a) Q) →
  hoare I (m ≫= k) Q.
Proof.
  intros Hm Hraise Hk s r s' Hs. unfold mbind, W_bind.
  destruct (m s) as [[a|e] s1] eqn:Hms.
  - apply Hk. eapply Hm; eauto.
  - intros [= <- <-]. apply Hraise. eapply Hm; eauto.
Qed.

Lemma hoare_finish (I : wstate → Prop) (Q : res ResultMessage.t → wstate → Prop) build :
  (∀ s, I s → Q (Ok (build elapsed_ms (builder s))) s) →
  hoare I (finish build) Q.
Proof. intros HQ s r s' Hs [= <- <-]. by apply HQ. Qed.

(** The end of a failing branch: one error, then the [failed] envelope. *)
Lemma hoare_fail (I : wstate → Prop) (Q : res ResultMessage.t → wstate → Prop)
    code message is_retryable :
  (∀ s, I s →
     Q (Ok (ResultBuilder.build_failed elapsed_ms
              (ResultBuilder.add_error code message is_retryable (builder s))))
       {| builder := ResultBuilder.add_error code message is_retryable (builder s);
          published := published s; trashed := trashed s; drawn := drawn s |}) →
  hoare I (update (ResultBuilder.add_error code message is_retryable)
             ≫= λ _, finish ResultBuilder.build_failed) Q.
Proof. intros HQ s r s' Hs [= <- <-]. by apply HQ. Qed.

End HoareFacts.

(** * Pagination and identity of the HTTP worker's results *)

Section HTTPChildren.
Context {node : Type} `{Dom node} `{PyLib} `{WorkerEnv}.
Variable _fetch_page :
  string → list (string * string) → option string → option string * Z.
Variable with_query_param : string → string → Z → string.

Local Abbreviation run := (HTTPWorker.run _fetch_page with_query_param).
Local Abbreviation _execute_task := (HTTPWorker._execute_task _fetch_page with_query_param).

Local Ltac member :=
  solve [repeat first [apply list_elem_of_here | apply list_elem_of_further]].

Local Ltac keep_nothing_drawn :=
  apply preserves_update; intros ? Hs; exact Hs.

(** X18. A run of the HTTP worker publishes at most one task.  When it
    publishes one, this is the child of the task for the next page
    ([page_number + 1], [parent_task_id] the task's identifier, attempt 0),
    in mode [http]; the task was below its page limit, and the envelope is a
    [success] or [partial] one that announces the same URL as its next
    page. *)
Theorem http_publishes_at_most_one_child (task : TaskMessage.t) :
  let out := _execute_task task in
  published (snd out) = []
  ∨ ∃ schema pagination url,
      _get_schema (TaskMessage.schema_id task) (TaskMessage.schema_version task)
      = Some schema
      ∧ ParsingSchema.pagination schema = Some pagination
      ∧ TaskMessage.page_number task < HTTPWorker.page_limit task pagination
      ∧ published (snd out)
        = [(TaskMessage.child_task task (uuid4 0) (uuid4 1) url
              (TaskMessage.page_number task + 1), "http")]
      ∧ ResultMessage.status (fst out) ∈ ["success"; "partial"]
      ∧ ResultMessage.has_next_page (fst out) = true
      ∧ ResultMessage.next_page_url (fst out) = Some url
      ∧ ResultMessage.current_page (fst out) = TaskMessage.page_number task.
Proof.
  set (Q := λ (r : res ResultMessage.t) (s : wstate),
    published s = []
    ∨ ∃ result schema pagination url,
        r = Ok result
        ∧ _get_schema (TaskMessage.schema_id task) (TaskMessage.schema_version task)
          = Some schema
        ∧ ParsingSchema.pagination schema = Some pagination
        ∧ TaskMessage.page_number task < HTTPWorker.page_limit task pagination
        ∧ published s
          = [(TaskMessage.child_task task (uuid4 0) (uuid4 1) url
                (TaskMessage.page_number task + 1), "http")]
        ∧ ResultMessage.status result ∈ ["success"; "partial"]
        ∧ ResultMessage.has_next_page result = true
        ∧ ResultMessage.next_page_url result = Some url
        ∧ ResultMessage.current_page result = TaskMessage.page_number task).
  assert (Hraise : ∀ e s, nothing_drawn s → Q (Raise e) s).
  { intros e s [Hpub _]. by left. }
  assert (Hrun : hoare nothing_drawn (run task) Q).
  { unfold HTTPWorker.run.
    destruct (_get_schema _ _) as [schema|] eqn:Hschema;
      [|apply hoare_fail; intros s [Hpub _]; by left].
    destruct (_fetch_page _ _ _) as [html http_status].
    do 3 (apply hoare_keep; [keep_nothing_drawn | exact Hraise | intros _]).
    destruct (negb (some_nonempty html) || (400 <=? http_status));
      [apply hoare_fail; intros s [Hpub _]; by left|].
    apply hoare_keep; [apply preserves_lift | exact Hraise | intros records].
    cbv zeta.
    do 2 (apply hoare_keep; [keep_nothing_drawn | exact Hraise | intros _]).
    apply hoare_keep; [|exact Hraise|intros _].
    { destruct (filter _ records); [apply preserves_ret|].
      apply preserves_bind; [apply preserves_lift | intros ?]. keep_nothing_drawn. }
    apply hoare_keep; [|exact Hraise|intros _].
    { apply preserves_when.
      apply preserves_bind; [apply preserves_lift | intros ?].
      intros s r s' Hs [= <- <-]. exact Hs. }
    destruct (ParsingSchema.pagination schema) as [pagination|] eqn:Hpagination;
      [|apply hoare_keep; [apply preserves_ret | exact Hraise | intros _];
        apply hoare_finish; intros s [Hpub _]; by left].
    intros s r s' [Hpub Hdrawn].
    unfold mbind, W_bind, lift, when, update, finish, mret, W_ret,
      HTTPWorker._create_pagination_task, draw_uuid, publish.
    destruct (HTTPWorker._get_next_page_url _ _ _ _) as [next_url|e];
      [|intros [= <- <-]; by left].
    destruct (some_nonempty next_url
              && (TaskMessage.page_number task <? HTTPWorker.page_limit task pagination))
      eqn:Hc; [|intros [= <- <-]; by left].
    apply andb_true_iff in Hc as [Hsome Hlt]. apply Z.ltb_lt in Hlt.
    destruct next_url as [url|]; [|discriminate]. simpl. rewrite Hdrawn, Hpub.
    unfold mbind, W_bind, lift. simpl.
    match goal with
    | |- context [rmq_publish_task ?m ?mode] => destruct (rmq_publish_task m mode)
    end; intros [= <- <-]; [|by left].
    right. eexists _, schema, pagination, url. simpl.
    split_and!; try first [reflexivity | assumption].
    unfold ResultBuilder.build_success. simpl.
    destruct (0 <? _); simpl; member. }
  unfold HTTPWorker._execute_task.
  match goal with |- context [run task ?s] => set (s0 := s) end.
  assert (Hs0 : nothing_drawn s0) by (split; reflexivity).
  destruct (run task s0) as [[result|e] s] eqn:Hrun0;
    pose proof (Hrun _ _ _ Hs0 Hrun0) as [Hpub | Hchild].
  - by left.
  - destruct Hchild as (result' & schema & pagination & url & [= <-] & Hchild).
    right. by exists schema, pagination, url.
  - left. destruct e; exact Hpub.
  - destruct Hchild as (result' & _ & _ & _ & Hno & _). discriminate.
Qed.

Local Ltac step :=
  match goal with
  | |- context [match ?x with Ok _ => _ | Raise _ => _ end] =>
      let Hx := fresh "Hx" in destruct x eqn:Hx
  | |- context [match ?x with [] => _ | _ :: _ => _ end] =>
      let Hx := fresh "Hx" in destruct x eqn:Hx
  | |- context [if ?x then _ else _] =>
      let Hx := fresh "Hx" in destruct x eqn:Hx
  end; unfold mbind, W_bind, lift, mret, W_ret; simpl.

(** X19. The [page_param] rule follows the pages up to the limit and no
    further, whatever the page holds (an empty page included): while
    [page_number] is below the limit the run publishes the child task whose
    URL carries the parameter [page_number + param_step] and whose
    [page_number] is [page_number + 1]; at the limit it publishes nothing. *)
Theorem page_param_follows_to_the_limit (task : TaskMessage.t)
    (schema : ParsingSchema.t) (pagination : PaginationRule.t) (name html : string)
    (http_status : Z) (records : list record) :
  _get_schema (TaskMessage.schema_id task) (TaskMessage.schema_version task) = Some schema →
  ParsingSchema.pagination schema = Some pagination →
  PaginationRule.type pagination = "page_param" →
  PaginationRule.param_name pagination = Some name → name ≠ "" →
  (∀ url headers proxy, _fetch_page url headers proxy = (Some html, http_status)) →
  html ≠ "" → http_status < 400 →
  extract {| DataExtractor.schema := schema;
             DataExtractor.base_url := TaskMessage.target_url task |} html = Ok records →
  (∀ rs a b c d, ∃ path, write_raw_records rs a b c d = Ok path) →
  (∀ rs a b, write_rejected rs a b = Ok tt) →
  (∀ msg mode, rmq_publish_task msg mode = Ok tt) →
  let next_url := with_query_param (TaskMessage.target_url task) name
                    (TaskMessage.page_number task + PaginationRule.param_step pagination) in
  next_url ≠ "" →
  published (snd (_execute_task task))
  = if TaskMessage.page_number task <? HTTPWorker.page_limit task pagination
    then [(TaskMessage.child_task task (uuid4 0) (uuid4 1) next_url
             (TaskMessage.page_number task + 1), "http")]
    else [].
Proof.
  intros Hschema Hpagination Htype Hname Hnonempty Hfetch Hhtml Hst Hext
    Hwrite Hrejected Hpublish next_url Hurl.
  unfold HTTPWorker._execute_task, HTTPWorker.run.
  rewrite Hschema, Hfetch.
  assert (Hc : negb (some_nonempty (Some html)) || (400 <=? http_status) = false).
  { apply orb_false_iff. split.
    - simpl. apply negb_false_iff, negb_true_iff. by apply String.eqb_neq.
    - apply Z.leb_gt. exact Hst. }
  rewrite Hc. cbn [default].
  unfold mbind, W_bind, update, lift, when, finish, mret, W_ret,
    HTTPWorker._create_pagination_task, draw_uuid, publish, trash. simpl.
  rewrite Hext. simpl. rewrite Hpagination.
  unfold HTTPWorker._get_next_page_url. rewrite Hpagination, Htype, Hname.
  assert (Hn : String.eqb name "" = false) by by apply String.eqb_neq.
  assert (Hu : String.eqb next_url "" = false) by by apply String.eqb_neq.
  simpl. rewrite Hn. simpl. fold next_url. rewrite Hu. simpl.
  destruct (TaskMessage.page_number task <? HTTPWorker.page_limit task pagination);
    repeat step; try reflexivity;
    repeat match goal with
    | Hx : write_raw_records ?rs ?a ?b ?c ?d = Raise _ |- _ =>
        destruct (Hwrite rs a b c d) as [? Hok]; congruence
    | Hx : write_rejected ?rs ?a ?b = Raise _ |- _ =>
        rewrite Hrejected in Hx; discriminate
    | Hx : rmq_publish_task ?m ?mode = Raise _ |- _ =>
        rewrite Hpublish in Hx; discriminate
    end.
Qed.

Local Ltac keep_unfailed :=
  apply preserves_update; intros ? ((? & ? & ?) & ?); repeat split; simpl; assumption.

Lemma http_child_preserves_unfailed task parent url :
  preserves (unfailed task) (HTTPWorker._create_pagination_task parent url).
Proof.
  unfold HTTPWorker._create_pagination_task.
  apply preserves_bind; [apply preserves_draw_uuid; intros s Hs; exact Hs | intros ?].
  apply preserves_bind; [apply preserves_draw_uuid; intros s Hs; exact Hs | intros ?].
  apply preserves_bind; [apply preserves_lift | intros ?].
  apply preserves_publish. intros s Hs. exact Hs.
Qed.

Lemma http_envelope_well_formed (task : TaskMessage.t) :
  let r := fst (_execute_task task) in
  ResultMessage.task_id r = TaskMessage.task_id task
  ∧ ResultMessage.run_id r = TaskMessage.run_id task
  ∧ ResultMessage.worker_id r = Some worker_id
  ∧ ((ResultMessage.status r ∈ ["success"; "partial"] ∧ ResultMessage.errors r = [])
     ∨ (ResultMessage.status r ∈ ["failed"; "retry"]
        ∧ length (ResultMessage.errors r) = 1%nat)).
Proof.
  set (shape := λ r : ResultMessage.t,
    ResultMessage.task_id r = TaskMessage.task_id task
    ∧ ResultMessage.run_id r = TaskMessage.run_id task
    ∧ ResultMessage.worker_id r = Some worker_id
    ∧ ((ResultMessage.status r ∈ ["success"; "partial"] ∧ ResultMessage.errors r = [])
       ∨ (ResultMessage.status r ∈ ["failed"; "retry"]
          ∧ length (ResultMessage.errors r) = 1%nat))).
  set (Q := λ (r : res ResultMessage.t) (s : wstate),
    match r with Ok result => shape result | Raise _ => unfailed task s end).
  assert (Hraise : ∀ e s, unfailed task s → Q (Raise e) s) by (intros e s Hs; exact Hs).
  assert (Hfail : ∀ code message is_retryable,
    hoare (unfailed task)
      (update (ResultBuilder.add_error code message is_retryable)
         ≫= λ _, finish ResultBuilder.build_failed) Q).
  { intros code message is_retryable. apply hoare_fail.
    intros s ((Ht & Hr & Hw) & He). unfold Q, shape. simpl.
    split_and!; try assumption. right. split; [member|]. by rewrite He. }
  assert (Hrun : hoare (unfailed task) (run task) Q).
  { unfold HTTPWorker.run.
    destruct (_get_schema _ _) as [schema|]; [|apply Hfail].
    destruct (_fetch_page _ _ _) as [html http_status].
    do 3 (apply hoare_keep; [keep_unfailed | exact Hraise | intros _]).
    destruct (negb (some_nonempty html) || (400 <=? http_status)); [apply Hfail|].
    apply hoare_keep; [apply preserves_lift | exact Hraise | intros records].
    cbv zeta.
    do 2 (apply hoare_keep; [keep_unfailed | exact Hraise | intros _]).
    apply hoare_keep; [|exact Hraise|intros _].
    { destruct (filter _ records); [apply preserves_ret|].
      apply preserves_bind; [apply preserves_lift | intros ?]. keep_unfailed. }
    apply hoare_keep; [|exact Hraise|intros _].
    { apply preserves_when.
      apply preserves_bind; [apply preserves_lift | intros ?].
      intros s r s' Hs [= <- <-]. exact Hs. }
    apply hoare_keep; [|exact Hraise|intros _].
    { destruct (ParsingSchema.pagination schema); [|apply preserves_ret].
      apply preserves_bind; [apply preserves_lift | intros next_url].
      apply preserves_when.
      apply preserves_bind; [keep_unfailed | intros _].
      apply http_child_preserves_unfailed. }
    apply hoare_finish. intros s ((Ht & Hr & Hw) & He). unfold Q, shape.
    unfold ResultBuilder.build_success. simpl.
    split_and!; try assumption. left. split; [|exact He].
    destruct (0 <? _); member. }
  unfold HTTPWorker._execute_task.
  match goal with |- context [run task ?s] => set (s0 := s) end.
  assert (Hs0 : unfailed task s0) by (repeat split).
  destruct (run task s0) as [[result|e] s] eqn:Hrun0;
    pose proof (Hrun _ _ _ Hs0 Hrun0) as Hpost.
  - exact Hpost.
  - destruct Hpost as ((Ht & Hr & Hw) & He).
    destruct e; simpl;
      try destruct (TaskMessage.attempt task <? TaskMessage.max_attempts task);
      simpl; (split_and!; try assumption; right; split; [member | by rewrite He]).
Qed.

(** X20. Every envelope of the HTTP worker names the task, the run and the
    worker, carries one of the statuses [success], [partial], [failed] and
    [retry], and holds at most one error: none on [success] and [partial],
    exactly one on [failed] and [retry]. *)
Theorem http_envelope_shape (task : TaskMessage.t) :
  let r := fst (_execute_task task) in
  ResultMessage.task_id r = TaskMessage.task_id task
  ∧ ResultMessage.run_id r = TaskMessage.run_id task
  ∧ ResultMessage.worker_id r = Some worker_id
  ∧ ((ResultMessage.status r ∈ ["success"; "partial"] ∧ ResultMessage.errors r = [])
     ∨ (ResultMessage.status r ∈ ["failed"; "retry"]
        ∧ length (ResultMessage.errors r) = 1%nat)).
Proof. exact (http_envelope_well_formed task). Qed.

End HTTPChildren.

(** * Further properties of the browser worker *)

Section BrowserEdges.
Context {node : Type} `{Dom node} `{PyLib} `{WorkerEnv}.
Variable new_page : option (list pyval) → res unit.
Variable page_goto : string → res (option Z).
Variable _execute_navigation : ParsingSchema.t → res unit.
Variable _handle_infinite_scroll : ParsingSchema.t → res unit.
Variable page_content : res string.
Variable capture_debug : uuid → string → res (option string * option string).
Variable next_href : string → res pyval.
Variable page_url : string.

Local Abbreviation _execute_task :=
  (BrowserWorker._execute_task new_page page_goto _execute_navigation
     _handle_infinite_scroll page_content capture_debug next_href page_url).

Local Ltac member :=
  solve [repeat first [apply list_elem_of_here | apply list_elem_of_further]].

Local Ltac keep_nothing_drawn :=
  apply preserves_update; intros ? Hs; exact Hs.

Local Ltac keep_unfailed :=
  apply preserves_update; intros ? ((? & ? & ?) & ?); repeat split; simpl; assumption.

(** X21. A navigation that yields no response does not end as an HTTP
    error: the worker passes [None] as [is_retryable], the error record
    rejects it, and the run ends as [failed] with the single error
    [UNKNOWN], not retryable, with status 0 and one request counted. *)
Theorem browser_no_response_is_unknown_error (task : TaskMessage.t)
    (schema : ParsingSchema.t) :
  _get_schema (TaskMessage.schema_id task) (TaskMessage.schema_version task) = Some schema →
  new_page (TaskMessage.cookies task) = Ok tt →
  page_goto (TaskMessage.target_url task) = Ok None →
  let r := fst (_execute_task task) in
  ResultMessage.status r = "failed"
  ∧ map ErrorDetail.code (ResultMessage.errors r) = ["UNKNOWN"]
  ∧ map ErrorDetail.is_retryable (ResultMessage.errors r) = [false]
  ∧ ResultMessage.should_retry r = false
  ∧ ResultMessage.http_status r = Some 0
  ∧ ResultMessage.requests_count r = 1
  ∧ published (snd (_execute_task task)) = [].
Proof.
  intros Hschema Hpage Hgoto.
  unfold BrowserWorker._execute_task, BrowserWorker.run.
  rewrite Hschema. unfold mbind, W_bind, lift, update. simpl.
  rewrite Hpage. simpl. rewrite Hgoto. simpl. by split_and!.
Qed.

Lemma browser_next_page_url schema task url :
  BrowserWorker._get_next_page_url next_href page_url schema task = Some url →
  ∃ pagination selector href,
    ParsingSchema.pagination schema = Some pagination
    ∧ PaginationRule.selector pagination = Some selector
    ∧ next_href selector = Ok (VStr href)
    ∧ href ≠ ""
    ∧ url = if startswith href "javascript:" then page_url else href.
Proof.
  unfold BrowserWorker._get_next_page_url.
  destruct (ParsingSchema.pagination schema) as [pagination|] eqn:Hpagination;
    [|discriminate].
  destruct (PaginationRule.selector pagination) as [selector|] eqn:Hselector;
    [|simpl; discriminate].
  cbn [some_nonempty default].
  destruct (String.eqb selector ""); simpl; [discriminate|].
  destruct (next_href selector) as [[]|] eqn:Hhref; try discriminate.
  match goal with |- context [String.eqb ?h ""] => destruct (String.eqb_spec h "") end;
    [discriminate|].
  intros [= <-].
  match goal with
  | Hh : next_href selector = Ok (VStr ?h) |- _ => exists pagination, selector, h
  end.
  split_and!; first [reflexivity | assumption].
Qed.

(** X22. A run of the browser worker publishes at most one task.  When it
    publishes one, the rule is [next_button] or [load_more], the link found
    by its selector has a non-empty [href], and the task is the child for
    [page_number + 1] in mode [browser] whose URL is the [href] as written
    (the URL of the page itself when the [href] starts with
    [javascript:]). *)
Theorem browser_publishes_at_most_one_child (task : TaskMessage.t) :
  let out := _execute_task task in
  published (snd out) = []
  ∨ ∃ schema pagination selector href,
      _get_schema (TaskMessage.schema_id task) (TaskMessage.schema_version task)
      = Some schema
      ∧ ParsingSchema.pagination schema = Some pagination
      ∧ PaginationRule.type pagination ∈ ["next_button"; "load_more"]
      ∧ PaginationRule.selector pagination = Some selector
      ∧ next_href selector = Ok (VStr href)
      ∧ href ≠ ""
      ∧ published (snd out)
        = [(TaskMessage.child_task task (uuid4 0) (uuid4 1)
              (if startswith href "javascript:" then page_url else href)
              (TaskMessage.page_number task + 1), "browser")]
      ∧ ResultMessage.status (fst out) ∈ ["success"; "partial"]
      ∧ ResultMessage.has_next_page (fst out) = true
      ∧ ResultMessage.current_page (fst out) = TaskMessage.page_number task.
Proof.
  set (Q := λ (r : res ResultMessage.t) (s : wstate),
    published s = []
    ∨ ∃ result schema pagination selector href,
        r = Ok result
        ∧ _get_schema (TaskMessage.schema_id task) (TaskMessage.schema_version task)
          = Some schema
        ∧ ParsingSchema.pagination schema = Some pagination
        ∧ PaginationRule.type pagination ∈ ["next_button"; "load_more"]
        ∧ PaginationRule.selector pagination = Some selector
        ∧ next_href selector = Ok (VStr href)
        ∧ href ≠ ""
        ∧ published s
          = [(TaskMessage.child_task task (uuid4 0) (uuid4 1)
                (if startswith href "javascript:" then page_url else href)
                (TaskMessage.page_number task + 1), "browser")]
        ∧ ResultMessage.status result ∈ ["success"; "partial"]
        ∧ ResultMessage.has_next_page result = true
        ∧ ResultMessage.current_page result = TaskMessage.page_number task).
  assert (Hraise : ∀ e s, nothing_drawn s → Q (Raise e) s).
  { intros e s [Hpub _]. by left. }
  assert (Hrun : hoare nothing_drawn
                   (BrowserWorker.run new_page page_goto _execute_navigation
                      _handle_infinite_scroll page_content capture_debug next_href
                      page_url task) Q).
  { unfold BrowserWorker.run.
    destruct (_get_schema _ _) as [schema|] eqn:Hschema;
      [|apply hoare_fail; intros s [Hpub _]; by left].
    apply hoare_keep; [apply preserves_lift | exact Hraise | intros _].
    apply hoare_keep; [apply preserves_lift | exact Hraise | intros response].
    do 2 (apply hoare_keep; [keep_nothing_drawn | exact Hraise | intros _]).
    destruct response as [status|];
      [|intros s r s' Hs [= <- <-]; by apply Hraise].
    destruct (400 <=? status); [apply hoare_fail; intros s [Hpub _]; by left|].
    do 2 (apply hoare_keep;
            [apply preserves_when, preserves_lift | exact Hraise | intros _]).
    apply hoare_keep; [apply preserves_lift | exact Hraise | intros html].
    apply hoare_keep; [keep_nothing_drawn | exact Hraise | intros _].
    apply hoare_keep; [apply preserves_lift | exact Hraise | intros debug_paths].
    do 2 (apply hoare_keep;
            [apply preserves_when; keep_nothing_drawn | exact Hraise | intros _]).
    apply hoare_keep; [apply preserves_lift | exact Hraise | intros records].
    cbv zeta.
    do 2 (apply hoare_keep; [keep_nothing_drawn | exact Hraise | intros _]).
    apply hoare_keep; [|exact Hraise|intros _].
    { destruct (filter _ records); [apply preserves_ret|].
      apply preserves_bind; [apply preserves_lift | intros ?]. keep_nothing_drawn. }
    intros s r s' [Hpub Hdrawn].
    unfold mbind, W_bind, lift, when, update, finish, mret, W_ret,
      BrowserWorker._create_pagination_task, draw_uuid, publish.
    destruct (String.eqb (BrowserWorker.pagination_type schema) "next_button"
              || String.eqb (BrowserWorker.pagination_type schema) "load_more")
      eqn:Htype; [|intros [= <- <-]; by left].
    destruct (BrowserWorker._get_next_page_url next_href page_url schema task)
      as [url|] eqn:Hnext; [|intros [= <- <-]; by left].
    destruct (some_nonempty (Some url)); [|intros [= <- <-]; by left].
    unfold mbind, W_bind, lift. simpl. rewrite Hdrawn, Hpub.
    match goal with
    | |- context [rmq_publish_task ?m ?mode] => destruct (rmq_publish_task m mode)
    end; intros [= <- <-]; [|by left].
    destruct (browser_next_page_url schema task url Hnext)
      as (pagination & selector & href & Hpagination & Hselector & Hhref & Hne & ->).
    right. eexists _, schema, pagination, selector, href. simpl.
    split_and!; try first [reflexivity | assumption].
    - unfold BrowserWorker.pagination_type in Htype. rewrite Hpagination in Htype.
      apply orb_true_iff in Htype as [Ht|Ht]; apply String.eqb_eq in Ht;
        rewrite Ht; member.
    - unfold ResultBuilder.build_success. simpl. destruct (0 <? _); simpl; member. }
  unfold BrowserWorker._execute_task.
  match goal with |- context [BrowserWorker.run _ _ _ _ _ _ _ _ task ?s] =>
    set (s0 := s) end.
  assert (Hs0 : nothing_drawn s0) by (split; reflexivity).
  destruct (BrowserWorker.run _ _ _ _ _ _ _ _ task s0) as [[result|e] s] eqn:Hrun0;
    pose proof (Hrun _ _ _ Hs0 Hrun0) as [Hpub | Hchild].
  - by left.
  - destruct Hchild as (result' & schema & pagination & selector & href & [= <-] & Hchild).
    right. by exists schema, pagination, selector, href.
  - left. destruct e; exact Hpub.
  - destruct Hchild as (result' & _ & _ & _ & _ & Hno & _). discriminate.
Qed.

Lemma browser_child_preserves_unfailed task parent url :
  preserves (unfailed task) (BrowserWorker._create_pagination_task parent url).
Proof.
  unfold BrowserWorker._create_pagination_task.
  apply preserves_bind; [apply preserves_draw_uuid; intros s Hs; exact Hs | intros ?].
  apply preserves_bind; [apply preserves_draw_uuid; intros s Hs; exact Hs | intros ?].
  apply preserves_bind; [apply preserves_lift | intros ?].
  apply preserves_publish. intros s Hs. exact Hs.
Qed.

Lemma browser_envelope_well_formed (task : TaskMessage.t) :
  let r := fst (_execute_task task) in
  ResultMessage.task_id r = TaskMessage.task_id task
  ∧ ResultMessage.run_id r = TaskMessage.run_id task
  ∧ ResultMessage.worker_id r = Some worker_id
  ∧ ((ResultMessage.status r ∈ ["success"; "partial"] ∧ ResultMessage.errors r = [])
     ∨ (ResultMessage.status r ∈ ["failed"; "retry"]
        ∧ length (ResultMessage.errors r) = 1%nat)).
Proof.
  set (shape := λ r : ResultMessage.t,
    ResultMessage.task_id r = TaskMessage.task_id task
    ∧ ResultMessage.run_id r = TaskMessage.run_id task
    ∧ ResultMessage.worker_id r = Some worker_id
    ∧ ((ResultMessage.status r ∈ ["success"; "partial"] ∧ ResultMessage.errors r = [])
       ∨ (ResultMessage.status r ∈ ["failed"; "retry"]
          ∧ length (ResultMessage.errors r) = 1%nat))).
  set (Q := λ (r : res ResultMessage.t) (s : wstate),
    match r with Ok result => shape result | Raise _ => unfailed task s end).
  assert (Hraise : ∀ e s, unfailed task s → Q (Raise e) s) by (intros e s Hs; exact Hs).
  assert (Hfail : ∀ code message is_retryable,
    hoare (unfailed task)
      (update (ResultBuilder.add_error code message is_retryable)
         ≫= λ _, finish ResultBuilder.build_failed) Q).
  { intros code message is_retryable. apply hoare_fail.
    intros s ((Ht & Hr & Hw) & He). unfold Q, shape. simpl.
    split_and!; try assumption. right. split; [member|]. by rewrite He. }
  assert (Hrun : hoare (unfailed task)
                   (BrowserWorker.run new_page page_goto _execute_navigation
                      _handle_infinite_scroll page_content capture_debug next_href
                      page_url task) Q).
  { unfold BrowserWorker.run.
    destruct (_get_schema _ _) as [schema|]; [|apply Hfail].
    apply hoare_keep; [apply preserves_lift | exact Hraise | intros _].
    apply hoare_keep; [apply preserves_lift | exact Hraise | intros response].
    do 2 (apply hoare_keep; [keep_unfailed | exact Hraise | intros _]).
    destruct response as [status|];
      [|intros s r s' Hs [= <- <-]; by apply Hraise].
    destruct (400 <=? status); [apply Hfail|].
    do 2 (apply hoare_keep;
            [apply preserves_when, preserves_lift | exact Hraise | intros _]).
    apply hoare_keep; [apply preserves_lift | exact Hraise | intros html].
    apply hoare_keep; [keep_unfailed | exact Hraise | intros _].
    apply hoare_keep; [apply preserves_lift | exact Hraise | intros debug_paths].
    do 2 (apply hoare_keep;
            [apply preserves_when; keep_unfailed | exact Hraise | intros _]).
    apply hoare_keep; [apply preserves_lift | exact Hraise | intros records].
    cbv zeta.
    do 2 (apply hoare_keep; [keep_unfailed | exact Hraise | intros _]).
    apply hoare_keep; [|exact Hraise|intros _].
    { destruct (filter _ records); [apply preserves_ret|].
      apply preserves_bind; [apply preserves_lift | intros ?]. keep_unfailed. }
    apply hoare_keep; [|exact Hraise|intros _].
    { apply preserves_when. apply preserves_when.
      apply preserves_bind; [keep_unfailed | intros _].
      apply browser_child_preserves_unfailed. }
    apply hoare_finish. intros s ((Ht & Hr & Hw) & He). unfold Q, shape.
    unfold ResultBuilder.build_success. simpl.
    split_and!; try assumption. left. split; [|exact He].
    destruct (0 <? _); member. }
  unfold BrowserWorker._execute_task.
  match goal with |- context [BrowserWorker.run _ _ _ _ _ _ _ _ task ?s] =>
    set (s0 := s) end.
  assert (Hs0 : unfailed task s0) by (repeat split).
  destruct (BrowserWorker.run _ _ _ _ _ _ _ _ task s0) as [[result|e] s] eqn:Hrun0;
    pose proof (Hrun _ _ _ Hs0 Hrun0) as Hpost.
  - exact Hpost.
  - destruct Hpost as ((Ht & Hr & Hw) & He).
    destruct e; simpl;
      try destruct (TaskMessage.attempt task <? TaskMessage.max_attempts task);
      simpl; (split_and!; try assumption; right; split; [member | by rewrite He]).
Qed.

(** X23. Every envelope of the browser worker names the task, the run and
    the worker, carries one of the statuses [success], [partial], [failed]
    and [retry], and holds at most one error: none on [success] and
    [partial], exactly one on [failed] and [retry]. *)
Theorem browser_envelope_shape (task : TaskMessage.t) :
  let r := fst (_execute_task task) in
  ResultMessage.task_id r = TaskMessage.task_id task
  ∧ ResultMessage.run_id r = TaskMessage.run_id task
  ∧ ResultMessage.worker_id r = Some worker_id
  ∧ ((ResultMessage.status r ∈ ["success"; "partial"] ∧ ResultMessage.errors r = [])
     ∨ (ResultMessage.status r ∈ ["failed"; "retry"]
        ∧ length (ResultMessage.errors r) = 1%nat)).
Proof. exact (browser_envelope_well_formed task). Qed.

End BrowserEdges.

(** The sample catalogue paginated by the parameter [page]: page 1 publishes
    the child task of page 2. *)
Lemma page_param_follows_to_the_limit_witness :
  let out := HTTPWorker._execute_task (H := Sample.dom) (H0 := Sample.lib)
               (H1 := Sample.env (Some Sample3.page_param)) (Sample.fetch_status 200)
               Sample3.page_query (Sample.task 41 0 1) in
  map (λ m, (TaskMessage.target_url (fst m), TaskMessage.page_number (fst m), snd m))
      (published (snd out))
  = [("https://example.com/catalog?page=2", 2, "http")].
Proof.
  intros out. unfold out.
  rewrite (page_param_follows_to_the_limit (H := Sample.dom) (H0 := Sample.lib)
             (H1 := Sample.env (Some Sample3.page_param)) (Sample.fetch_status 200)
             Sample3.page_query (Sample.task 41 0 1)
             (Sample.products (Some Sample3.page_param)) Sample3.page_param "page"
             "<html>Service Unavailable</html>" 200
             [ <["price" := VFloat (123456 # 100)]> (<["name" := VStr "Widget"]> ∅);
               <["price" := VFloat (123456 # 100)]> (<["name" := VStr "Widget"]> ∅) ]);
    [reflexivity | reflexivity | reflexivity | reflexivity | reflexivity | discriminate
    | reflexivity | discriminate | lia | vm_compute; reflexivity
    | intros; eexists; reflexivity | reflexivity | reflexivity | discriminate].
Defined.

(** The sample task in a browser whose navigation yields no response. *)
Lemma browser_no_response_is_unknown_error_witness :
  let out := BrowserWorker._execute_task (H := Sample.dom) (H0 := Sample.lib)
               (H1 := Sample.env None) Sample.new_page Sample3.no_response
               Sample.no_navigation Sample.no_navigation Sample.page_content
               Sample.capture_debug Sample.next_href Sample.page_url (Sample.task 41 0 1) in
  ResultMessage.status (fst out) = "failed"
  ∧ map ErrorDetail.code (ResultMessage.errors (fst out)) = ["UNKNOWN"]
  ∧ ResultMessage.should_retry (fst out) = false.
Proof.
  intros out.
  destruct (browser_no_response_is_unknown_error (H := Sample.dom) (H0 := Sample.lib)
              (H1 := Sample.env None) Sample.new_page Sample3.no_response
              Sample.no_navigation Sample.no_navigation Sample.page_content
              Sample.capture_debug Sample.next_href Sample.page_url (Sample.task 41 0 1)
              (Sample.products None))
    as (Hstatus & Hcode & _ & Hretry & _); [reflexivity | reflexivity | reflexivity |].
  exact (conj Hstatus (conj Hcode Hretry)).
Defined.

(** * The validators of the schema model *)

Section SchemaValidators.

Lemma size_list_to_set_le (l : list string) :
  (size (list_to_set l : gset string) ≤ length l)%nat.
Proof.
  induction l as [|x l IH]; [reflexivity | simpl].
  destruct (decide (x ∈ (list_to_set l : gset string))) as [Hin|Hnotin].
  - replace ({[x]} ∪ list_to_set l : gset string) with (list_to_set l : gset string)
      by set_solver.
    lia.
  - rewrite size_union by set_solver. rewrite size_singleton. lia.
Qed.

Lemma size_list_to_set_NoDup (l : list string) :
  size (list_to_set l : gset string) = length l ↔ NoDup l.
Proof.
  split; [|apply size_list_to_set].
  induction l as [|x l IH]; simpl; [intros _; apply NoDup_nil_2|].
  intros Hsize. pose proof (size_list_to_set_le l) as Hle.
  destruct (decide (x ∈ (list_to_set l : gset string))) as [Hin|Hnotin].
  - exfalso. revert Hsize.
    replace ({[x]} ∪ list_to_set l : gset string) with (list_to_set l : gset string)
      by set_solver.
    lia.
  - rewrite size_union in Hsize by set_solver. rewrite size_singleton in Hsize.
    apply NoDup_cons. split; [set_solver|]. apply IH. lia.
Qed.

(** X24. [validate_unique_field_names] accepts a list of fields exactly when
    no two of them share a name, and returns the list unchanged; any
    repetition of a name is refused with [ValueError]. *)
Theorem unique_field_names_validator (v : list FieldDefinition.t) :
  validate_unique_field_names v
  = if decide (NoDup (map FieldDefinition.name v))
    then Ok v
    else Raise (ValueError "Field names must be unique").
Proof.
  unfold validate_unique_field_names.
  destruct (decide (NoDup (map FieldDefinition.name v))) as [Hnodup|Hdup].
  - apply size_list_to_set_NoDup in Hnodup. rewrite Hnodup, Nat.eqb_refl. reflexivity.
  - destruct (Nat.eqb_spec (length (map FieldDefinition.name v))
                (size (list_to_set (map FieldDefinition.name v) : gset string)))
      as [Heq|Hne]; [|reflexivity].
    exfalso. apply Hdup. by apply size_list_to_set_NoDup.
Qed.

Lemma check_dedup_keys_ok (names : gset string) (v : list string) :
  check_dedup_keys names v = Ok tt ↔ Forall (λ key, key ∈ names) v.
Proof.
  induction v as [|key rest IH]; simpl; [split; [constructor | reflexivity]|].
  case_bool_decide as Hin; simpl.
  - rewrite IH. split; [by constructor | by inversion 1].
  - split; [discriminate | by inversion 1].
Qed.

Lemma check_dedup_keys_raise (names : gset string) (v : list string) e :
  check_dedup_keys names v = Raise e →
  ∃ pre key post,
    v = pre ++ (key :: post)
    ∧ Forall (λ k, k ∈ names) pre
    ∧ (key ∉ names)
    ∧ e = ValueError ("Dedup key '" +:+ key +:+ "' not found in fields").
Proof.
  induction v as [|key rest IH]; simpl; [discriminate|].
  case_bool_decide as Hin; simpl.
  - intros Hrest. destruct (IH Hrest) as (pre & k & post & -> & Hpre & Hk & ->).
    exists (key :: pre), k, post. split_and!; [reflexivity | by constructor | done | done].
  - intros [= <-]. exists [], key, rest. split_and!; [reflexivity | constructor | done | done].
Qed.

(** X25. [validate_dedup_keys] accepts the keys exactly when each of them is
    the name of a field, and returns them unchanged; otherwise it raises
    [ValueError] for the first key that names no field.  When the fields
    are not available (their own validation failed) every list of keys is
    accepted. *)
Theorem dedup_keys_validator (v : list string) (f : FieldDefinition.t)
    (fs : list FieldDefinition.t) :
  let names := map FieldDefinition.name (f :: fs) in
  (validate_dedup_keys v (Some (f :: fs)) = Ok v ↔ Forall (λ key, key ∈ names) v)
  ∧ (∀ e, validate_dedup_keys v (Some (f :: fs)) = Raise e →
       ∃ pre key post,
         v = pre ++ (key :: post)
         ∧ Forall (λ k, k ∈ names) pre
         ∧ (key ∉ names)
         ∧ e = ValueError ("Dedup key '" +:+ key +:+ "' not found in fields"))
  ∧ validate_dedup_keys v None = Ok v
  ∧ validate_dedup_keys v (Some []) = Ok v.
Proof.
  intros names. unfold validate_dedup_keys.
  set (field_names := list_to_set (map FieldDefinition.name (f :: fs)) : gset string).
  assert (Hnames : ∀ k, k ∈ field_names ↔ k ∈ names).
  { intros k. unfold field_names. apply elem_of_list_to_set. }
  split_and!; [| |reflexivity|reflexivity].
  - destruct (check_dedup_keys field_names v) as [[]|e] eqn:Hcheck; simpl.
    + split; [intros _|reflexivity].
      apply check_dedup_keys_ok in Hcheck.
      eapply Forall_impl; [exact Hcheck|]. intros k. apply Hnames.
    + split; [discriminate|]. intros Hall. exfalso.
      assert (Hok : check_dedup_keys field_names v = Ok tt).
      { apply check_dedup_keys_ok. eapply Forall_impl; [exact Hall|].
        intros k. apply Hnames. }
      congruence.
  - intros e. destruct (check_dedup_keys field_names v) as [[]|e'] eqn:Hcheck;
      simpl; [discriminate|]. intros [= <-].
    destruct (check_dedup_keys_raise _ _ _ Hcheck) as (pre & k & post & -> & Hpre & Hk & ->).
    exists pre, k, post. split_and!; [reflexivity | | | reflexivity].
    + eapply Forall_impl; [exact Hpre|]. intros x. apply Hnames.
    + intros Hin. apply Hk. by apply Hnames.
Qed.

End SchemaValidators.

Section ValidatedSchema.
Context {node : Type} `{Dom node} `{PyLib}.

(** X26. The validator and the extractor together: for a schema whose
    fields pass [validate_unique_field_names], every record that [extract]
    emits has one entry per declared field; for a schema that repeats a
    name (which the validator refuses) every record has fewer entries than
    fields, the later field having overwritten the earlier one. *)
Theorem validated_schema_loses_no_field (self : DataExtractor.t) (html : string)
    (records : list record) :
  extract self html = Ok records →
  let fields := ParsingSchema.fields (DataExtractor.schema self) in
  Forall (λ r : record,
            match validate_unique_field_names fields with
            | Ok _ => size r = length fields
            | Raise _ => (size r < length fields)%nat
            end) records.
Proof.
  intros Hext fields.
  eapply Forall_impl; [apply (extract_keys self html records Hext)|].
  intros r Hdom. simpl in Hdom. rewrite <- size_dom, Hdom.
  pose proof (size_list_to_set_le (map FieldDefinition.name fields)) as Hle.
  rewrite length_map in Hle.
  unfold validate_unique_field_names.
  destruct (Nat.eqb_spec (length (map FieldDefinition.name fields))
              (size (list_to_set (map FieldDefinition.name fields) : gset string)))
    as [Heq|Hne]; simpl; rewrite length_map in *; fold fields; lia.
Qed.

End ValidatedSchema.

(** The keys [name] and [sku] against the fields of the sample catalogue:
    [sku] names no field. *)
Lemma dedup_keys_validator_witness :
  validate_dedup_keys ["name"; "sku"] (Some [Sample.name_field; Sample.price_field])
  = Raise (ValueError "Dedup key 'sku' not found in fields")
  ∧ validate_dedup_keys ["name"; "price"] (Some [Sample.name_field; Sample.price_field])
    = Ok ["name"; "price"].
Proof.
  split; [vm_compute; reflexivity|].
  destruct (dedup_keys_validator ["name"; "price"] Sample.name_field
              [Sample.price_field]) as [[_ Hok] _].
  apply Hok. repeat first [apply Forall_cons_2 | apply Forall_nil_2]; vm_compute;
    repeat first [apply list_elem_of_here | apply list_elem_of_further].
Defined.

(** The sample catalogue passes the validator, and the records of the sample
    page have their two entries. *)
Lemma validated_schema_loses_no_field_witness :
  let rec : record := <["price" := VFloat (123456 # 100)]> (<["name" := VStr "Widget"]> ∅) in
  extract (H := Sample.dom) (H0 := Sample.lib) Sample.extractor "<html>" = Ok [rec; rec]
  ∧ Forall (λ r : record, size r = 2%nat) [rec; rec].
Proof.
  intros rec.
  assert (Hext : extract (H := Sample.dom) (H0 := Sample.lib) Sample.extractor "<html>"
                 = Ok [rec; rec]) by (vm_compute; reflexivity).
  split; [exact Hext|].
  exact (validated_schema_loses_no_field (H := Sample.dom) (H0 := Sample.lib)
           Sample.extractor "<html>" [rec; rec] Hext).
Defined.

(** * The [next_button] rule of the HTTP worker *)

Section HTTPNextButton.
Context {node : Type} `{Dom node} `{PyLib} `{WorkerEnv}.
Variable _fetch_page :
  string → list (string * string) → option string → option string * Z.
Variable with_query_param : string → string → Z → string.

Local Abbreviation _execute_task := (HTTPWorker._execute_task _fetch_page with_query_param).

Local Ltac step :=
  match goal with
  | |- context [match ?x with Ok _ => _ | Raise _ => _ end] =>
      let Hx := fresh "Hx" in destruct x eqn:Hx
  | |- context [match ?x with [] => _ | _ :: _ => _ end] =>
      let Hx := fresh "Hx" in destruct x eqn:Hx
  | |- context [if ?x then _ else _] =>
      let Hx := fresh "Hx" in destruct x eqn:Hx
  end; unfold mbind, W_bind, lift, mret, W_ret; simpl.

(** X27. With a [next_button] rule the HTTP worker follows the [href] of
    the first element that matches the selector, joined with the URL of the
    task by [urljoin]: below the page limit it publishes the child task of
    that URL for [page_number + 1], at the limit it publishes nothing. *)
Theorem http_next_button_joins_href (task : TaskMessage.t)
    (schema : ParsingSchema.t) (pagination : PaginationRule.t)
    (selector html href url : string) (http_status : Z) (records : list record)
    (element : node) (others : list node) :
  _get_schema (TaskMessage.schema_id task) (TaskMessage.schema_version task) = Some schema →
  ParsingSchema.pagination schema = Some pagination →
  PaginationRule.type pagination = "next_button" →
  PaginationRule.selector pagination = Some selector → selector ≠ "" →
  (∀ url headers proxy, _fetch_page url headers proxy = (Some html, http_status)) →
  html ≠ "" → http_status < 400 →
  extract {| DataExtractor.schema := schema;
             DataExtractor.base_url := TaskMessage.target_url task |} html = Ok records →
  (∀ rs a b c d, ∃ path, write_raw_records rs a b c d = Ok path) →
  (∀ rs a b, write_rejected rs a b = Ok tt) →
  (∀ msg mode, rmq_publish_task msg mode = Ok tt) →
  css (HTMLParser html) selector = Ok (element :: others) →
  attributes_get element "href" = VStr href → href ≠ "" →
  urljoin (TaskMessage.target_url task) href = Ok url → url ≠ "" →
  published (snd (_execute_task task))
  = if TaskMessage.page_number task <? HTTPWorker.page_limit task pagination
    then [(TaskMessage.child_task task (uuid4 0) (uuid4 1) url
             (TaskMessage.page_number task + 1), "http")]
    else [].
Proof.
  intros Hschema Hpagination Htype Hselector Hnonempty Hfetch Hhtml Hst Hext
    Hwrite Hrejected Hpublish Hcss Hattr Hhref Hjoin Hurl.
  unfold HTTPWorker._execute_task, HTTPWorker.run.
  rewrite Hschema, Hfetch.
  assert (Hc : negb (some_nonempty (Some html)) || (400 <=? http_status) = false).
  { apply orb_false_iff. split.
    - simpl. apply negb_false_iff, negb_true_iff. by apply String.eqb_neq.
    - apply Z.leb_gt. exact Hst. }
  rewrite Hc. cbn [default].
  unfold mbind, W_bind, update, lift, when, finish, mret, W_ret,
    HTTPWorker._create_pagination_task, draw_uuid, publish, trash. simpl.
  rewrite Hext. simpl. rewrite Hpagination.
  unfold HTTPWorker._get_next_page_url. rewrite Hpagination, Htype, Hselector.
  assert (Hs : String.eqb selector "" = false) by by apply String.eqb_neq.
  assert (Hh : String.eqb href "" = false) by by apply String.eqb_neq.
  assert (Hu : String.eqb url "" = false) by by apply String.eqb_neq.
  simpl. rewrite Hs. simpl. rewrite Hcss. simpl. rewrite Hattr, Hh, Hjoin. simpl.
  rewrite Hu. simpl.
  destruct (TaskMessage.page_number task <? HTTPWorker.page_limit task pagination);
    repeat step; try reflexivity;
    repeat match goal with
    | Hx : write_raw_records ?rs ?a ?b ?c ?d = Raise _ |- _ =>
        destruct (Hwrite rs a b c d) as [? Hok]; congruence
    | Hx : write_rejected ?rs ?a ?b = Raise _ |- _ =>
        rewrite Hrejected in Hx; discriminate
    | Hx : rmq_publish_task ?m ?mode = Raise _ |- _ =>
        rewrite Hpublish in Hx; discriminate
    end.
Qed.

End HTTPNextButton.

(** The sample catalogue with its next-page link: page 1 publishes the child
    task of the joined URL. *)
Lemma http_next_button_joins_href_witness :
  let out := HTTPWorker._execute_task (H := Sample.dom) (H0 := Sample.lib)
               (H1 := Sample.env (Some (Sample.next_button 10))) (Sample.fetch_status 200)
               Sample.no_query_rewrite (Sample.task 41 0 1) in
  map (λ m, (TaskMessage.target_url (fst m), TaskMessage.page_number (fst m), snd m))
      (published (snd out))
  = [("https://example.com/catalog/catalog?page=next", 2, "http")].
Proof.
  intros out. unfold out.
  rewrite (http_next_button_joins_href (H := Sample.dom) (H0 := Sample.lib)
             (H1 := Sample.env (Some (Sample.next_button 10))) (Sample.fetch_status 200)
             Sample.no_query_rewrite (Sample.task 41 0 1)
             (Sample.products (Some (Sample.next_button 10))) (Sample.next_button 10)
             "a.next-page" "<html>Service Unavailable</html>" "/catalog?page=next"
             "https://example.com/catalog/catalog?page=next" 200
             [ <["price" := VFloat (123456 # 100)]> (<["name" := VStr "Widget"]> ∅);
               <["price" := VFloat (123456 # 100)]> (<["name" := VStr "Widget"]> ∅) ]
             (Sample.Elem "/catalog?page=next") []);
    [reflexivity | reflexivity | reflexivity | reflexivity | reflexivity | discriminate
    | reflexivity | discriminate | lia | vm_compute; reflexivity
    | intros; eexists; reflexivity | reflexivity | reflexivity
    | reflexivity | reflexivity | discriminate | reflexivity | discriminate].
Defined.

(** * Workers and coordinator together *)

(** X28. What the coordinator stores for a run of a worker.  The envelope of
    any run of the HTTP worker or of the browser worker, handed to
    [update_from_result] for a stored task and with a [run_id] not yet
    stored, is accepted, counts one more attempt and adds a run row with the
    status of the envelope; the status stored for the task is [FAILED]
    whatever the envelope says, [success] included. *)
Theorem worker_results_are_stored_as_failed {node : Type} `{Dom node} `{PyLib}
    `{WorkerEnv}
    (_fetch_page : string → list (string * string) → option string → option string * Z)
    (with_query_param : string → string → Z → string)
    (new_page : option (list pyval) → res unit) (page_goto : string → res (option Z))
    (_execute_navigation _handle_infinite_scroll : ParsingSchema.t → res unit)
    (page_content : res string)
    (capture_debug : uuid → string → res (option string * option string))
    (next_href : string → res pyval) (page_url : string)
    (task : TaskMessage.t) (r : ResultMessage.t) (now : Z)
    (metrics extraction : gmap string pyval) (errors : list pyval)
    (pointers : gmap string pyval) (db : database) (t : TaskModel.t) :
  r = fst (HTTPWorker._execute_task _fetch_page with_query_param task)
  ∨ r = fst (BrowserWorker._execute_task new_page page_goto _execute_navigation
               _handle_infinite_scroll page_content capture_debug next_href page_url
               task) →
  tasks db !! TaskMessage.task_id task = Some t →
  TaskMessage.run_id task ∉ map TaskRunModel.run_id (task_runs db) →
  let out := TaskService.update_from_result now (ResultMessage.task_id r)
               (ResultMessage.run_id r) (ResultMessage.status r)
               metrics extraction errors pointers db in
  fst out = Ok tt
  ∧ TaskModel.status <$> tasks (snd out) !! TaskMessage.task_id task = Some FAILED
  ∧ TaskModel.current_attempt <$> tasks (snd out) !! TaskMessage.task_id task
    = Some (TaskModel.current_attempt t + 1)
  ∧ map TaskRunModel.status (task_runs (snd out))
    = map TaskRunModel.status (task_runs db) ++ [ResultMessage.status r].
Proof.
  intros Hr Ht Hfresh.
  assert (Hshape : ResultMessage.task_id r = TaskMessage.task_id task
                   ∧ ResultMessage.run_id r = TaskMessage.run_id task
                   ∧ ResultMessage.status r ∈ ["success"; "partial"; "failed"; "retry"]).
  { assert (Hmem : ∀ st : string,
      st ∈ ["success"; "partial"] ∨ st ∈ ["failed"; "retry"] →
      st ∈ ["success"; "partial"; "failed"; "retry"]).
    { intros st [Hst|Hst];
        repeat (apply elem_of_cons in Hst as [->|Hst];
                [solve [repeat first [apply list_elem_of_here
                                     | apply list_elem_of_further]]|]);
        by apply elem_of_nil in Hst. }
    destruct Hr as [-> | ->].
    - destruct (http_envelope_well_formed _fetch_page with_query_param task)
        as (Hid & Hrun & _ & Hst).
      split_and!; [exact Hid | exact Hrun |]. apply Hmem. tauto.
    - destruct (browser_envelope_well_formed new_page page_goto _execute_navigation
                  _handle_infinite_scroll page_content capture_debug next_href
                  page_url task) as (Hid & Hrun & _ & Hst).
      split_and!; [exact Hid | exact Hrun |]. apply Hmem. tauto. }
  destruct Hshape as (Hid & Hrun & Hstatus).
  intros out. unfold out, TaskService.update_from_result.
  rewrite Hid, Hrun, Ht, (worker_status_maps_to_failed _ Hstatus).
  rewrite commit_result_fresh by exact Hfresh. simpl.
  rewrite lookup_insert_eq. simpl. split_and!; try reflexivity.
  rewrite map_app. reflexivity.
Qed.

(** The sample page is extracted with success, and the queued sample task is
    stored as [FAILED]. *)
Lemma worker_results_are_stored_as_failed_witness :
  let r := fst (HTTPWorker._execute_task (H := Sample.dom) (H0 := Sample.lib)
                  (H1 := Sample.env None) (Sample.fetch_status 200)
                  Sample.no_query_rewrite (Sample.task 41 0 1)) in
  let out := TaskService.update_from_result 200 (ResultMessage.task_id r)
               (ResultMessage.run_id r) (ResultMessage.status r) ∅ ∅ [] ∅
               (Sample.db QUEUED) in
  ResultMessage.status r = "success"
  ∧ fst out = Ok tt
  ∧ TaskModel.status <$> tasks (snd out) !! 7%N = Some FAILED.
Proof.
  intros r out. split; [vm_compute; reflexivity|].
  destruct (worker_results_are_stored_as_failed (H := Sample.dom) (H0 := Sample.lib)
              (H1 := Sample.env None) (Sample.fetch_status 200) Sample.no_query_rewrite
              Sample.new_page Sample.page_goto Sample.no_navigation Sample.no_navigation
              Sample.page_content Sample.capture_debug Sample.next_href Sample.page_url
              (Sample.task 41 0 1) r 200 ∅ ∅ [] ∅ (Sample.db QUEUED)
              (Sample.stored QUEUED))
    as (Hok & Hstored & _);
    [left; reflexivity | reflexivity | vm_compute; by intros ?%elem_of_nil |].
  exact (conj Hok Hstored).
Defined.

(** * The names of the transformations *)

Section TransformationNames.
Context `{PyLib}.

Lemma lower_chr_idem c : lower_chr (lower_chr c) = lower_chr c.
Proof.
  destruct c as [b0 b1 b2 b3 b4 b5 b6 b7].
  destruct b0, b1, b2, b3, b4, b5, b6, b7; reflexivity.
Qed.

Lemma lower_chr_colon c : chr_eqb ":" (lower_chr c) = chr_eqb ":" c.
Proof.
  destruct c as [b0 b1 b2 b3 b4 b5 b6 b7].
  destruct b0, b1, b2, b3, b4, b5, b6, b7; reflexivity.
Qed.

Lemma str_lower_idem s : str_lower (str_lower s) = str_lower s.
Proof.
  unfold str_lower. rewrite to_text_of_text, map_map. f_equal.
  apply map_ext. intros c. apply lower_chr_idem.
Qed.

Lemma str_lower_colon s :
  has_chr ":" (to_text (str_lower s)) = has_chr ":" (to_text s).
Proof.
  unfold str_lower, has_chr. rewrite to_text_of_text.
  induction (to_text s) as [|c l IH]; [reflexivity|].
  simpl. by rewrite lower_chr_colon, IH.
Qed.

Lemma is_prefix_has_chr c p l :
  has_chr c p = true → is_prefix p l = true → has_chr c l = true.
Proof.
  unfold has_chr. revert l. induction p as [|x p IH]; intros l; [discriminate|].
  destruct l as [|y l]; simpl; [discriminate|].
  intros Hc Hp. apply andb_true_iff in Hp as [Hxy Hp].
  apply orb_true_iff in Hc as [Hc|Hc].
  - apply orb_true_iff. left.
    apply chr_eqb_eq in Hxy. by subst y.
  - apply orb_true_iff. right. by apply IH.
Qed.

Lemma no_colon_no_prefix s p :
  has_chr ":" (to_text p) = true → has_chr ":" (to_text s) = false →
  startswith s p = false.
Proof.
  intros Hp Hs. unfold startswith.
  destruct (is_prefix (to_text p) (to_text s)) eqn:E; [|reflexivity].
  rewrite (is_prefix_has_chr _ _ _ Hp E) in Hs. discriminate.
Qed.

(** X29. The name of a transformation is matched without regard to case:
    a transformation without a colon behaves as its lower-cased form.  A
    name that, lower-cased, is none of the known names leaves the value as
    it is. *)
Theorem transformation_names_ignore_case (value : pyval) (transform base_url : string) :
  has_chr ":" (to_text transform) = false →
  _apply_single_transform value transform base_url
  = _apply_single_transform value (str_lower transform) base_url
  ∧ (str_lower transform ∉ known_transformations →
     _apply_single_transform value transform base_url = Ok value).
Proof.
  intros Hcolon.
  assert (Hlower : has_chr ":" (to_text (str_lower transform)) = false)
    by by rewrite str_lower_colon.
  assert (Hregex : startswith (str_lower transform) "regex:" = false)
    by (apply no_colon_no_prefix; [reflexivity | exact Hlower]).
  assert (Hreplace : startswith (str_lower transform) "replace:" = false)
    by (apply no_colon_no_prefix; [reflexivity | exact Hlower]).
  assert (Hsubstr : startswith (str_lower transform) "substr:" = false)
    by (apply no_colon_no_prefix; [reflexivity | exact Hlower]).
  split.
  - unfold _apply_single_transform. cbv zeta.
    rewrite str_lower_idem, Hregex, Hreplace, Hsubstr. reflexivity.
  - intros Hunknown.
    assert (Hne : ∀ n, n ∈ known_transformations →
                       String.eqb (str_lower transform) n = false).
    { intros n Hn. apply String.eqb_neq. intros Heq. apply Hunknown. by rewrite Heq. }
    unfold _apply_single_transform. cbv zeta.
    rewrite Hregex, Hreplace, Hsubstr.
    repeat match goal with
    | |- context [String.eqb (str_lower transform) ?n] =>
        rewrite (Hne n)
          by (repeat first [apply list_elem_of_here | apply list_elem_of_further])
    end.
    by destruct value.
Qed.

End TransformationNames.

(** [TRIM] trims, and [shout] changes nothing. *)
Lemma transformation_names_ignore_case_witness :
  _apply_single_transform (H := Sample.lib) (VStr "  Widget ") "TRIM" ""
  = Ok (VStr "Widget")
  ∧ _apply_single_transform (H := Sample.lib) (VInt 5) "shout" "" = Ok (VInt 5).
Proof.
  destruct (transformation_names_ignore_case (H := Sample.lib) (VStr "  Widget ")
              "TRIM" "" eq_refl) as [Hcase _].
  destruct (transformation_names_ignore_case (H := Sample.lib) (VInt 5)
              "shout" "" eq_refl) as [_ Hunknown].
  split.
  - rewrite Hcase. reflexivity.
  - apply Hunknown. vm_compute.
    intros Hin. repeat (apply elem_of_cons in Hin as [Hin|Hin]; [discriminate Hin|]).
    by apply elem_of_nil in Hin.
Defined.
